(** * Aries DeFi risk engine: a shallow embedding of the Express backend

    The development follows the backend's source files, one module per file:
    the two authentication middlewares and the server's global middleware and
    error handler, the privacy controller, the in-memory ZK-proof service, the
    risk service, the two NFT minting services and the mock banking service.
    Definitions come first; the properties proved about them follow in the
    second half of the file.

    Conventions.

    - Objects.  A JavaScript object used as a dictionary is a [gmap] over
      its own keys; a property that is absent is [None] or [JS.Undefined].
    - Effects.  [console.log] and [console.error] calls are collected, in
      order, in a list of [Console.entry].  [Math.random()] and the clock are
      explicit inputs: [rand n] is the [n]-th random draw and [clock n] the
      [n]-th reading of the clock, and a [Runtime.world] counts the draws
      and readings made so far.  The body of an async function or of a timer
      callback runs without interleaving and is one function from the state
      before it to its result and the state after it.
    - Numbers.  A Number is modelled by the number it denotes, and the
      rounding of IEEE doubles is not modelled.  The risk service, which
      takes square roots, computes in [R]; the other services, which scale,
      floor and compare, compute in [Q] and can be run; [JS.number] adds NaN
      where the code tests for it.
    - Dates.  A date read from the clock is kept as its time value in
      milliseconds.
    - What the runtime or a package provides and the sources do not contain
      ([jwt.verify], the proof service behind the privacy controller, the
      connected blockchain, the printing of numbers in a radix, the calendar)
      is a variable of the section that uses it. *)

From Stdlib Require Import Ascii HexadecimalString ZArith QArith Qround Reals Lra Lia.
From Stdlib Require Import Qabs Sorted.
From Stdlib Require Lqa.
From stdpp Require Import base option list gmap strings pretty.

Local Open Scope string_scope.

(** ** The console *)

Module Console.

Inductive entry :=
| Log (args : list string)
| Warn (args : list string)
| Error (args : list string).

End Console.

(** ** middleware/auth.js and middleware/auth.middleware.js
       (src/unnamed/part_005, lines 1-87) *)

Module AuthMiddleware.

Record user := mk_user {
  id : string;
  email : string;
  name : option string
}.

(** The part of an Express request the middlewares read and write: the
    headers, keyed by lower-case name as [req.header] looks them up, and
    [req.user]. *)
Record request := mk_request {
  headers : gmap string string;
  req_user : option user
}.

Definition set_user (u : option user) (req : request) : request :=
  {| headers := headers req; req_user := u |}.

(** What a middleware does with a request: hands it to the next handler, or
    ends it with [res.status(s).json({ message })]. *)
Inductive outcome :=
| Next (req : request)
| Reply (status : nat) (message : string).

Record env := mk_env {
  NODE_ENV : option string;
  JWT_SECRET : option string
}.

(** [s || d] for an environment variable. *)
Definition or_default (v : option string) (d : string) : string :=
  match v with
  | Some s => if decide (s = "") then d else s
  | None => d
  end.

(** [!token] for a header value. *)
Definition missing (token : option string) : bool :=
  match token with
  | Some s => bool_decide (s = "")
  | None => true
  end.

Definition demo_user : user :=
  {| id := "demo_user_123"; email := "demo@example.com"; name := Some "Demo User" |}.

Definition mock_user : user :=
  {| id := "mock_user_id"; email := "demo@example.com"; name := None |}.

(** middleware/auth.js: the demo bypass. *)
Definition auth (req : request) : outcome * list Console.entry :=
  (Next (set_user (Some demo_user) req),
   [Console.Log ["AUTH MIDDLEWARE: Token validation bypassed for hackathon demo"]]).

Section WithJwt.

(** [jwt.verify(token, secret)]: [inl msg] when it throws an error with
    message [msg], [inr u] when it returns a payload whose [user] is [u]. *)
Variable jwt_verify : string -> string -> string + option user.

(** middleware/auth.middleware.js. *)
Definition auth_middleware (e : env) (req : request) : outcome * list Console.entry :=
  let token := headers req !! "x-auth-token" in
  if missing token then (Reply 401 "No token, authorization denied", [])
  else
    let isDevelopment := negb (bool_decide (NODE_ENV e = Some "production")) in
    if isDevelopment then
      (Next (set_user (Some mock_user) req),
       [Console.Log ["Development mode: Creating mock user from token"]])
    else
      match jwt_verify (default "" token) (or_default (JWT_SECRET e) "default_secret_key") with
      | inr u => (Next (set_user u req), [])
      | inl msg =>
          (Reply 401 "Token is not valid",
           [Console.Error ["Auth middleware error:"; msg]])
      end.

End WithJwt.

End AuthMiddleware.

(** ** The server: global middleware and error handler
       (src/unnamed/part_005, lines 88-191) *)

Module Server.

Import AuthMiddleware.

(** The global bypass installed with [app.use]; [logged] is
    [global.authBypassLogged].  It always calls [next()]. *)
Definition global_bypass (logged : bool) (req : request)
  : request * bool * list Console.entry :=
  (set_user (Some demo_user) req,
   true,
   if logged then []
   else [Console.Log ["🔑 HACKATHON DEMO MODE: Authentication bypass enabled"]]).

Record js_error := mk_error {
  err_name : string;
  err_message : string;
  err_stack : string
}.

(** A JSON response: the status and the body's string properties. *)
Record response := mk_response {
  status : nat;
  body : list (string * string)
}.

(** The error-handling middleware [(err, req, res, next) => ...]. *)
Definition error_handler (e : env) (err : js_error) : response * list Console.entry :=
  if bool_decide (err_name err = "MongoError") || bool_decide (err_name err = "MongoNetworkError")
  then
    ({| status := 200;
        body := [("message", "Operation succeeded (memory-only mode)");
                 ("warning", "Database unavailable, changes will not persist")] |},
     [Console.Error [err_stack err];
      Console.Log ["⚠️ MongoDB operation failed, but continuing in memory-only mode"]])
  else
    ({| status := 500;
        body := [("message", "Something went wrong!");
                 ("error", if bool_decide (NODE_ENV e = Some "development")
                           then err_message err else "Internal server error")] |},
     [Console.Error [err_stack err]]).

End Server.

(** ** JavaScript values as they arrive in a JSON body *)

Module JS.

(** A Number other than an infinity: [NaN], or a finite value given by the
    rational it denotes. *)
Inductive number :=
| NaN
| Fin (q : Q).

Inductive scalar :=
| Undefined
| Null
| Bool (b : bool)
| Num (x : number)
| Str (s : string).

(** A value is a scalar, an object whose properties are scalars, or an array
    of scalars. *)
Inductive value :=
| Scalar (s : scalar)
| Object (props : gmap string scalar)
| Array (items : list scalar).

(** ToBoolean. *)
Definition truthy_scalar (s : scalar) : bool :=
  match s with
  | Undefined | Null => false
  | Bool b => b
  | Num NaN => false
  | Num (Fin q) => negb (Qeq_bool q 0)
  | Str s => negb (bool_decide (s = ""))
  end.

Definition truthy (v : value) : bool :=
  match v with
  | Scalar s => truthy_scalar s
  | Object _ | Array _ => true
  end.

(** [v.k] for one of the property names the controller reads ([type],
    [value], [min], [max]): an object's own property, and [undefined] on an
    array or on a boolean, number or string.  ([null] and [undefined] have no
    properties; the controller reads none from them.) *)
Definition get (v : value) (k : string) : scalar :=
  match v with
  | Object props => default Undefined (props !! k)
  | Scalar _ | Array _ => Undefined
  end.

(** [s === lit] for a string literal [lit]. *)
Definition is_string (s : scalar) (lit : string) : bool :=
  match s with
  | Str x => bool_decide (x = lit)
  | _ => false
  end.

Section WithStringToNumber.

(** StringToNumber, the runtime's parser of numeric strings. *)
Variable StringToNumber : string -> number.

(** ToNumber, as [Number(x)] and [isNaN(x)] apply it. *)
Definition ToNumber (s : scalar) : number :=
  match s with
  | Undefined => NaN
  | Null => Fin 0
  | Bool b => Fin (if b then 1 else 0)
  | Num x => x
  | Str s => StringToNumber s
  end.

Definition isNaN (s : scalar) : bool :=
  match ToNumber s with
  | NaN => true
  | Fin _ => false
  end.

(** [a >= b]: two strings are compared as strings, anything else as
    numbers, and a comparison with NaN is false. *)
Definition ge (a b : scalar) : bool :=
  match a, b with
  | Str x, Str y => negb (String.ltb x y)
  | _, _ =>
      match ToNumber a, ToNumber b with
      | Fin x, Fin y => Qle_bool y x
      | _, _ => false
      end
  end.

End WithStringToNumber.

Section Relational.

Variable StringToNumber : string -> number.
Variable NumberToString : number -> string.

(** ToString of an array item, as [Array.prototype.join] applies it. *)
Definition join_item (s : scalar) : string :=
  match s with
  | Undefined | Null => ""
  | Bool b => if b then "true" else "false"
  | Num n => NumberToString n
  | Str s => s
  end.

(** ToNumber of a value: an object is converted to the string
    ["[object Object]"] first, and an array to its items joined by commas. *)
Definition ToNumberOf (v : value) : number :=
  match v with
  | Scalar s => ToNumber StringToNumber s
  | Object _ => StringToNumber "[object Object]"
  | Array items => StringToNumber (String.concat "," (map join_item items))
  end.

(** [v < n] and [v > n] for a number literal [n]: false when [v] converts
    to NaN. *)
Definition lt_literal (v : value) (n : Q) : bool :=
  match ToNumberOf v with
  | Fin x => negb (Qle_bool n x)
  | NaN => false
  end.

Definition gt_literal (v : value) (n : Q) : bool :=
  match ToNumberOf v with
  | Fin x => negb (Qle_bool x n)
  | NaN => false
  end.

End Relational.

(** [a[i]] for an integer [i]: [None] is [undefined]. *)
Definition at_index {A} (a : list A) (i : Z) : option A :=
  if (i <? 0)%Z then None else a !! Z.to_nat i.

(** [a.slice(start)] for an integer [start]. *)
Definition slice_from {A} (start : Z) (a : list A) : list A :=
  let len := Z.of_nat (length a) in
  let k := if (start <? 0)%Z then Z.max (len + start) 0 else Z.min start len in
  drop (Z.to_nat k) a.

(** The names that every object created by an object literal inherits from
    [Object.prototype] (which the program leaves as the runtime has it):
    for one of these names [k], and an object [o] without an own property
    [k], the value of [o[k]] is a function (for [__proto__], the prototype
    object itself) and not [undefined]. *)
Definition Object_prototype : list string :=
  ["constructor"; "__defineGetter__"; "__defineSetter__"; "hasOwnProperty";
   "__lookupGetter__"; "__lookupSetter__"; "isPrototypeOf"; "propertyIsEnumerable";
   "toString"; "valueOf"; "__proto__"; "toLocaleString"].

Definition inherited (k : string) : bool := bool_decide (k ∈ Object_prototype).

(** A string of ASCII characters only.  Strings are modelled as strings of
    bytes, and the case mappings below change the letters of ASCII and
    keep every other byte; on a string of ASCII characters they are
    [String.prototype.toUpperCase] and [toLowerCase]. *)
Fixpoint ascii_only (s : string) : bool :=
  match s with
  | EmptyString => true
  | String c s' => (nat_of_ascii c <? 128)%nat && ascii_only s'
  end.

End JS.

(** ** controllers/privacy.controller.js *)

Module PrivacyController.

Import JS.

Record request := mk_request {
  req_body : option (gmap string value);
  req_user : option AuthMiddleware.user
}.

Section WithService.

Variable StringToNumber : string -> number.

(** services/real-zk.service is not part of the modelled sources: its two
    proof generators are parameters.  [inl msg] is a rejected promise (or a
    throw) with message [msg], [inr p] the proof it resolves with. *)
Variable proof : Type.
Variable generateEqualityProof : string -> number -> string + proof.
Variable generateRangeProof : string -> number -> number -> number -> string + proof.

Inductive body :=
| Message (message : string)
| InvalidType (message : string)
| ServerError (message error : string)
| Proof (p : proof).

Record response := mk_response {
  status : nat;
  json : body
}.

Definition bad_request (m : string) : string + response :=
  inr {| status := 400; json := Message m |}.

Definition ok (r : string + proof) : string + response :=
  match r with
  | inl msg => inl msg
  | inr p => inr {| status := 200; json := Proof p |}
  end.

(** The [try] block of [generateProof]: [inl msg] when it throws. *)
Definition generateProof_try (req : request) : string + response :=
  match req_body req with
  | None => inl "Cannot destructure property 'statement' of 'req.body' as it is undefined."
  | Some b =>
  let statement := default (Scalar Undefined) (b !! "statement") in
  match req_user req with
  | None => inl "Cannot read properties of undefined (reading 'id')"
  | Some u =>
  let userId := AuthMiddleware.id u in
  if negb (truthy statement) then bad_request "Valid statement object is required"
  else if is_string (get statement "type") "equality" then
    if negb (truthy_scalar (get statement "value")) || isNaN StringToNumber (get statement "value")
    then bad_request "Valid numeric value is required for equality proof"
    else ok (generateEqualityProof userId (ToNumber StringToNumber (get statement "value")))
  else if is_string (get statement "type") "range" then
    if negb (truthy_scalar (get statement "min")) || isNaN StringToNumber (get statement "min")
       || negb (truthy_scalar (get statement "max")) || isNaN StringToNumber (get statement "max")
    then bad_request "Valid min and max values are required for range proof"
    else if ge StringToNumber (get statement "min") (get statement "max")
    then bad_request "Min value must be less than max value"
    else if negb (truthy_scalar (get statement "value")) || isNaN StringToNumber (get statement "value")
    then bad_request "Valid numeric value is required for range proof"
    else ok (generateRangeProof userId
               (ToNumber StringToNumber (get statement "value"))
               (ToNumber StringToNumber (get statement "min"))
               (ToNumber StringToNumber (get statement "max")))
  else inr {| status := 400;
              json := InvalidType "Invalid proof type. Supported types: equality, range" |}
  end
  end.

(** [exports.generateProof]: the [try] block and its [catch]. *)
Definition generateProof (req : request) : response * list Console.entry :=
  match generateProof_try req with
  | inr r => (r, [])
  | inl msg =>
      ({| status := 500; json := ServerError "Server error" msg |},
       [Console.Error ["Error generating ZK-proof:"; msg]])
  end.

End WithService.

Arguments Message {proof}.
Arguments InvalidType {proof}.
Arguments ServerError {proof}.
Arguments Proof {proof}.
Arguments status {proof}.
Arguments json {proof}.

End PrivacyController.

(** ** The runtime's sources of non-determinism *)

Module Runtime.

(** How many random numbers have been drawn and how often the clock has
    been read. *)
Record world := mk_world {
  draws : nat;
  ticks : nat
}.

Section Oracles.

Context {num : Type}.

(** [rand n] is what the [n]-th call of [Math.random()] returns; [clock n]
    is the time, in milliseconds since the epoch, at the [n]-th reading of
    the clock ([Date.now()] or [new Date()]). *)
Variable rand : nat -> num.
Variable clock : nat -> Z.

Definition Math_random (w : world) : num * world :=
  (rand (draws w), {| draws := S (draws w); ticks := ticks w |}).

Definition Date_now (w : world) : Z * world :=
  (clock (ticks w), {| draws := draws w; ticks := S (ticks w) |}).

End Oracles.

End Runtime.

(** ** The privacy service and its in-memory proof store
       (src/unnamed/part_004) *)

Module PrivacyService.

Import JS Runtime.

Record groth16 := mk_groth16 {
  pi_a : list string;
  pi_b : list (list string);
  pi_c : list string;
  protocol : string
}.

Record verification_key := mk_vk {
  vk_protocol : string;
  vk_curve : string;
  vk_nPublic : nat
}.

(** Dates are kept as their time value in milliseconds: [toISOString] and
    [new Date(string)] are inverse to each other on them. *)
Record zkproof := mk_zkproof {
  id : string;
  userId : string;
  statement : gmap string scalar;
  proof : groth16;
  publicSignals : list string;
  verificationKey : verification_key;
  createdAt : Z;
  expiresAt : Z
}.

Record bbs := mk_bbs {
  signature : string;
  nonce : string;
  context : string
}.

Record disclosure := mk_disclosure {
  d_id : string;
  d_userId : string;
  d_fields : list string;
  d_disclosedData : gmap string scalar;
  d_proof : bbs;
  d_createdAt : Z;
  d_expiresAt : Z
}.

(** [mockProofs] holds the proofs of [generateZKProof] and the disclosures of
    [generateSelectiveDisclosure]. *)
Inductive entry :=
| ZKProof (p : zkproof)
| Disclosure (d : disclosure).

Definition entry_userId (e : entry) : string :=
  match e with
  | ZKProof p => userId p
  | Disclosure d => d_userId d
  end.

Definition entry_expiresAt (e : entry) : Z :=
  match e with
  | ZKProof p => expiresAt p
  | Disclosure d => d_expiresAt d
  end.

(** [entry.statement]: [None] is [undefined]. *)
Definition entry_statement (e : entry) : option (gmap string scalar) :=
  match e with
  | ZKProof p => Some (statement p)
  | Disclosure _ => None
  end.

Record state := mk_state {
  mockProofs : gmap string entry;
  world_of : world
}.

(** The two placeholder field elements of the mock proof. *)
Definition big : string :=
  "12345678901234567890123456789012345678901234567890123456789012345678901234567890".
Definition small : string :=
  "98765432109876543210987654321098765432109876543210987654321098765432109876543210".

Definition mock_groth16 : groth16 :=
  {| pi_a := [big; small; "1"];
     pi_b := [[big; small]; [big; small]; ["1"; "0"]];
     pi_c := [big; small; "1"];
     protocol := "groth16" |}.

Definition mock_vk : verification_key :=
  {| vk_protocol := "groth16"; vk_curve := "bn128"; vk_nPublic := 3 |}.

(** What the promise of [generateZKProof] resolves with. *)
Record generated := mk_generated {
  g_success : bool;
  g_proofId : string;
  g_type : scalar;
  g_condition : scalar;
  g_threshold : scalar;
  g_createdAt : Z;
  g_expiresAt : Z;
  g_shareableLink : string
}.

(** What the promise of [verifyZKProof] resolves with; an absent property
    is [None]. *)
Record verification := mk_verification {
  v_success : bool;
  v_verified : option bool;
  v_error : option string;
  v_statement : option (gmap string scalar);
  v_verifiedAt : option Z;
  v_expiresAt : option Z;
  v_expirationDate : option Z
}.

Record revocation := mk_revocation {
  r_success : bool;
  r_error : option string;
  r_message : option string
}.

Record disclosed := mk_disclosed {
  s_success : bool;
  s_disclosureId : string;
  s_disclosedFields : list string;
  s_disclosedData : gmap string scalar;
  s_createdAt : Z;
  s_expiresAt : Z;
  s_shareableLink : string
}.

Definition prop (o : gmap string scalar) (k : string) : scalar :=
  default Undefined (o !! k).

Section WithRuntime.

Variable rand : nat -> Q.
Variable clock : nat -> Z.

(** [Number.prototype.toString], the runtime's printer of numbers. *)
Variable NumberToString : number -> string.

(** [x.toString()] for a truthy scalar [x]. *)
Definition toString (x : scalar) : string :=
  match x with
  | Undefined => "undefined"
  | Null => "null"
  | Bool b => if b then "true" else "false"
  | Num n => NumberToString n
  | Str s => s
  end.

(** [statement.type === ty ? (statement.threshold || dflt).toString() : '0'] *)
Definition publicSignal (st : gmap string scalar) (ty : string) (dflt : Z) : string :=
  if is_string (prop st "type") ty
  then toString (if truthy_scalar (prop st "threshold")
                 then prop st "threshold" else Num (Fin (inject_Z dflt)))
  else "0".

(** The timer callback of [generateZKProof]. *)
Definition generateZKProof (user : string) (st : gmap string scalar) (s : state)
  : generated * state :=
  let '(t0, w) := Date_now clock (world_of s) in
  let '(r, w) := Math_random rand w in
  let proofId := "proof_" +:+ pretty t0 +:+ "_" +:+ pretty (Qfloor (r * 10000)) in
  let '(t1, w) := Date_now clock w in
  let '(t2, w) := Date_now clock w in
  let p :=
    {| id := proofId;
       userId := user;
       statement := st;
       proof := mock_groth16;
       publicSignals := [publicSignal st "creditScore" 700;
                         publicSignal st "accountBalance" 1000;
                         publicSignal st "transactionVolume" 5000];
       verificationKey := mock_vk;
       createdAt := t1;
       expiresAt := (t2 + 30 * 24 * 60 * 60 * 1000)%Z |} in
  ({| g_success := true;
      g_proofId := proofId;
      g_type := prop st "type";
      g_condition := prop st "condition";
      g_threshold := prop st "threshold";
      g_createdAt := createdAt p;
      g_expiresAt := expiresAt p;
      g_shareableLink := "https://aries.finance/verify/" +:+ proofId |},
   {| mockProofs := <[proofId := ZKProof p]> (mockProofs s); world_of := w |}).

(** [{ success: false, error: 'Proof not found' }] *)
Definition not_found : verification :=
  {| v_success := false; v_verified := None; v_error := Some "Proof not found";
     v_statement := None; v_verifiedAt := None; v_expiresAt := None;
     v_expirationDate := None |}.

(** The timer callback of [verifyZKProof]. *)
Definition verifyZKProof (proofId : string) (s : state) : verification * state :=
  match mockProofs s !! proofId with
  | None => (not_found, s)
  | Some e =>
      let '(now, w) := Date_now clock (world_of s) in
      if (entry_expiresAt e <? now)%Z then
        ({| v_success := false; v_verified := None; v_error := Some "Proof has expired";
            v_statement := None; v_verifiedAt := None; v_expiresAt := None;
            v_expirationDate := Some (entry_expiresAt e) |},
         {| mockProofs := mockProofs s; world_of := w |})
      else
        let '(at_, w) := Date_now clock w in
        ({| v_success := true; v_verified := Some true; v_error := None;
            v_statement := entry_statement e; v_verifiedAt := Some at_;
            v_expiresAt := Some (entry_expiresAt e); v_expirationDate := None |},
         {| mockProofs := mockProofs s; world_of := w |})
  end.

(** The timer callback of [revokeZKProof]. *)
Definition revokeZKProof (user proofId : string) (s : state) : revocation * state :=
  match mockProofs s !! proofId with
  | None =>
      ({| r_success := false; r_error := Some "Proof not found"; r_message := None |}, s)
  | Some e =>
      if negb (bool_decide (entry_userId e = user)) then
        ({| r_success := false;
            r_error := Some "Unauthorized: You do not own this proof";
            r_message := None |}, s)
      else
        ({| r_success := true; r_error := None;
            r_message := Some "Proof revoked successfully" |},
         {| mockProofs := delete proofId (mockProofs s); world_of := world_of s |})
  end.

(** [fields.forEach(field => { if (data[field] !== undefined) ... })], on
    the own properties of [data] and of [disclosedData].  This is what the
    code does for every field whose name objects do not inherit from
    [Object.prototype]; for a field of an inherited name the code reads the
    inherited value, which is not a scalar. *)
Definition disclose (data : gmap string scalar) (fields : list string) : gmap string scalar :=
  fold_left
    (fun acc field =>
       match prop data field with
       | Undefined => acc
       | v => <[field := v]> acc
       end)
    fields ∅.

(** The timer callback of [generateSelectiveDisclosure]. *)
Definition generateSelectiveDisclosure
  (user : string) (data : gmap string scalar) (fields : list string) (s : state)
  : disclosed * state :=
  let '(t0, w) := Date_now clock (world_of s) in
  let '(r, w) := Math_random rand w in
  let disclosureId := "disclosure_" +:+ pretty t0 +:+ "_" +:+ pretty (Qfloor (r * 10000)) in
  let disclosedData := disclose data fields in
  let '(t1, w) := Date_now clock w in
  let '(t2, w) := Date_now clock w in
  let d :=
    {| d_id := disclosureId;
       d_userId := user;
       d_fields := fields;
       d_disclosedData := disclosedData;
       d_proof := {| signature := "1234567890abcdef1234567890abcdef1234567890abcdef1234567890abcdef";
                     nonce := "abcdef1234567890abcdef1234567890";
                     context := "https://w3id.org/security/v2" |};
       d_createdAt := t1;
       d_expiresAt := (t2 + 7 * 24 * 60 * 60 * 1000)%Z |} in
  ({| s_success := true;
      s_disclosureId := disclosureId;
      s_disclosedFields := fields;
      s_disclosedData := disclosedData;
      s_createdAt := d_createdAt d;
      s_expiresAt := d_expiresAt d;
      s_shareableLink := "https://aries.finance/disclosure/" +:+ disclosureId |},
   {| mockProofs := <[disclosureId := Disclosure d]> (mockProofs s); world_of := w |}).

(** The calls that read or write [mockProofs], for reasoning about what
    happens between two of them. *)
Inductive call :=
| Generate (user : string) (st : gmap string scalar)
| Verify (proofId : string)
| Revoke (user proofId : string)
| Disclose (user : string) (data : gmap string scalar) (fields : list string).

Definition step (c : call) (s : state) : state :=
  match c with
  | Generate u st => snd (generateZKProof u st s)
  | Verify p => snd (verifyZKProof p s)
  | Revoke u p => snd (revokeZKProof u p s)
  | Disclose u d f => snd (generateSelectiveDisclosure u d f s)
  end.

Definition run (cs : list call) (s : state) : state :=
  fold_left (fun s c => step c s) cs s.

(** The calls that store nothing. *)
Definition stores_nothing (c : call) : bool :=
  match c with
  | Verify _ | Revoke _ _ => true
  | Generate _ _ | Disclose _ _ _ => false
  end.

(** The id under which a call stores an entry, if it stores one, and the
    ids under which the calls of a sequence do. *)
Definition stored_id (c : call) (s : state) : option string :=
  match c with
  | Generate u st => Some (g_proofId (fst (generateZKProof u st s)))
  | Disclose u d f => Some (s_disclosureId (fst (generateSelectiveDisclosure u d f s)))
  | Verify _ | Revoke _ _ => None
  end.

Fixpoint stored_ids (cs : list call) (s : state) : list string :=
  match cs with
  | [] => []
  | c :: cs' => (option_list (stored_id c s) ++ stored_ids cs' (step c s))%list
  end.

End WithRuntime.

(** [entry.id] and [entry.createdAt], which both kinds of entry have. *)
Definition entry_id (e : entry) : string :=
  match e with
  | ZKProof p => id p
  | Disclosure d => d_id d
  end.

Definition entry_createdAt (e : entry) : Z :=
  match e with
  | ZKProof p => createdAt p
  | Disclosure d => d_createdAt d
  end.

(** One item of the list [getUserProofs] resolves with. *)
Record listed := mk_listed {
  l_id : string;
  l_statement : option (gmap string scalar);
  l_createdAt : Z;
  l_expiresAt : Z;
  l_shareableLink : string
}.

Definition list_entry (e : entry) : listed :=
  {| l_id := entry_id e;
     l_statement := entry_statement e;
     l_createdAt := entry_createdAt e;
     l_expiresAt := entry_expiresAt e;
     l_shareableLink := "https://aries.finance/verify/" +:+ entry_id e |}.

(** Every entry is stored under its own id. *)
Definition keyed (m : gmap string entry) : Prop :=
  forall k e, m !! k = Some e -> entry_id e = k.

Record listing := mk_listing {
  ls_success : bool;
  ls_proofs : list listed
}.

(** The timer callback of [getUserProofs].  [Object.values] yields the
    entries in the order in which their keys were added; a [gmap] does not
    keep that order, and the list has the entries in the order of
    [map_to_list] instead.  What is proved about it does not depend on the
    order. *)
Definition getUserProofs (user : string) (s : state) : listing * state :=
  ({| ls_success := true;
      ls_proofs :=
        list_entry <$>
          List.filter (fun e => bool_decide (entry_userId e = user))
                      (snd <$> map_to_list (mockProofs s)) |}, s).

End PrivacyService.

(** ** Computations that draw random numbers, read the clock and may throw *)

Module Effect.

Import Runtime.

(** A computation maps the world to its result and the new world; the
    result [None] is an exception thrown and not yet caught. *)
Definition M (A : Type) : Type := world -> option A * world.

Definition ret {A} (a : A) : M A := fun w => (Some a, w).

Definition bind {A B} (m : M A) (k : A -> M B) : M B :=
  fun w => match m w with
           | (Some a, w') => k a w'
           | (None, w') => (None, w')
           end.

(** A value that may be [undefined], used where [undefined] makes the code
    throw a TypeError. *)
Definition defined {A} (o : option A) : M A := fun w => (o, w).

Definition perform {A} (f : world -> A * world) : M A :=
  fun w => let '(a, w') := f w in (Some a, w').

Fixpoint foldM {A B} (f : A -> B -> M A) (l : list B) (a : A) : M A :=
  match l with
  | [] => ret a
  | b :: l' => bind (f a b) (foldM f l')
  end.

Fixpoint mapM {A B} (f : A -> M B) (l : list A) : M (list B) :=
  match l with
  | [] => ret []
  | a :: l' => bind (f a) (fun b => bind (mapM f l') (fun bs => ret (b :: bs)))
  end.

#[global] Instance M_ret : MRet M := @ret.
#[global] Instance M_bind : MBind M := fun A B k m => bind m k.

End Effect.

(** ** services/risk.service.js *)

Module RiskService.

Import JS Runtime Effect.

Local Open Scope R_scope.

(** Numbers of the risk service are real numbers: [+], [-], [*], [/],
    [Math.sqrt] and [Math.pow] are the exact operations, and the rounding,
    the overflow and the underflow of IEEE doubles are left out of the
    model.  Divisions are by numbers that are not zero, except the
    divisions by the portfolio value in [calculateVaR], which are written
    with the numbers [xnum] below. *)

Definition Rltb (x y : R) : bool := if Rlt_dec x y then true else false.
Definition Rleb (x y : R) : bool := if Rle_dec x y then true else false.
Definition Req_bool (x y : R) : bool := if Req_dec_T x y then true else false.
Definition Math_pow (x : R) (n : nat) : R := x ^ n.
Definition Math_floor (x : R) : Z := Int_part x.
(** [Math.round]: the nearest integer, a tie going up. *)
Definition Math_round (x : R) : Z := Int_part (x + / 2).

Record transaction := mk_tx {
  tx_type : string;
  contract : string;
  value : R;
  tx_timestamp : string
}.

Definition high_risk_wallet : string := "0x8915BEab6cCaA2F486d8B1C36c7ec151F9C72F5E".
Definition medium_risk_wallet : string := "0x7825BEab6cCaA2F486d8B1C36c7ec151F9C72F5E".
Definition low_risk_wallet : string := "0x6735BEab6cCaA2F486d8B1C36c7ec151F9C72F5E".

Definition high_risk_transactions : list transaction :=
  [mk_tx "swap" "0xdead1234567890123456789012345678901234567" 0.5 "2025-04-15T10:30:00Z";
   mk_tx "transfer" "0xdead2345678901234567890123456789012345678" 1.2 "2025-04-16T14:20:00Z";
   mk_tx "approve" "0xdead3456789012345678901234567890123456789" 10 "2025-04-17T09:15:00Z";
   mk_tx "swap" "0xdead4567890123456789012345678901234567890" 2.3 "2025-04-18T16:45:00Z"].

Definition medium_risk_transactions : list transaction :=
  [mk_tx "swap" "0x1234567890123456789012345678901234567890" 1.0 "2025-04-15T11:30:00Z";
   mk_tx "transfer" "0xdead2345678901234567890123456789012345678" 0.5 "2025-04-16T15:20:00Z";
   mk_tx "approve" "0x2345678901234567890123456789012345678901" 5 "2025-04-17T10:15:00Z"].

Definition low_risk_transactions : list transaction :=
  [mk_tx "swap" "0x1234567890123456789012345678901234567890" 0.2 "2025-04-15T12:30:00Z";
   mk_tx "transfer" "0x2345678901234567890123456789012345678901" 0.3 "2025-04-16T16:20:00Z";
   mk_tx "approve" "0x3456789012345678901234567890123456789012" 1 "2025-04-17T11:15:00Z"].

(** The transactions on record, by wallet address: the own properties of
    the object [mockTransactions]. *)
Definition mockTransactions : gmap string (list transaction) :=
  <[high_risk_wallet := high_risk_transactions]>
  (<[medium_risk_wallet := medium_risk_transactions]>
  (<[low_risk_wallet := low_risk_transactions]> ∅)).

Definition blacklistedContracts : list string :=
  ["0xdead1234567890123456789012345678901234567";
   "0xdead2345678901234567890123456789012345678";
   "0xdead3456789012345678901234567890123456789";
   "0xdead4567890123456789012345678901234567890"].

Record price_point := mk_price {
  timestamp : string;
  price : R
}.

Definition btc_prices : list price_point :=
  [mk_price "2025-04-01T00:00:00Z" 85000; mk_price "2025-04-02T00:00:00Z" 86500;
   mk_price "2025-04-03T00:00:00Z" 84200; mk_price "2025-04-04T00:00:00Z" 87000;
   mk_price "2025-04-05T00:00:00Z" 88500; mk_price "2025-04-06T00:00:00Z" 89200;
   mk_price "2025-04-07T00:00:00Z" 90100; mk_price "2025-04-08T00:00:00Z" 91500;
   mk_price "2025-04-09T00:00:00Z" 89800; mk_price "2025-04-10T00:00:00Z" 92000;
   mk_price "2025-04-11T00:00:00Z" 93500; mk_price "2025-04-12T00:00:00Z" 94200;
   mk_price "2025-04-13T00:00:00Z" 92800; mk_price "2025-04-14T00:00:00Z" 95000].

Definition eth_prices : list price_point :=
  [mk_price "2025-04-01T00:00:00Z" 5200; mk_price "2025-04-02T00:00:00Z" 5350;
   mk_price "2025-04-03T00:00:00Z" 5100; mk_price "2025-04-04T00:00:00Z" 5400;
   mk_price "2025-04-05T00:00:00Z" 5600; mk_price "2025-04-06T00:00:00Z" 5800;
   mk_price "2025-04-07T00:00:00Z" 5750; mk_price "2025-04-08T00:00:00Z" 5900;
   mk_price "2025-04-09T00:00:00Z" 5650; mk_price "2025-04-10T00:00:00Z" 6000;
   mk_price "2025-04-11T00:00:00Z" 6200; mk_price "2025-04-12T00:00:00Z" 6350;
   mk_price "2025-04-13T00:00:00Z" 6100; mk_price "2025-04-14T00:00:00Z" 6500].

Definition aries_prices : list price_point :=
  [mk_price "2025-04-01T00:00:00Z" 2.5; mk_price "2025-04-02T00:00:00Z" 2.8;
   mk_price "2025-04-03T00:00:00Z" 2.3; mk_price "2025-04-04T00:00:00Z" 3.1;
   mk_price "2025-04-05T00:00:00Z" 3.5; mk_price "2025-04-06T00:00:00Z" 3.2;
   mk_price "2025-04-07T00:00:00Z" 3.8; mk_price "2025-04-08T00:00:00Z" 4.2;
   mk_price "2025-04-09T00:00:00Z" 3.9; mk_price "2025-04-10T00:00:00Z" 4.5;
   mk_price "2025-04-11T00:00:00Z" 5.0; mk_price "2025-04-12T00:00:00Z" 4.7;
   mk_price "2025-04-13T00:00:00Z" 5.2; mk_price "2025-04-14T00:00:00Z" 5.5].

Definition tokenPriceHistory : gmap string (list price_point) :=
  <["BTC" := btc_prices]> (<["ETH" := eth_prices]> (<["ARIES" := aries_prices]> ∅)).

Record risk_factor := mk_factor {
  factor : string;
  description : string;
  impact : string
}.

Record analysis := mk_analysis {
  address : string;
  riskLevel : string;
  riskScore : Z;
  analysisDate : Z;
  total : nat;
  suspicious : nat;
  riskFactors : list risk_factor;
  recommendations : list string
}.

Definition additionalFactors : list risk_factor :=
  [mk_factor "New Wallet" "Wallet created less than 30 days ago" "Low";
   mk_factor "Mixing Services" "Transactions associated with crypto mixing services" "High";
   mk_factor "Unverified Contracts" "Interactions with unverified smart contracts" "Medium"].

Definition upper (c : ascii) : ascii :=
  let n := nat_of_ascii c in
  if (97 <=? n)%nat && (n <=? 122)%nat then ascii_of_nat (n - 32) else c.

(** [s.toUpperCase()] on ASCII letters; other characters are kept. *)
Fixpoint toUpperCase (s : string) : string :=
  match s with
  | EmptyString => EmptyString
  | String c s' => String (upper c) (toUpperCase s')
  end.

Record history_point := mk_history {
  h_date : string;
  h_price : R
}.

Record metrics := mk_metrics {
  token : string;
  currentPrice : R;
  volatilityDaily : R;
  volatilityAnnualized : R;
  volatilityLevel : string;
  maxDrawdown : R;
  trend : string;
  priceChange : R;
  m_analysisDate : Z;
  historicalPrices : list history_point
}.

Record holding := mk_holding {
  h_token : string;
  h_amount : R
}.

(** A number that a division by zero can yield: [NaN], an infinity with
    its sign, or a real number; and the operations of IEEE arithmetic on
    these numbers, exact on the real ones.  A zero divisor is the positive
    zero: the only divisor in [calculateVaR] is the portfolio value, a sum
    that starts from [0].  The real numbers stand for doubles of ordinary
    size: rounding, overflow and underflow are left out. *)
Inductive xnum :=
| XNaN
| XInf (negative : bool)
| XFin (x : R).

(** [x / y] for real numbers [x] and [y] *)
Definition xdiv_real (x y : R) : xnum :=
  if Req_bool y 0 then
    if Req_bool x 0 then XNaN else XInf (Rltb x 0)
  else XFin (x / y).

Definition xmul (a b : xnum) : xnum :=
  match a, b with
  | XNaN, _ | _, XNaN => XNaN
  | XFin x, XFin y => XFin (x * y)
  | XInf s, XInf t => XInf (xorb s t)
  | XInf s, XFin y | XFin y, XInf s =>
      if Req_bool y 0 then XNaN else XInf (xorb s (Rltb y 0))
  end.

Definition xadd (a b : xnum) : xnum :=
  match a, b with
  | XNaN, _ | _, XNaN => XNaN
  | XFin x, XFin y => XFin (x + y)
  | XInf s, XInf t => if Bool.eqb s t then XInf s else XNaN
  | XInf s, XFin _ | XFin _, XInf s => XInf s
  end.

(** [Math.pow(a, 2)] *)
Definition xsquare (a : xnum) : xnum :=
  match a with
  | XNaN => XNaN
  | XInf _ => XInf false
  | XFin x => XFin (Math_pow x 2)
  end.

(** [Math.sqrt(a)] *)
Definition xsqrt (a : xnum) : xnum :=
  match a with
  | XNaN => XNaN
  | XInf negative => if negative then XNaN else XInf false
  | XFin x => if Rltb x 0 then XNaN else XFin (sqrt x)
  end.

(** [a / y] for a real number [y] *)
Definition xdiv (a : xnum) (y : R) : xnum :=
  match a with
  | XNaN => XNaN
  | XInf negative => XInf (xorb negative (Rltb y 0))
  | XFin x => xdiv_real x y
  end.

(** [a > c] for a real number [c] *)
Definition xgt (a : xnum) (c : R) : bool :=
  match a with
  | XNaN => false
  | XInf negative => negb negative
  | XFin x => Rltb c x
  end.

Record token_volatility := mk_tv {
  tv_token : string;
  tv_volatility : R;
  tv_weight : xnum
}.

Record var_entry := mk_var_entry {
  amount : xnum;
  percentage : xnum
}.

Record holding_out := mk_holding_out {
  o_token : string;
  o_amount : R;
  o_volatility : R;
  o_weight : xnum
}.

Record var_result := mk_var_result {
  portfolioValue : R;
  confidenceLevel : R;
  dailyVaR : var_entry;
  weeklyVaR : var_entry;
  monthlyVaR : var_entry;
  var_riskLevel : string;
  var_analysisDate : Z;
  holdings_out : list holding_out
}.

(** The loop [for (let i = 1; i < priceData.length; i++)] of
    [calculateVolatilityMetrics], with [n] iterations left to run. *)
Fixpoint returns_loop (priceData : list price_point) (i n : nat) (returns : list R) : list R :=
  match n with
  | O => returns
  | S n' =>
      match priceData !! i, priceData !! (i - 1)%nat with
      | Some cur, Some prev =>
          let dailyReturn := (price cur - price prev) / price prev in
          returns_loop priceData (S i) n' (returns ++ [dailyReturn])%list
      | _, _ => returns
      end
  end.

(** The returns loop and the two [reduce] calls of
    [calculateVolatilityMetrics] once more, with a counter of the loop
    bodies and callbacks that have run: each of the three goes over its
    array from the first item to the last. *)
Fixpoint returns_loop_counted (priceData : list price_point) (i n : nat) (returns : list R)
  (visits : nat) : list R * nat :=
  match n with
  | O => (returns, visits)
  | S n' =>
      match priceData !! i, priceData !! (i - 1)%nat with
      | Some cur, Some prev =>
          let dailyReturn := (price cur - price prev) / price prev in
          returns_loop_counted priceData (S i) n' (returns ++ [dailyReturn])%list (S visits)
      | _, _ => (returns, visits)
      end
  end.

Definition reduce_counted (callback : R -> R -> R) (array : list R) (initial : R)
  (visits : nat) : R * nat :=
  fold_left (fun acc value => (callback (fst acc) value, S (snd acc))) array (initial, visits).

(** The daily and the annualized volatility, and the number of loop bodies
    and callbacks run to obtain them. *)
Definition volatility_counted (priceData : list price_point) : R * R * nat :=
  let '(returns, visits) :=
    returns_loop_counted priceData 1 (length priceData - 1) [] 0 in
  let '(total, visits) := reduce_counted (fun sum value => sum + value) returns 0 visits in
  let mean := total / INR (length returns) in
  let '(squares, visits) :=
    reduce_counted (fun sum value => sum + Math_pow (value - mean) 2) returns 0 visits in
  let variance := squares / INR (length returns) in
  let stdDev := sqrt variance in
  let annualizedVolatility := stdDev * sqrt 365 in
  (stdDev, annualizedVolatility, visits).

(** The loop [for (const dataPoint of priceData)] that tracks the peak and
    the largest drawdown. *)
Definition drawdown_step (acc : R * R) (dataPoint : price_point) : R * R :=
  let '(maxDrawdown, peak) := acc in
  let peak := if Rltb peak (price dataPoint) then price dataPoint else peak in
  let drawdown := (peak - price dataPoint) / peak in
  (if Rltb maxDrawdown drawdown then drawdown else maxDrawdown, peak).

Section WithRuntime.

Variable rand : nat -> R.
Variable clock : nat -> Z.

Definition random : M R := perform (Math_random rand).
Definition now : M Z := perform (Date_now clock).

(** [analyzeWalletRisk], first part: the transactions of the address, or
    those of one of the three mock wallets, picked at random, when
    [mockTransactions[address]] is [undefined].  For a name that
    [mockTransactions] inherits from [Object.prototype] the value is a
    function (or the prototype object), which is truthy and has no
    [filter]: no wallet is picked, and [transactions.filter(...)] throws a
    TypeError. *)
Definition pick_transactions (addr : string) : M (list transaction) :=
  match mockTransactions !! addr with
  | Some t => ret t
  | None =>
      if inherited addr then defined None
      else
        riskLevel ← random;
        if Rltb riskLevel 0.3 then defined (mockTransactions !! low_risk_wallet)
        else if Rltb riskLevel 0.7 then defined (mockTransactions !! medium_risk_wallet)
        else defined (mockTransactions !! high_risk_wallet)
  end.

(** Second part: the risk level and the score before rounding. *)
Definition level_and_score (riskPercentage : R) : M (string * R) :=
  if Rleb 50 riskPercentage then r ← random; ret ("High", 80 + r * 20)
  else if Rleb 20 riskPercentage then r ← random; ret ("Medium", 50 + r * 30)
  else r ← random; ret ("Low", 20 + r * 30).

(** Third part: the risk factors read off the transactions. *)
Definition found_factors (transactions : list transaction) (blacklistedInteractions : nat)
  : list risk_factor :=
  let riskFactors : list risk_factor := [] in
  let riskFactors :=
    if (0 <? blacklistedInteractions)%nat then
      (riskFactors ++
        [mk_factor "Blacklisted Contracts"
           ("Interacted with " +:+ pretty blacklistedInteractions +:+ " known high-risk contracts")
           "High"])%list
    else riskFactors in
  let riskFactors :=
    if existsb (fun tx => Rltb 5 (value tx)) transactions then
      (riskFactors ++
        [mk_factor "Large Transactions" "Multiple high-value transactions detected" "Medium"])%list
    else riskFactors in
  if (2 <? length (List.filter (fun tx => bool_decide (tx_type tx = "approve")) transactions))%nat then
    (riskFactors ++
      [mk_factor "Multiple Approvals" "Granted approval to multiple contracts" "Medium"])%list
  else riskFactors.

(** Fourth part: one random factor more when fewer than two were found. *)
Definition pad_factors (riskFactors : list risk_factor) : M (list risk_factor) :=
  if (length riskFactors <? 2)%nat then
    r ← random;
    randomFactor ← defined (at_index additionalFactors
                              (Math_floor (r * INR (length additionalFactors))));
    if negb (existsb (fun f => bool_decide (factor f = factor randomFactor)) riskFactors)
    then ret (riskFactors ++ [randomFactor])%list
    else ret riskFactors
  else ret riskFactors.

(** How many of the transactions touch a blacklisted contract. *)
Definition blacklisted (transactions : list transaction) : nat :=
  length (List.filter (fun tx => bool_decide (contract tx ∈ blacklistedContracts)) transactions).

Definition analyzeWalletRisk (addr : string) : M analysis :=
  transactions ← pick_transactions addr;
  let blacklistedInteractions := blacklisted transactions in
  let totalTransactions := length transactions in
  let riskPercentage := INR blacklistedInteractions / INR totalTransactions * 100 in
  '(riskLevel, riskScore) ← level_and_score riskPercentage;
  riskFactors ← pad_factors (found_factors transactions blacklistedInteractions);
  date ← now;
  ret {| address := addr;
         riskLevel := riskLevel;
         riskScore := Math_round riskScore;
         analysisDate := date;
         total := totalTransactions;
         suspicious := blacklistedInteractions;
         riskFactors := riskFactors;
         recommendations :=
           ["Review wallet permissions and revoke unnecessary approvals";
            "Avoid interacting with unverified smart contracts";
            "Use hardware wallets for high-value transactions";
            "Enable multi-signature for critical operations"] |}.

(** [new Date(timestamp).toISOString().split('T')[0]], and the timestamp
    [d.toISOString()] of [d = new Date(t); d.setDate(d.getDate() - k)]: the
    runtime's calendar. *)
Variable isoDate : string -> string.
Variable isoDaysBefore : Z -> Z -> string.

Definition calculateVolatilityMetrics (tokenSymbol : string) (priceData : list price_point)
  : M metrics :=
  let returns := returns_loop priceData 1 (length priceData - 1) [] in
  let mean := fold_left (fun sum value => sum + value) returns 0 / INR (length returns) in
  let variance :=
    fold_left (fun sum value => sum + Math_pow (value - mean) 2) returns 0
    / INR (length returns) in
  let stdDev := sqrt variance in
  let annualizedVolatility := stdDev * sqrt 365 in
  first ← defined (priceData !! 0%nat);
  let '(maxDrawdown, _) := fold_left drawdown_step priceData (0, price first) in
  let volatilityLevel :=
    if Rltb 1.0 annualizedVolatility then "Extreme"
    else if Rltb 0.5 annualizedVolatility then "High"
    else if Rltb 0.25 annualizedVolatility then "Medium"
    else "Low" in
  let recentPrices := slice_from (-5) priceData in
  recentLast ← defined (last recentPrices);
  recentFirst ← defined (recentPrices !! 0%nat);
  let priceChange := (price recentLast - price recentFirst) / price recentFirst in
  let trend :=
    if Rltb 0 priceChange then "Upward"
    else if Rltb priceChange 0 then "Downward" else "Stable" in
  current ← defined (last priceData);
  date ← now;
  ret {| token := tokenSymbol;
         currentPrice := price current;
         volatilityDaily := stdDev;
         volatilityAnnualized := annualizedVolatility;
         volatilityLevel := volatilityLevel;
         maxDrawdown := maxDrawdown;
         trend := trend;
         priceChange := priceChange * 100;
         m_analysisDate := date;
         historicalPrices :=
           map (fun data => {| h_date := isoDate (timestamp data); h_price := price data |})
               priceData |}.

(** The loop [for (let i = 0; i < days; i++)] of [getTokenVolatility], with
    [n] iterations left to run.  The date [days - i] days before the
    present one is taken to be one that [Date] can print, as it is for
    every number of days up to hundreds of thousands of years. *)
Fixpoint mock_loop (basePrice : R) (days i : Z) (n : nat) (mockData : list price_point)
  : M (list price_point) :=
  match n with
  | O => ret mockData
  | S n' =>
      date ← now;
      let volatilityFactor := 0.1 in
      r ← random;
      let randomChange := (r * 2 - 1) * volatilityFactor in
      let price := basePrice * (1 + randomChange) in
      mock_loop basePrice days (i + 1)%Z n'
        (mockData ++ [mk_price (isoDaysBefore date (days - i)%Z) price])%list
  end.

(** [days] is [None] when the argument is left out; it then defaults to 14. *)
Definition getTokenVolatility (tokenSymbol : string) (days_given : option Z) : M metrics :=
  let days := default 14%Z days_given in
  match tokenPriceHistory !! toUpperCase tokenSymbol with
  | None =>
      r ← random;
      let basePrice := 10 + r * 90 in
      mockData ← mock_loop basePrice days 0 (Z.to_nat days) [];
      calculateVolatilityMetrics tokenSymbol mockData
  | Some priceData =>
      calculateVolatilityMetrics tokenSymbol (slice_from (- days) priceData)
  end.

(** [Math.sqrt(tokenVolatilities.reduce(...))]: the portfolio volatility,
    correlations ignored. *)
Definition portfolio_volatility (tokenVolatilities : list token_volatility) : xnum :=
  xsqrt (fold_left
           (fun sum t => xadd sum (xsquare (xmul (XFin (tv_volatility t)) (tv_weight t))))
           tokenVolatilities (XFin 0)).

(** The callback of [holdings.reduce] that adds up the portfolio value. *)
Definition add_value (total : R) (h : holding) : M R :=
  currentPrice ←
    match tokenPriceHistory !! toUpperCase (h_token h) with
    | Some tokenData => p ← defined (last tokenData); ret (price p)
    | None => r ← random; ret (10 + r * 90)
    end;
  ret (total + h_amount h * currentPrice).

(** [holdings.reduce(..., 0)]: the portfolio value. *)
Definition portfolio_value (holdings : list holding) : M R :=
  foldM add_value holdings 0.

(** [Promise.all(holdings.map(...))]: the volatility and the weight of each
    holding, in the order of the holdings. *)
Definition token_volatilities (portfolioValue : R) (holdings : list holding)
  : M (list token_volatility) :=
  mapM (fun h =>
          volatilityData ← getTokenVolatility (h_token h) None;
          ret {| tv_token := h_token h;
                 tv_volatility := volatilityDaily volatilityData;
                 tv_weight :=
                   xdiv_real (h_amount h * currentPrice volatilityData) portfolioValue |})
       holdings.

(** [confidence_given] is [None] when the argument is left out; the
    confidence level then defaults to 0.95. *)
Definition calculateVaR (holdings : list holding) (confidence_given : option R) : M var_result :=
  let confidence := default 0.95 confidence_given in
  portfolioValue ← portfolio_value holdings;
  tokenVolatilities ← token_volatilities portfolioValue holdings;
  let portfolioVolatility := portfolio_volatility tokenVolatilities in
  let zScore := if Req_dec_T confidence 0.99 then 2.326 else 1.645 in
  let dailyVaR := xmul (xmul (XFin portfolioValue) portfolioVolatility) (XFin zScore) in
  let weeklyVaR := xmul dailyVaR (XFin (sqrt 7)) in
  let monthlyVaR := xmul dailyVaR (XFin (sqrt 30)) in
  date ← now;
  ret {| portfolioValue := portfolioValue;
         confidenceLevel := confidence * 100;
         dailyVaR :=
           {| amount := dailyVaR;
              percentage := xmul (xdiv dailyVaR portfolioValue) (XFin 100) |};
         weeklyVaR :=
           {| amount := weeklyVaR;
              percentage := xmul (xdiv weeklyVaR portfolioValue) (XFin 100) |};
         monthlyVaR :=
           {| amount := monthlyVaR;
              percentage := xmul (xdiv monthlyVaR portfolioValue) (XFin 100) |};
         var_riskLevel :=
           if xgt (xdiv dailyVaR portfolioValue) 0.05 then "High"
           else if xgt (xdiv dailyVaR portfolioValue) 0.02 then "Medium" else "Low";
         var_analysisDate := date;
         holdings_out :=
           map (fun h =>
                  let matchingVolatility :=
                    List.find (fun v => bool_decide (tv_token v = h_token h)) tokenVolatilities in
                  {| o_token := h_token h;
                     o_amount := h_amount h;
                     o_volatility := from_option tv_volatility 0 matchingVolatility;
                     o_weight := from_option tv_weight (XFin 0) matchingVolatility |})
               holdings |}.

End WithRuntime.

End RiskService.

(** ** services/contract.service.js: the simulated NFT mint
       (src/unnamed/part_003, lines 175-213) *)

Module ContractService.

Import JS Runtime.

Record attributes := mk_attributes {
  attr_Score : number;
  attr_Rating : string;
  attr_Timestamp : Z
}.

Record minted := mk_minted {
  success : bool;
  tokenId : Z;
  address : string;
  score : number;
  timestamp : Z;
  txHash : string;
  imageUrl : string;
  meta_name : string;
  meta_description : string;
  meta_attributes : attributes
}.

(** [score >= n] for a number [score] and an integer literal [n]. *)
Definition at_least (score : number) (n : Z) : bool :=
  match score with
  | NaN => false
  | Fin q => Qle_bool (inject_Z n) q
  end.

Section WithRuntime.

Variable rand : nat -> Q.
Variable clock : nat -> Z.

(** [Number.prototype.toString] in base 10 and in base 16. *)
Variable NumberToString : number -> string.
Variable toString16 : Q -> string.

Definition mintCreditScoreNFT (addr : string) (sc : number) (w : world) : minted * world :=
  let '(r, w) := Math_random rand w in
  let tokenId := Qfloor (r * 1000000) in
  let '(r, w) := Math_random rand w in
  let txHash := "0x" +:+ String.substring 2 64 (toString16 r) in
  let imageUrl :=
    "https://api.dicebear.com/7.x/shapes/svg?seed=" +:+ addr +:+ NumberToString sc in
  let '(t0, w) := Date_now clock w in
  let '(t1, w) := Date_now clock w in
  ({| success := true;
      tokenId := tokenId;
      address := addr;
      score := sc;
      timestamp := t0;
      txHash := txHash;
      imageUrl := imageUrl;
      meta_name := "Credit Score NFT #" +:+ pretty tokenId;
      meta_description :=
        "This NFT represents a credit score of " +:+ NumberToString sc
        +:+ " for address " +:+ addr;
      meta_attributes :=
        {| attr_Score := sc;
           attr_Rating :=
             if at_least sc 800 then "Excellent"
             else if at_least sc 700 then "Good"
             else if at_least sc 600 then "Fair" else "Poor";
           attr_Timestamp := t1 |} |},
   w).

End WithRuntime.

(** *** The vulnerability scan and the compliance check
        (src/unnamed/part_003, lines 1-173) *)

(** [s.includes(t)] for strings. *)
Fixpoint includes (s t : string) : bool :=
  String.prefix t s
  || match s with
     | EmptyString => false
     | String _ s' => includes s' t
     end.

(** A character of the class [[a-fA-F0-9]]. *)
Definition is_hex (c : ascii) : bool :=
  let n := nat_of_ascii c in
  ((48 <=? n)%nat && (n <=? 57)%nat) || ((65 <=? n)%nat && (n <=? 70)%nat)
  || ((97 <=? n)%nat && (n <=? 102)%nat).

(** The string starts with [n] characters of that class. *)
Fixpoint hex_run (n : nat) (s : string) : bool :=
  match n with
  | O => true
  | S n' =>
      match s with
      | EmptyString => false
      | String c s' => is_hex c && hex_run n' s'
      end
  end.

(** The string starts with a match of [0x[a-fA-F0-9]{40}]. *)
Definition address_at (s : string) : bool :=
  match s with
  | String "0"%char (String "x"%char s') => hex_run 40 s'
  | _ => false
  end.

(** [/0x[a-fA-F0-9]{40}/.test(s)] *)
Fixpoint contains_address (s : string) : bool :=
  address_at s
  || match s with
     | EmptyString => false
     | String _ s' => contains_address s'
     end.

(** The patterns of the vulnerability database. *)
Inductive pattern :=
| Reentrancy
| IntegerOverflow
| UncheckedReturn
| TxOrigin
| HardcodedAddress.

Record known_vulnerability := mk_known {
  kv_pattern : pattern;
  kv_severity : string;
  kv_description : string;
  kv_recommendation : string
}.

(** [Object.entries(vulnerabilityDatabase)], in the order of the source. *)
Definition vulnerabilityDatabase : list (string * known_vulnerability) :=
  [("reentrancy",
    mk_known Reentrancy "High"
      "Potential reentrancy vulnerability where external calls are made before state changes"
      "Follow the checks-effects-interactions pattern and consider using ReentrancyGuard");
   ("integerOverflow",
    mk_known IntegerOverflow "Medium"
      "Potential integer overflow/underflow in arithmetic operations"
      "Use SafeMath library or Solidity 0.8.0+ built-in overflow checking");
   ("uncheckedReturn",
    mk_known UncheckedReturn "Medium"
      "Unchecked return value from external call"
      "Always check return values from external calls using require() or similar");
   ("txOrigin",
    mk_known TxOrigin "High"
      "Use of tx.origin for authorization, vulnerable to phishing attacks"
      "Use msg.sender instead of tx.origin for authorization");
   ("hardcodedAddress",
    mk_known HardcodedAddress "Medium"
      "Hardcoded Ethereum address found"
      "Use constructor parameters or setter functions for addresses")].

Record vulnerability := mk_vulnerability {
  vu_type : string;
  vu_severity : string;
  vu_description : string;
  vu_recommendation : string;
  vu_location : string
}.

Record scan := mk_scan {
  scan_address : string;
  scanDate : Z;
  vulnerabilities : list vulnerability;
  overallRisk : string;
  scanMethod : string
}.

Record standard := mk_standard {
  std_name : string;
  std_functions : list string
}.

(** [Object.entries(complianceStandards)], in the order of the source. *)
Definition complianceStandards : list (string * standard) :=
  [("erc20",
    mk_standard "ERC-20"
      ["totalSupply()"; "balanceOf(address)"; "transfer(address,uint256)";
       "transferFrom(address,address,uint256)"; "approve(address,uint256)";
       "allowance(address,address)"]);
   ("erc721",
    mk_standard "ERC-721"
      ["balanceOf(address)"; "ownerOf(uint256)"; "safeTransferFrom(address,address,uint256)";
       "transferFrom(address,address,uint256)"; "approve(address,uint256)";
       "getApproved(uint256)"; "setApprovalForAll(address,bool)";
       "isApprovedForAll(address,address)"]);
   ("eip2612",
    mk_standard "EIP-2612"
      ["permit(address,address,uint256,uint256,uint8,bytes32,bytes32)"])].

(** The three values of [compliant]: [true], ['Partial'] and [false]. *)
Inductive compliance :=
| Compliant
| Partial
| NotCompliant.

Record standard_result := mk_standard_result {
  sr_name : string;
  sr_compliant : compliance;
  sr_details : string;
  sr_missingFunctions : list string
}.

Record regulation := mk_regulation {
  rg_name : string;
  rg_compliant : compliance;
  rg_details : string
}.

Record compliance_check := mk_compliance_check {
  cc_address : string;
  checkDate : Z;
  standards : list standard_result;
  regulations : list regulation;
  overallCompliance : string
}.

(** The body of the loop over the standards. *)
Definition check_standard (code : string) (st : standard) : standard_result :=
  let requiredFunctions := std_functions st in
  let implementedFunctions := List.filter (fun func => includes code func) requiredFunctions in
  let compliant := (length implementedFunctions =? length requiredFunctions)%nat in
  {| sr_name := std_name st;
     sr_compliant :=
       if compliant then Compliant
       else if (0 <? length implementedFunctions)%nat then Partial else NotCompliant;
     sr_details :=
       if compliant
       then "Implements all required " +:+ std_name st +:+ " functions"
       else "Missing "
            +:+ pretty (length requiredFunctions - length implementedFunctions)%nat
            +:+ " of " +:+ pretty (length requiredFunctions)
            +:+ " required functions";
     sr_missingFunctions :=
       if compliant then []
       else List.filter (fun f => negb (bool_decide (f ∈ implementedFunctions)))
                        requiredFunctions |}.

Definition is_compliant (r : standard_result) : bool :=
  match sr_compliant r with Compliant => true | _ => false end.

Definition is_partial (r : standard_result) : bool :=
  match sr_compliant r with Partial => true | _ => false end.

(** [overallCompliance]: [compliantCount >= standards.length / 2] is
    written without the division. *)
Definition overall (standards : list standard_result) : string :=
  let compliantCount := length (List.filter is_compliant standards) in
  let partialCount := length (List.filter is_partial standards) in
  if (length standards <=? 2 * compliantCount)%nat then "High"
  else if (0 <? compliantCount)%nat || (0 <? partialCount)%nat then "Moderate"
  else "Low".

Section Analysis.

Variable clock : nat -> Z.

(** [pattern.test(code)] for the two patterns that look ahead and behind:
    the runtime's regular expressions.  The other three patterns are
    alternatives of literal strings and a character class, and are
    written out. *)
Variable test_reentrancy : string -> bool.
Variable test_uncheckedReturn : string -> bool.

Definition test (p : pattern) (code : string) : bool :=
  match p with
  | Reentrancy => test_reentrancy code
  | IntegerOverflow =>
      includes code "+" || includes code "-" || includes code "*" || includes code "/"
      || includes code "+=" || includes code "-=" || includes code "*=" || includes code "/="
      || includes code "Math.add" || includes code "Math.sub"
      || includes code "Math.mul" || includes code "Math.div"
  | UncheckedReturn => test_uncheckedReturn code
  | TxOrigin => includes code "tx.origin"
  | HardcodedAddress => contains_address code
  end.

Definition found (code : string) : list vulnerability :=
  fold_left
    (fun vulnerabilities '(vulnType, vuln) =>
       if test (kv_pattern vuln) code then
         (vulnerabilities ++
            [{| vu_type := vulnType;
                vu_severity := kv_severity vuln;
                vu_description := kv_description vuln;
                vu_recommendation := kv_recommendation vuln;
                vu_location := "Contract code" |}])%list
       else vulnerabilities)
    vulnerabilityDatabase [].

Definition scanContractVulnerabilities (address code : string) (w : world) : scan * world :=
  let vulnerabilities := found code in
  let overallRisk :=
    if existsb (fun v => bool_decide (vu_severity v = "High")) vulnerabilities then "High"
    else if existsb (fun v => bool_decide (vu_severity v = "Medium")) vulnerabilities
         then "Medium"
         else "Low" in
  let '(t, w) := Date_now clock w in
  ({| scan_address := address;
      scanDate := t;
      vulnerabilities := vulnerabilities;
      overallRisk := overallRisk;
      scanMethod := "Pattern matching" |}, w).

Definition checkContractCompliance (address code : string) (w : world)
  : compliance_check * world :=
  let standards := map (fun '(standardId, st) => check_standard code st) complianceStandards in
  let hasAddressBlacklisting := includes code "blacklist" || includes code "blocklist" in
  let regulations :=
    [{| rg_name := "KYC/AML";
        rg_compliant := if hasAddressBlacklisting then Partial else NotCompliant;
        rg_details :=
          if hasAddressBlacklisting
          then "Has address blacklisting but no KYC verification"
          else "No KYC/AML compliance features found" |}] in
  let '(t, w) := Date_now clock w in
  ({| cc_address := address;
      checkDate := t;
      standards := standards;
      regulations := regulations;
      overallCompliance := overall standards |}, w).

End Analysis.

End ContractService.

(** ** controllers/contract.controller.js: the mint handler
       (src/backend/src/controllers/contract.controller.js, lines 163-186) *)

Module ContractController.

Import JS.

(** What the handler answers: [res.status(400).json({ message })],
    [res.status(500).send('Server error')], or, with status 200, what
    [contractService.mintCreditScoreNFT(address, score)] resolves with. *)
Inductive reply :=
| BadRequest (message : string)
| ServerError
| Minted (address score : value).

Section WithRuntime.

Variable StringToNumber : string -> number.
Variable NumberToString : number -> string.

(** [exports.mintCreditScoreNFT]; [body] is [req.body], [None] when it is
    [undefined]. *)
Definition mintCreditScoreNFT (body : option (gmap string value))
  : reply * list Console.entry :=
  match body with
  | None =>
      (ServerError,
       [Console.Error
          ["Cannot destructure property 'address' of 'req.body' as it is undefined."]])
  | Some b =>
      let address := default (Scalar Undefined) (b !! "address") in
      let score := default (Scalar Undefined) (b !! "score") in
      if negb (truthy address) then (BadRequest "Wallet address is required", [])
      else if negb (truthy score)
              || lt_literal StringToNumber NumberToString score 0
              || gt_literal StringToNumber NumberToString score 1000
      then (BadRequest "Valid credit score (0-1000) is required", [])
      else (Minted address score, [])
  end.

End WithRuntime.

End ContractController.

(** ** The risk controller: the wallet handler
       (src/backend/src/controllers/contract.controller.js, lines 187-218) *)

Module RiskController.

Import JS Runtime.

(** [/^0x[a-fA-F0-9]{40}$/.test(address)] *)
Definition addressRegex_test (address : string) : bool :=
  ContractService.address_at address && (String.length address =? 42)%nat.

(** What the handler answers: the analysis with status 200, a message with
    status 400, or [{ message: 'Server error', error }] with status 500 (the
    error's message is not modelled). *)
Inductive reply :=
| Ok (riskAnalysis : RiskService.analysis)
| BadRequest (message : string)
| ServerError.

Section WithRuntime.

Variable rand : nat -> R.
Variable clock : nat -> Z.

(** [exports.analyzeWalletRisk]; [address] is [req.params.address]. *)
Definition analyzeWalletRisk (address : string) (w : world)
  : reply * list Console.entry * world :=
  if bool_decide (address = "") then (BadRequest "Wallet address is required", [], w)
  else if negb (addressRegex_test address)
  then (BadRequest "Invalid Ethereum address format", [], w)
  else
    match RiskService.analyzeWalletRisk rand clock address w with
    | (Some riskAnalysis, w) => (Ok riskAnalysis, [], w)
    | (None, w) => (ServerError, [Console.Error ["Error analyzing wallet risk:"]], w)
    end.

End WithRuntime.

End RiskController.

(** ** services/blockchain.service.js: the on-chain NFT mint and its fallback
       (src/unnamed/part_002) *)

Module BlockchainService.

Import JS Runtime.

(** What the service reads of a transaction receipt: [receipt.events] (an
    absent property is [None]), each event's name and its
    [args.tokenId.toString()] ([None] when reading it throws),
    [receipt.transactionHash] and [receipt.blockNumber]. *)
Record event := mk_event {
  event_name : string;
  args_tokenId : option string
}.

Record receipt := mk_receipt {
  events : option (list event);
  transactionHash : string;
  blockNumber : Z
}.

(** The blockchain as the service is connected to it.  [ethers_isAddress] is
    [None] when the ethers package is not installed; applied to an address
    it is [None] when the validation itself throws.  [nftContract] is
    [None] when no contract was initialised; applied to the recipient and
    the token URI it is the outcome of [mint] followed by [tx.wait()]:
    [inl msg] when either throws. *)
Record chain := mk_chain {
  ethers_isAddress : option (string -> option bool);
  nftContract : option (string -> string -> string + receipt)
}.

Record minted := mk_minted {
  success : bool;
  simulated : bool;
  tokenId : string;
  tokenUri : string;
  txHash : string;
  m_blockNumber : Z;
  walletAddress : string;
  creditScore : number
}.

Definition isValidAddress (c : chain) (addr : string) : bool :=
  match ethers_isAddress c with
  | None => true
  | Some isAddress => default true (isAddress addr)
  end.

(** [Math.floor(x).toString(16)] *)
Definition hex (d : Z) : string :=
  HexadecimalString.NilZero.string_of_int (Z.to_hex_int d).

Definition hex_alphabet : list string :=
  ["0"; "1"; "2"; "3"; "4"; "5"; "6"; "7"; "8"; "9"; "a"; "b"; "c"; "d"; "e"; "f"].

Section WithRuntime.

Variable rand : nat -> Q.
Variable clock : nat -> Z.

(** [createCreditScoreMetadata]: the metadata object it builds (name,
    description, image, category and attributes) is dropped, and the URI of
    a simulated IPFS upload is returned.  [additionalData] is [None] for
    [null], on which [Object.entries] throws; the error is logged and thrown
    again under a new message. *)
Definition createCreditScoreMetadata
  (addr : string) (sc : number) (additionalData : option (list (string * scalar)))
  (w : world) : (string + string) * list Console.entry * world :=
  let '(verificationDate, w) := Date_now clock w in
  match additionalData with
  | None =>
      let msg := "Cannot convert undefined or null to object" in
      (inl ("Failed to create credit score metadata: " +:+ msg),
       [Console.Error ["Error creating credit score metadata:"; msg]], w)
  | Some _ =>
      let '(t, w) := Date_now clock w in
      let '(r, w) := Math_random rand w in
      let ipfsHash := "QmHash" +:+ pretty t +:+ pretty (Qfloor (r * 1000)) in
      (inr ("ipfs://" +:+ ipfsHash), [], w)
  end.

(** The [try] block of [mintCreditScoreNFT]: [inl msg] when it throws. *)
Definition mint_try
  (c : chain) (addr : string) (sc : number) (additionalData : option (list (string * scalar)))
  (w : world) : (string + minted) * list Console.entry * world :=
  match nftContract c with
  | None => (inl "NFT contract not initialized", [], w)
  | Some contract =>
      if negb (isValidAddress c addr) then (inl "Invalid Ethereum address", [], w)
      else
        match createCreditScoreMetadata addr sc additionalData w with
        | (inl msg, logs, w) => (inl msg, logs, w)
        | (inr uri, logs, w) =>
            match contract addr uri with
            | inl msg => (inl msg, logs, w)
            | inr rc =>
                match events rc with
                | None => (inl "Cannot read properties of undefined (reading 'find')", logs, w)
                | Some evs =>
                    match List.find (fun e => bool_decide (event_name e = "Transfer")) evs with
                    | None =>
                        (inl "Cannot read properties of undefined (reading 'args')", logs, w)
                    | Some transferEvent =>
                        match args_tokenId transferEvent with
                        | None =>
                            (inl "Cannot read properties of undefined (reading 'tokenId')",
                             logs, w)
                        | Some tid =>
                            (inr {| success := true;
                                    simulated := false;
                                    tokenId := tid;
                                    tokenUri := uri;
                                    txHash := transactionHash rc;
                                    m_blockNumber := blockNumber rc;
                                    walletAddress := addr;
                                    creditScore := sc |}, logs, w)
                        end
                    end
                end
            end
        end
  end.

(** [Array(n).fill(0).map(() => Math.floor(Math.random() * 16).toString(16))] *)
Fixpoint hex_digits (n : nat) (w : world) : list string * world :=
  match n with
  | O => ([], w)
  | S n' =>
      let '(r, w) := Math_random rand w in
      let '(ds, w) := hex_digits n' w in
      (hex (Qfloor (r * 16)) :: ds, w)
  end.

(** The [catch] block: the simulated success response. *)
Definition mint_fallback (addr : string) (sc : number) (w : world) : minted * world :=
  let '(t0, w) := Date_now clock w in
  let '(t1, w) := Date_now clock w in
  let '(ds, w) := hex_digits 64 w in
  ({| success := true;
      simulated := true;
      tokenId := pretty t0;
      tokenUri := "ipfs://QmSimulated" +:+ pretty t1;
      txHash := "0x" +:+ String.concat "" ds;
      m_blockNumber := 12345678;
      walletAddress := addr;
      creditScore := sc |}, w).

Definition mintCreditScoreNFT
  (c : chain) (addr : string) (sc : number) (additionalData : option (list (string * scalar)))
  (w : world) : minted * list Console.entry * world :=
  match mint_try c addr sc additionalData w with
  | (inr m, logs, w) => (m, logs, w)
  | (inl msg, logs, w) =>
      let '(m, w) := mint_fallback addr sc w in
      (m, logs ++ [Console.Error ["Error minting credit score NFT:"; msg]], w)%list
  end.

End WithRuntime.

(** *** CoinGecko ids and historical prices
        (src/unnamed/part_002, lines 259-279 and 336-401) *)

Definition lower (c : ascii) : ascii :=
  let n := nat_of_ascii c in
  if (65 <=? n)%nat && (n <=? 90)%nat then ascii_of_nat (n + 32) else c.

(** [s.toLowerCase()] on ASCII letters; other characters are kept. *)
Fixpoint toLowerCase (s : string) : string :=
  match s with
  | EmptyString => EmptyString
  | String c s' => String (lower c) (toLowerCase s')
  end.

Definition symbolMap : gmap string string :=
  <["BTC" := "bitcoin"]>
  (<["ETH" := "ethereum"]>
  (<["SOL" := "solana"]>
  (<["ADA" := "cardano"]>
  (<["DOGE" := "dogecoin"]>
  (<["XRP" := "ripple"]>
  (<["DOT" := "polkadot"]>
  (<["AVAX" := "avalanche-2"]>
  (<["MATIC" := "matic-network"]>
  (<["LINK" := "chainlink"]> ∅))))))))).

(** [symbolMap[symbol.toUpperCase()] || symbol.toLowerCase()], for a
    symbol written in ASCII: the case mappings change the letters of ASCII
    only. *)
Definition getCoingeckoId (symbol : string) : string :=
  match symbolMap !! RiskService.toUpperCase symbol with
  | Some id => if bool_decide (id = "") then toLowerCase symbol else id
  | None => toLowerCase symbol
  end.

(** One point of a price history; its [date] is the ISO string of the
    timestamp, which is kept as the timestamp. *)
Record price_entry := mk_price_entry {
  pe_timestamp : Z;
  pe_price : Q
}.

(** [hs_simulated] is false when the property is absent. *)
Record history := mk_history {
  hs_symbol : string;
  hs_days : string;
  hs_prices : list price_entry;
  hs_lastUpdated : Z;
  hs_simulated : bool
}.

Section Prices.

Variable rand : nat -> Q.
Variable clock : nat -> Z.

(** [process.env.COINGECKO_API_KEY]. *)
Variable COINGECKO_API_KEY : option string.

(** [axios.get(url)] followed by the reading of [response.data.prices], a
    list of pairs of a timestamp and a price, and by the formatting of the
    timestamps: [None] when one of them throws. *)
Variable axios_get_prices : string -> option (list (Z * Q)).

(** [parseInt]: [None] is NaN. *)
Variable parseInt : string -> option Z.

Definition market_chart_url (symbol days : string) : string :=
  let coinId := getCoingeckoId symbol in
  let url :=
    "https://api.coingecko.com/api/v3/coins/" +:+ coinId
    +:+ "/market_chart?vs_currency=usd&days=" +:+ days in
  if bool_decide (AuthMiddleware.or_default COINGECKO_API_KEY "" = "")
  then url
  else url +:+ "&x_cg_pro_api_key=" +:+ AuthMiddleware.or_default COINGECKO_API_KEY "".

(** The time values of which [new Date(t).toISOString()] gives a string:
    those within 8.64e15 milliseconds of the epoch; for every other one it
    throws a RangeError. *)
Definition valid_time (t : Z) : bool :=
  (-8640000000000000 <=? t)%Z && (t <=? 8640000000000000)%Z.

(** The loop [for (let i = 0; i <= parseInt(days); i++)] of the [catch]
    block, at index [i] with [n] iterations left to run; [None] when the
    formatting of a timestamp throws. *)
Fixpoint simulate_prices (startTime i : Z) (n : nat) (basePrice : Q)
  (prices : list price_entry) (w : world) : option (list price_entry) * world :=
  match n with
  | O => (Some prices, w)
  | S n' =>
      let timestamp := (startTime + i * (24 * 60 * 60 * 1000))%Z in
      let '(r, w) := Math_random rand w in
      let basePrice := (basePrice * (1 + (r * (6 # 100) - (3 # 100))))%Q in
      if valid_time timestamp then
        simulate_prices startTime (i + 1) n' basePrice
          (prices ++ [{| pe_timestamp := timestamp; pe_price := basePrice |}])%list w
      else (None, w)
  end.

(** [days_given] is [None] when the argument is left out; [days] then
    defaults to ['30'].  The error that is logged with the message is
    left out of the log entry.  The result is [None] when the [catch] block
    itself throws, which rejects the promise. *)
Definition getHistoricalPriceData (symbol : string) (days_given : option string) (w : world)
  : option history * list Console.entry * world :=
  let days := default "30" days_given in
  match axios_get_prices (market_chart_url symbol days) with
  | Some data =>
      let prices :=
        map (fun '(timestamp, price) =>
               {| pe_timestamp := timestamp; pe_price := price |}) data in
      let '(t, w) := Date_now clock w in
      (Some {| hs_symbol := RiskService.toUpperCase symbol;
               hs_days := days;
               hs_prices := prices;
               hs_lastUpdated := t;
               hs_simulated := false |}, [], w)
  | None =>
      let logs :=
        [Console.Error ["Error fetching historical price data for " +:+ symbol +:+ ":"]] in
      let '(now, w) := Date_now clock w in
      let basePrice := (if bool_decide (symbol = "BTC") then 65000 else 3500)%Q in
      let '(simulated, w) :=
        match parseInt days with
        | None => (Some [], w)
        | Some n =>
            let daysMs := (n * 24 * 60 * 60 * 1000)%Z in
            let startTime := (now - daysMs)%Z in
            simulate_prices startTime 0 (Z.to_nat (n + 1)) basePrice [] w
        end in
      match simulated with
      | None => (None, logs, w)
      | Some prices =>
          let '(t, w) := Date_now clock w in
          (Some {| hs_symbol := RiskService.toUpperCase symbol;
                   hs_days := days;
                   hs_prices := prices;
                   hs_lastUpdated := t;
                   hs_simulated := true |}, logs, w)
      end
  end.

End Prices.

End BlockchainService.

(** ** controllers/blockchain.controller.js: the mint handler
       (src/backend/src/controllers/blockchain.controller.js, lines 47-79) *)

Module BlockchainController.

Import JS Runtime.

(** The body of a mint request: the wallet address is a string and the
    credit score a number; a property that is absent is [None], and so is
    an [additionalData] that is [null]. *)
Record body := mk_body {
  b_walletAddress : option string;
  b_creditScore : option number;
  b_additionalData : option (list (string * scalar))
}.

Record request := mk_request {
  req_body : option body;
  req_user : option AuthMiddleware.user
}.

(** What the handler answers: the service's result with status 200, a
    message with status 400, or [{ message: 'Server error', error }] with
    status 500. *)
Inductive reply :=
| Ok (result : BlockchainService.minted)
| BadRequest (message : string)
| ServerError (error : string).

(** [!creditScore || isNaN(creditScore)] *)
Definition invalid_score (creditScore : option number) : bool :=
  match creditScore with
  | None => true
  | Some NaN => true
  | Some (Fin q) => Qeq_bool q 0
  end.

Section WithRuntime.

Variable rand : nat -> Q.
Variable clock : nat -> Z.

Definition server_error (msg : string) (w : world) : reply * list Console.entry * world :=
  (ServerError msg, [Console.Error ["Error minting credit score NFT:"; msg]], w).

(** [exports.mintCreditScoreNFT] *)
Definition mintCreditScoreNFT (c : BlockchainService.chain) (req : request) (w : world)
  : reply * list Console.entry * world :=
  match req_body req with
  | None =>
      server_error
        "Cannot destructure property 'walletAddress' of 'req.body' as it is undefined." w
  | Some b =>
  match req_user req with
  | None => server_error "Cannot read properties of undefined (reading 'id')" w
  | Some u =>
      if AuthMiddleware.missing (b_walletAddress b)
      then (BadRequest "Wallet address is required", [], w)
      else if invalid_score (b_creditScore b)
      then (BadRequest "Valid credit score is required", [], w)
      else
        let walletAddress := default "" (b_walletAddress b) in
        let creditScore := default NaN (b_creditScore b) in
        if negb (BlockchainService.isValidAddress c walletAddress)
        then (BadRequest "Invalid wallet address", [], w)
        else
          let '(result, logs, w) :=
            BlockchainService.mintCreditScoreNFT rand clock c walletAddress creditScore
              (Some (default [] (b_additionalData b))) w in
          (Ok result, logs, w)
  end
  end.

End WithRuntime.

End BlockchainController.

(** ** services/mock-banking.service.js *)

Module MockBankingService.

Import JS Runtime.

Record options := mk_options {
  limit : option number;
  dateFrom : option string;
  dateTo : option string;
  type : option string
}.

(** [amount] is a number on a debit ([-amount], the negated string) and the
    string of [toFixed(2)] on a credit. *)
Inductive amount :=
| AmountNumber (q : Q)
| AmountString (s : string).

Record transaction := mk_transaction {
  id : string;
  accountId : string;
  tx_amount : amount;
  date : string;
  description : option string;
  category : option string;
  status : string;
  tx_type : string
}.

Record page := mk_page {
  p_accountId : string;
  transactions : list transaction;
  totalCount : nat;
  moreAvailable : bool
}.

Definition categories : list string :=
  ["Groceries"; "Dining"; "Shopping"; "Transportation"; "Entertainment"; "Utilities";
   "Health"; "Travel"].

Definition merchants : list string :=
  ["Whole Foods"; "Amazon"; "Uber"; "Netflix"; "Target"; "Starbucks"; "CVS Pharmacy";
   "AT&T"; "Gas Station"].

(** The integer [n] nearest to [100 * x], a tie going up, for [x >= 0]. *)
Definition cents (x : Q) : Z := Qfloor (x * 100 + (1 # 2)).

Definition two_digits (n : Z) : string :=
  if (n <? 10)%Z then "0" +:+ pretty n else pretty n.

(** [x.toFixed(2)] for [x] below [1e21]. *)
Definition toFixed2 (x : Q) : string :=
  if Qle_bool 0 x
  then pretty (cents x / 100)%Z +:+ "." +:+ two_digits (cents x mod 100)%Z
  else "-" +:+ pretty (cents (- x) / 100)%Z +:+ "." +:+ two_digits (cents (- x) mod 100)%Z.

(** The number that the string [x.toFixed(2)] denotes. *)
Definition fixed2 (x : Q) : Q :=
  if Qle_bool 0 x then inject_Z (cents x) / 100 else - (inject_Z (cents (- x)) / 100).

(** How often the body of [for (let i = 0; i < limit; i++)] runs. *)
Definition iterations (lim : number) : nat :=
  match lim with
  | NaN => 0
  | Fin q => Z.to_nat (Qceiling q)
  end.

Section WithRuntime.

Variable rand : nat -> Q.
Variable clock : nat -> Z.

(** [Number.prototype.toString(36)] and the timestamp [d.toISOString()] of
    [d = new Date(t); d.setDate(d.getDate() - k)]: the runtime's. *)
Variable toString36 : Q -> string.
Variable isoDaysBefore : Z -> Z -> string.

(** One run of the loop body, for the index [i]. *)
Definition generate (account : string) (i : nat) (w : world) : transaction * world :=
  let '(r, w) := Math_random rand w in
  let isDebit := negb (Qle_bool r (3 # 10)) in
  let '(r, w) := Math_random rand w in
  let amount := (if isDebit then r * 200 + 5 else r * 2000 + 500)%Q in
  let daysAgo := (Z.of_nat i * 2)%Z in
  let '(t, w) := Date_now clock w in
  let '(r, w) := Math_random rand w in
  let id := "tx-" +:+ String.substring 2 8 (toString36 r) in
  if isDebit then
    let '(r, w) := Math_random rand w in
    let description := at_index merchants (Qfloor (r * inject_Z (Z.of_nat (length merchants)))) in
    let '(r, w) := Math_random rand w in
    let category := at_index categories (Qfloor (r * inject_Z (Z.of_nat (length categories)))) in
    ({| id := id; accountId := account;
        tx_amount := AmountNumber (- fixed2 amount)%Q;
        date := isoDaysBefore t daysAgo;
        description := description; category := category;
        status := "posted"; tx_type := "debit" |}, w)
  else
    ({| id := id; accountId := account;
        tx_amount := AmountString (toFixed2 amount);
        date := isoDaysBefore t daysAgo;
        description := Some "Deposit"; category := Some "Income";
        status := "posted"; tx_type := "credit" |}, w).

(** The loop, at index [i] with [n] iterations left to run. *)
Fixpoint generate_loop (account : string) (i n : nat) (acc : list transaction) (w : world)
  : list transaction * world :=
  match n with
  | O => (acc, w)
  | S n' =>
      let '(tx, w) := generate account i w in
      generate_loop account (S i) n' (acc ++ [tx])%list w
  end.

Definition getAccountTransactions (user account : string) (opts : options) (w : world)
  : page * world :=
  let lim := default (Fin 20) (limit opts) in
  let '(txs, w) := generate_loop account 0 (iterations lim) [] w in
  ({| p_accountId := account;
      transactions := txs;
      totalCount := length txs;
      moreAvailable := false |}, w).

(** *** Accounts, connection and spending analysis
        (src/backend/src/services/mock-banking.service.js, lines 11-102
        and 160-197) *)

Record institution := mk_institution {
  inst_id : string;
  inst_name : string;
  inst_logo : string
}.

(** An account; a property that the account does not have is [None]. *)
Record account := mk_account {
  acc_id : string;
  accountNumber : string;
  acc_name : string;
  acc_type : string;
  acc_status : string;
  balance : string;
  availableBalance : option string;
  availableCredit : option string;
  creditLimit : option Z;
  currency : string;
  lastUpdated : Z;
  acc_institution : institution
}.

Record accounts := mk_accounts {
  customerId : string;
  accounts_of : list account
}.

Definition demo_bank : institution :=
  {| inst_id := "inst-001"; inst_name := "Demo Bank";
     inst_logo := "https://via.placeholder.com/150?text=Demo+Bank" |}.

Definition credit_union : institution :=
  {| inst_id := "inst-002"; inst_name := "Credit Union";
     inst_logo := "https://via.placeholder.com/150?text=Credit+Union" |}.

(** ['XXXX-XXXX-' + Math.floor(1000 + Math.random() * 9000)] *)
Definition generateAccountNumber (w : world) : string * world :=
  let '(r, w) := Math_random rand w in
  ("XXXX-XXXX-" +:+ pretty (Qfloor (1000 + r * 9000)), w).

(** [(Math.random() * (max - min) + min).toFixed(2)] *)
Definition generateBalance (min max : Q) (w : world) : string * world :=
  let '(r, w) := Math_random rand w in
  (toFixed2 (r * (max - min) + min), w).

(** ['acc-' + Math.random().toString(36).substring(2, 10)] *)
Definition account_id (w : world) : string * world :=
  let '(r, w) := Math_random rand w in
  ("acc-" +:+ String.substring 2 8 (toString36 r), w).

Definition getBankAccounts (userId : string) (w : world) : accounts * world :=
  let '(id1, w) := account_id w in
  let '(number1, w) := generateAccountNumber w in
  let '(balance1, w) := generateBalance 1500 8000 w in
  let '(available1, w) := generateBalance 1400 7800 w in
  let '(updated1, w) := Date_now clock w in
  let '(id2, w) := account_id w in
  let '(number2, w) := generateAccountNumber w in
  let '(balance2, w) := generateBalance 5000 25000 w in
  let '(available2, w) := generateBalance 5000 25000 w in
  let '(updated2, w) := Date_now clock w in
  let '(id3, w) := account_id w in
  let '(number3, w) := generateAccountNumber w in
  let '(balance3, w) := generateBalance 100 3000 w in
  let '(credit3, w) := generateBalance 5000 10000 w in
  let '(updated3, w) := Date_now clock w in
  ({| customerId := "mock-customer-" +:+ userId;
      accounts_of :=
        [{| acc_id := id1; accountNumber := number1;
            acc_name := "Primary Checking"; acc_type := "checking"; acc_status := "active";
            balance := balance1; availableBalance := Some available1;
            availableCredit := None; creditLimit := None;
            currency := "USD"; lastUpdated := updated1; acc_institution := demo_bank |};
         {| acc_id := id2; accountNumber := number2;
            acc_name := "Savings Account"; acc_type := "savings"; acc_status := "active";
            balance := balance2; availableBalance := Some available2;
            availableCredit := None; creditLimit := None;
            currency := "USD"; lastUpdated := updated2; acc_institution := demo_bank |};
         {| acc_id := id3; accountNumber := number3;
            acc_name := "Credit Card"; acc_type := "credit"; acc_status := "active";
            balance := balance3; availableBalance := None;
            availableCredit := Some credit3; creditLimit := Some 10000%Z;
            currency := "USD"; lastUpdated := updated3;
            acc_institution := credit_union |}] |}, w).

Record connection := mk_connection {
  cn_success : bool;
  cn_customerId : string;
  cn_message : string;
  cn_institution : institution
}.

(** [connectBankingProvider(userId, credentials)], for credentials that are
    an object; [provider] is [credentials.provider], [None] when absent. *)
Definition connectBankingProvider (userId : string) (provider : option string) : connection :=
  {| cn_success := true;
     cn_customerId := "mock-customer-" +:+ userId;
     cn_message := "Successfully connected to banking provider";
     cn_institution :=
       {| inst_id := if bool_decide (provider = Some "Fynapse") then "inst-001" else "inst-002";
          inst_name := AuthMiddleware.or_default provider "Demo Bank";
          inst_logo :=
            "https://via.placeholder.com/150?text="
            +:+ AuthMiddleware.or_default provider "Demo+Bank" |} |}.

(** The integer nearest to [10 * x], a tie going up, for [x >= 0]; the
    string [x.toFixed(1)] and the number it denotes. *)
Definition tenths (x : Q) : Z := Qfloor (x * 10 + (1 # 2)).

Definition toFixed1 (x : Q) : string :=
  if Qle_bool 0 x
  then pretty (tenths x / 10)%Z +:+ "." +:+ pretty (tenths x mod 10)%Z
  else "-" +:+ pretty (tenths (- x) / 10)%Z +:+ "." +:+ pretty (tenths (- x) mod 10)%Z.

Definition fixed1 (x : Q) : Q :=
  if Qle_bool 0 x then inject_Z (tenths x) / 10 else - (inject_Z (tenths (- x)) / 10).

Record spend := mk_spend {
  sp_name : string;
  sp_amount : string;
  sp_percentage : string
}.

Record month_spend := mk_month_spend {
  ms_month : string;
  ms_amount : string
}.

Record spending := mk_spending {
  totalSpending : string;
  spend_categories : list spend;
  spend_trend : list month_spend;
  insights : list string
}.

(** The eight categories with the factor and the offset of their random
    amount. *)
Definition spending_categories : list (string * Q * Q) :=
  [("Groceries", 500, 200); ("Dining", 300, 100); ("Shopping", 400, 150);
   ("Transportation", 200, 100); ("Entertainment", 200, 50); ("Utilities", 300, 150);
   ("Health", 200, 100); ("Other", 200, 50)]%Q.

(** The amounts before rounding, one random draw each, in order. *)
Fixpoint draw_amounts (ranges : list (Q * Q)) (w : world) : list Q * world :=
  match ranges with
  | [] => ([], w)
  | (factor, offset) :: ranges' =>
      let '(r, w) := Math_random rand w in
      let '(rest, w) := draw_amounts ranges' w in
      ((r * factor + offset)%Q :: rest, w)
  end.

Definition sumQ (l : list Q) : Q := fold_left Qplus l 0%Q.

(** [analyzeSpending]: [parseFloat] of a string [x.toFixed(2)] is the number
    [fixed2 x] that the string denotes.  The shares are computed in exact
    arithmetic: a share that the code's doubles put on the other side of a
    tie is printed with a last digit that differs by one. *)
Definition analyzeSpending (userId : string) (w : world) : spending * world :=
  let '(raw, w) := draw_amounts (map (fun c => (snd (fst c), snd c)) spending_categories) w in
  let names := map (fun c => fst (fst c)) spending_categories in
  let total := sumQ (map fixed2 raw) in
  let categories :=
    zip_with (fun name x =>
                {| sp_name := name;
                   sp_amount := toFixed2 x;
                   sp_percentage := toFixed1 (fixed2 x / total * 100) |})
             names raw in
  let months := ["Jan"; "Feb"; "Mar"; "Apr"; "May"; "Jun"] in
  let '(monthly, w) := draw_amounts (map (fun _ => (2000, 1000)%Q) months) w in
  ({| totalSpending := toFixed2 total;
      spend_categories := categories;
      spend_trend :=
        zip_with (fun month x => {| ms_month := month; ms_amount := toFixed2 x |})
                 months monthly;
      insights :=
        ["Your spending on Dining increased by 15% compared to last month";
         "You spent less on Entertainment this month";
         "Your biggest expense category is Groceries";
         "You have 3 recurring subscriptions totaling $45.97 per month"] |}, w).

End WithRuntime.

End MockBankingService.

(** ** controllers/banking.controller.js: the transactions handler
       (src/backend/src/controllers/banking.controller.js, lines 9-10 and
       50-94) *)

Module BankingController.

Import JS Runtime.

(** The request of [GET /accounts/:accountId/transactions]: the parameter
    of the path and the strings of the query; [None] is [undefined]. *)
Record request := mk_request {
  req_user : option AuthMiddleware.user;
  accountId : string;
  q_dateFrom : option string;
  q_dateTo : option string;
  q_limit : option string;
  q_type : option string
}.

(** What the handler answers: the service's result with status 200, a
    message with status 400, or [{ message: 'Server error', error }] with
    status 500. *)
Inductive reply :=
| Ok (transactions : MockBankingService.page)
| BadRequest (message : string)
| ServerError (error : string).

(** [if (v) options.k = v] for a string of the query. *)
Definition given (v : option string) : option string :=
  match v with
  | Some s => if bool_decide (s = "") then None else Some s
  | None => None
  end.

Section WithRuntime.

Variable rand : nat -> Q.
Variable clock : nat -> Z.
Variable toString36 : Q -> string.
Variable isoDaysBefore : Z -> Z -> string.

(** [parseInt]: [None] is NaN. *)
Variable parseInt : string -> option Z.

(** [exports.getAccountTransactions]; [customerIdMap] is the module's map
    from user ids to customer ids. *)
Definition getAccountTransactions
  (customerIdMap : gmap string string) (req : request) (w : world)
  : reply * gmap string string * list Console.entry * world :=
  match req_user req with
  | None =>
      let msg := "Cannot read properties of undefined (reading 'id')" in
      (ServerError msg, customerIdMap,
       [Console.Error ["Error fetching transactions:"; msg]], w)
  | Some u =>
      let userId := AuthMiddleware.id u in
      let customerIdMap :=
        if AuthMiddleware.missing (customerIdMap !! userId) then
          let connection := MockBankingService.connectBankingProvider userId (Some "Fynapse") in
          if bool_decide (MockBankingService.cn_customerId connection = "")
          then customerIdMap
          else <[userId := MockBankingService.cn_customerId connection]> customerIdMap
        else customerIdMap in
      if bool_decide (accountId req = "")
      then (BadRequest "Account ID is required", customerIdMap, [], w)
      else
        let options :=
          {| MockBankingService.limit :=
               match given (q_limit req) with
               | Some limit =>
                   Some (match parseInt limit with
                         | Some n => Fin (inject_Z n)
                         | None => NaN
                         end)
               | None => None
               end;
             MockBankingService.dateFrom := given (q_dateFrom req);
             MockBankingService.dateTo := given (q_dateTo req);
             MockBankingService.type := given (q_type req) |} in
        let '(transactions, w) :=
          MockBankingService.getAccountTransactions rand clock toString36 isoDaysBefore
            userId (accountId req) options w in
        (Ok transactions, customerIdMap, [], w)
  end.

End WithRuntime.

End BankingController.

(** ** services/banking.service.js: recorded accounts, transactions and
       spending patterns *)

Module BankingService.

Import JS Runtime.

Local Open Scope Q_scope.

Record transaction := mk_transaction {
  tx_id : string;
  tx_date : string;
  tx_description : string;
  tx_amount : Q;
  tx_type : string
}.

Record account := mk_account {
  acc_id : string;
  provider : string;
  acc_type : string;
  acc_name : string;
  balance : Q;
  currency : string;
  accountNumber : string;
  transactions : list transaction
}.

Definition user123_accounts : list account :=
  [mk_account "acc_1001" "fynapse" "checking" "Primary Checking" (528042 # 100) "USD" "xxxx4567"
     [mk_transaction "tx1001" "2025-05-01" "Salary Deposit" 3500 "credit";
      mk_transaction "tx1002" "2025-05-02" "Grocery Store" (- (12530 # 100)) "debit";
      mk_transaction "tx1003" "2025-05-05" "Electric Bill" (- (8520 # 100)) "debit";
      mk_transaction "tx1004" "2025-05-10" "Restaurant" (- (6245 # 100)) "debit";
      mk_transaction "tx1005" "2025-05-15" "Gas Station" (- 45) "debit"];
   mk_account "acc_1002" "fynapse" "savings" "Emergency Fund" (1275088 # 100) "USD" "xxxx7890"
     [mk_transaction "tx2001" "2025-05-01" "Transfer from Checking" 500 "credit";
      mk_transaction "tx2002" "2025-05-15" "Interest Payment" (1250 # 100) "credit"];
   mk_account "acc_1003" "saltedge" "credit" "Rewards Credit Card" (- (125030 # 100)) "USD"
     "xxxx1234"
     [mk_transaction "tx3001" "2025-05-03" "Online Shopping" (- (8999 # 100)) "debit";
      mk_transaction "tx3002" "2025-05-07" "Streaming Service" (- (1499 # 100)) "debit";
      mk_transaction "tx3003" "2025-05-12" "Restaurant" (- (7850 # 100)) "debit";
      mk_transaction "tx3004" "2025-05-20" "Payment" 500 "credit"]].

Definition user456_accounts : list account :=
  [mk_account "acc_2001" "fynapse" "checking" "Joint Checking" (875065 # 100) "USD" "xxxx5678"
     [mk_transaction "tx4001" "2025-05-01" "Salary Deposit" 4200 "credit";
      mk_transaction "tx4002" "2025-05-03" "Mortgage Payment" (- 1500) "debit";
      mk_transaction "tx4003" "2025-05-05" "Utility Bill" (- (12075 # 100)) "debit";
      mk_transaction "tx4004" "2025-05-10" "Grocery Store" (- (21045 # 100)) "debit"]].

Definition mockBankAccounts : gmap string (list account) :=
  <["user123" := user123_accounts]> (<["user456" := user456_accounts]> ∅).

(** [categorizeTransaction] *)
Definition categorizeTransaction (description : string) : string :=
  let description := BlockchainService.toLowerCase description in
  let has := ContractService.includes description in
  if has "salary" || has "deposit" then "income"
  else if has "grocery" || has "supermarket" then "groceries"
  else if has "restaurant" || has "cafe" then "dining"
  else if has "gas" || has "fuel" then "transportation"
  else if has "bill" || has "utility" then "utilities"
  else if has "transfer" then "transfer"
  else if has "interest" then "interest"
  else if has "payment" then "payment"
  else if has "shopping" || has "store" then "shopping"
  else if has "subscription" || has "streaming" then "subscription"
  else "other".

(** The options of a query: [None] is a property that is absent. *)
Record options := mk_options {
  dateFrom : option string;
  dateTo : option string;
  type : option string;
  limit : option number
}.

(** A transaction as [fetchAccountTransactions] returns it; its [balance]
    is always [null] and is left out. *)
Record listed := mk_listed {
  l_id : string;
  l_date : string;
  l_description : string;
  l_amount : Q;
  l_type : string;
  l_category : string
}.

Definition list_transaction (tx : transaction) : listed :=
  {| l_id := tx_id tx;
     l_date := tx_date tx;
     l_description := tx_description tx;
     l_amount := tx_amount tx;
     l_type := tx_type tx;
     l_category := categorizeTransaction (tx_description tx) |}.

(** What [fetchAccountTransactions] resolves with; [NeverFetched] when the
    timer callback throws, and the promise is never settled. *)
Inductive fetched :=
| NotFound (error : string)
| Found (accountId provider : string) (transactions : list listed)
| NeverFetched.

(** The value of [mockBankAccounts[userId] || []]: the array of the accounts
    of a user; the empty array for a name that the object neither has nor
    inherits; and for a name that it inherits from [Object.prototype] a
    function, of which the number of parameters is kept, or for [__proto__]
    the prototype object. *)
Inductive looked_up :=
| AccountArray (userAccounts : list account)
| InheritedFunction (length : nat)
| PrototypeObject.

(** The [length] of the functions of [Object.prototype]. *)
Definition function_length (name : string) : nat :=
  if bool_decide (name ∈ ["toString"; "valueOf"; "toLocaleString"]) then 0
  else if bool_decide (name ∈ ["__defineGetter__"; "__defineSetter__"]) then 2
  else 1.

Definition lookup_accounts (userId : string) : looked_up :=
  match mockBankAccounts !! userId with
  | Some userAccounts => AccountArray userAccounts
  | None =>
      if inherited userId then
        if bool_decide (userId = "__proto__") then PrototypeObject
        else InheritedFunction (function_length userId)
      else AccountArray []
  end.

(** [options.k] for a string that is truthy. *)
Definition given (v : option string) : option string :=
  match v with
  | Some s => if bool_decide (s = "") then None else Some s
  | None => None
  end.

(** [options.limit && options.limit > 0]: the limit, when it is a number
    greater than 0. *)
Definition positive_limit (lim : option number) : option Q :=
  match lim with
  | Some (Fin q) => if Qle_bool q 0 then None else Some q
  | _ => None
  end.

Record summary := mk_summary {
  income : Q;
  expenses : Q;
  netCashFlow : Q;
  savingsRate : Q
}.

Record category_expense := mk_category_expense {
  ce_category : string;
  ce_amount : Q;
  ce_percentage : Q
}.

Record patterns := mk_patterns {
  pt_summary : summary;
  categorizedExpenses : list category_expense;
  pt_insights : list string;
  timeframe_from : string;
  timeframe_to : string
}.

(** What [analyzeSpendingPatterns] resolves with; [NeverAnalysed] when the
    executor of the promise throws or waits for a promise that is never
    settled: the promise is then never settled. *)
Inductive analysed :=
| NoAccounts (error : string)
| Analysed (result : patterns)
| NeverAnalysed.

(** [expensesByCategory[category] += amount], on the entries of the object
    in the order in which their keys were added. *)
Fixpoint add_expense (category : string) (amount : Q) (entries : list (string * Q))
  : list (string * Q) :=
  match entries with
  | [] => [(category, (0 + amount)%Q)]
  | (c, a) :: entries' =>
      if bool_decide (c = category) then (c, (a + amount)%Q) :: entries'
      else (c, a) :: add_expense category amount entries'
  end.

(** [Array.prototype.sort] with the comparator [(a, b) => b.amount - a.amount]
    is stable: it yields the arrangement in descending order of the amounts
    in which entries of equal amounts keep their order.  That arrangement
    is built by insertion from the right. *)
Fixpoint insert_by_amount (x : category_expense) (l : list category_expense)
  : list category_expense :=
  match l with
  | [] => [x]
  | y :: l' =>
      if Qle_bool (ce_amount y) (ce_amount x) then x :: y :: l'
      else y :: insert_by_amount x l'
  end.

Definition sort_by_amount (l : list category_expense) : list category_expense :=
  fold_right insert_by_amount [] l.

Definition sumQ (l : list Q) : Q := fold_left Qplus l 0.

Section WithCalendar.

(** The time value of [new Date(s)]: [None] for an invalid date. *)
Variable parseDate : string -> option Z.

(** [new Date(a) >= new Date(b)]: false when one of the dates is invalid. *)
Definition date_ge (a b : string) : bool :=
  match parseDate a, parseDate b with
  | Some x, Some y => (y <=? x)%Z
  | _, _ => false
  end.

(** The rest of the timer callback of [fetchAccountTransactions], once
    [userAccounts] is an array. *)
Definition fetch_from (userAccounts : list account) (accountId : string) (opts : options)
  : fetched :=
  match List.find (fun acc => bool_decide (acc_id acc = accountId)) userAccounts with
  | None => NotFound "Account not found"
  | Some account =>
      let transactions := transactions account in
      let transactions :=
        match given (dateFrom opts) with
        | Some from => List.filter (fun tx => date_ge (tx_date tx) from) transactions
        | None => transactions
        end in
      let transactions :=
        match given (dateTo opts) with
        | Some to => List.filter (fun tx => date_ge to (tx_date tx)) transactions
        | None => transactions
        end in
      let transactions :=
        match given (type opts) with
        | Some t => List.filter (fun tx => bool_decide (tx_type tx = t)) transactions
        | None => transactions
        end in
      let transactions :=
        match positive_limit (limit opts) with
        | Some q => take (Z.to_nat (Qfloor q)) transactions
        | None => transactions
        end in
      Found accountId (provider account) (map list_transaction transactions)
  end.

(** The timer callback of [fetchAccountTransactions].  A function and the
    prototype object have no method [find]: for them [userAccounts.find]
    throws a TypeError. *)
Definition fetchAccountTransactions (userId accountId : string) (opts : options) : fetched :=
  match lookup_accounts userId with
  | AccountArray userAccounts => fetch_from userAccounts accountId opts
  | InheritedFunction _ | PrototypeObject => NeverFetched
  end.

(** The loop that collects the transactions of all accounts; [None] when it
    waits for a result that never comes. *)
Definition collect (userId : string) (opts : options) (userAccounts : list account)
  : option (list listed) :=
  fold_left
    (fun collected account =>
       match collected with
       | Some allTransactions =>
           match fetchAccountTransactions userId (acc_id account) opts with
           | Found _ _ transactions => Some (allTransactions ++ transactions)%list
           | NotFound _ => Some allTransactions
           | NeverFetched => None
           end
       | None => None
       end)
    userAccounts (Some []).

Definition is_debit (tx : listed) : bool := bool_decide (l_type tx = "debit").
Definition is_credit (tx : listed) : bool := bool_decide (l_type tx = "credit").

(** The analysis of [analyzeSpendingPatterns], once the transactions of all
    accounts are collected. *)
Definition analyse (allTransactions : list listed) (opts : options) : patterns :=
  let income := sumQ (map l_amount (List.filter is_credit allTransactions)) in
  let debits := List.filter is_debit allTransactions in
  let expenses := sumQ (map (fun tx => Qabs (l_amount tx)) debits) in
  let expensesByCategory :=
    fold_left
      (fun entries tx =>
         add_expense (categorizeTransaction (l_description tx)) (Qabs (l_amount tx)) entries)
      debits [] in
  let categorizedExpenses :=
    sort_by_amount
      (map (fun '(category, amount) =>
              {| ce_category := category;
                 ce_amount := amount;
                 ce_percentage := amount / expenses * 100 |})
           expensesByCategory) in
  let insights : list string := [] in
  let insights :=
    if negb (Qle_bool income 0) && negb (Qle_bool expenses 0) then
      let savingsRate := (income - expenses) / income * 100 in
      if negb (Qle_bool 10 savingsRate) then
        (insights ++
           ["Your savings rate is below 10%. Consider reducing expenses to increase savings."])%list
      else if negb (Qle_bool savingsRate 30) then
        (insights ++ ["Great job! Your savings rate is above 30%."])%list
      else insights
    else insights in
  let highSpendingCategories :=
    map ce_category
        (List.filter (fun cat => negb (Qle_bool (ce_percentage cat) 25)) categorizedExpenses) in
  let insights :=
    if (0 <? length highSpendingCategories)%nat then
      (insights ++
         ["You're spending a large portion of your budget on "
          +:+ String.concat ", " highSpendingCategories
          +:+ ". Consider ways to reduce these expenses."])%list
    else insights in
  let potentialRecurring :=
    List.filter
      (fun tx =>
         let description := BlockchainService.toLowerCase (l_description tx) in
         ContractService.includes description "subscription"
         || ContractService.includes description "bill"
         || ContractService.includes description "service")
      debits in
  let insights :=
    if (0 <? length potentialRecurring)%nat then
      let recurringTotal := sumQ (map (fun tx => Qabs (l_amount tx)) potentialRecurring) in
      (insights ++
         ["You have approximately $" +:+ MockBankingService.toFixed2 recurringTotal
          +:+ " in recurring expenses."])%list
    else insights in
  {| pt_summary :=
       {| income := income;
          expenses := expenses;
          netCashFlow := income - expenses;
          savingsRate :=
            if negb (Qle_bool income 0) then (income - expenses) / income * 100 else 0 |};
     categorizedExpenses := categorizedExpenses;
     pt_insights := insights;
     timeframe_from := AuthMiddleware.or_default (dateFrom opts) "All time";
     timeframe_to := AuthMiddleware.or_default (dateTo opts) "Present" |}.

(** The executor of the promise of [analyzeSpendingPatterns].  A function
    without parameters has the [length] 0 and gets the answer of a user
    without accounts; every other function and the prototype object are not
    iterable, and the loop over them throws a TypeError. *)
Definition analyzeSpendingPatterns (userId : string) (opts : options) : analysed :=
  match lookup_accounts userId with
  | AccountArray userAccounts =>
      if (length userAccounts =? 0)%nat then NoAccounts "No accounts found for this user"
      else
        match collect userId opts userAccounts with
        | Some allTransactions => Analysed (analyse allTransactions opts)
        | None => NeverAnalysed
        end
  | InheritedFunction 0 => NoAccounts "No accounts found for this user"
  | InheritedFunction _ | PrototypeObject => NeverAnalysed
  end.

End WithCalendar.

End BankingService.

(** ** Reference definitions and sample inputs *)

(** Statistics as the specification words them, for comparison with what
    [RiskService.calculateVolatilityMetrics] computes. *)
Module Statistics.

Local Open Scope R_scope.

(** The daily returns [r_i = (p_i - p_{i-1}) / p_{i-1}] of a price series. *)
Fixpoint daily_returns (prices : list R) : list R :=
  match prices with
  | [] => []
  | p0 :: rest =>
      match rest with
      | [] => []
      | p1 :: _ => (p1 - p0) / p0 :: daily_returns rest
      end
  end.

Fixpoint sum (xs : list R) : R :=
  match xs with
  | [] => 0
  | x :: xs' => x + sum xs'
  end.

Definition mean (xs : list R) : R := sum xs / INR (length xs).

(** The population variance: the mean of the squared deviations from the
    mean. *)
Definition population_variance (xs : list R) : R :=
  sum (map (fun x => (x - mean xs) ^ 2) xs) / INR (length xs).

Definition population_stddev (xs : list R) : R := sqrt (population_variance xs).

End Statistics.

(** ** Notions in which properties of portfolios are stated *)

Module Portfolio.

Import RiskService.

Local Open Scope R_scope.

(** The most recent recorded price of a token, looked up as the risk
    service does (by the symbol in upper case); 0 when the token has no
    recorded history. *)
Definition recorded_price (symbol : string) : R :=
  match tokenPriceHistory !! toUpperCase symbol with
  | Some priceData => from_option price 0 (last priceData)
  | None => 0
  end.

(** The value of a holding at the most recent recorded price. *)
Definition recorded_value (h : holding) : R := h_amount h * recorded_price (h_token h).

(** The part of a holding in the risk of a portfolio: the token, its daily
    volatility and the weight of the holding in the value of the
    portfolio. *)
Record part := mk_part {
  part_token : string;
  part_volatility : R;
  part_weight : R
}.


(** The entry of the code's list of volatilities that has the numbers of a
    part. *)
Definition entry (p : part) : token_volatility :=
  {| tv_token := part_token p;
     tv_volatility := part_volatility p;
     tv_weight := XFin (part_weight p) |}.


End Portfolio.

(** ** Notions in which properties of generated series are stated *)

Module Series.

Local Open Scope Q_scope.

(** Every number of the list is within 3.1 percent of the one before it,
    the first one of [prev]. *)
Fixpoint steps_within (prev : Q) (l : list Q) : Prop :=
  match l with
  | [] => True
  | x :: l' =>
      (969 # 1000) * prev <= x /\ x <= (1031 # 1000) * prev /\ steps_within x l'
  end.

End Series.

(** ** The share of blacklisted transactions, counted one by one *)

Module Share.

Import RiskService.

Local Open Scope R_scope.



End Share.


(** Concrete inputs on which the properties below are evaluated. *)
Module Sample.

Import JS Runtime.

Definition env_dev : AuthMiddleware.env :=
  {| AuthMiddleware.NODE_ENV := None; AuthMiddleware.JWT_SECRET := None |}.

Definition env_prod : AuthMiddleware.env :=
  {| AuthMiddleware.NODE_ENV := Some "production"; AuthMiddleware.JWT_SECRET := None |}.

(** A [jwt.verify] that rejects every token. *)
Definition jwt_reject (token secret : string) : string + option AuthMiddleware.user :=
  inl "jwt malformed".

(** A request without an [x-auth-token] header, and one with a token. *)
Definition anonymous : AuthMiddleware.request :=
  {| AuthMiddleware.headers := ∅; AuthMiddleware.req_user := None |}.

Definition with_token : AuthMiddleware.request :=
  {| AuthMiddleware.headers := {[ "x-auth-token" := "abc" ]}; AuthMiddleware.req_user := None |}.

Definition mongo_error : Server.js_error :=
  {| Server.err_name := "MongoError";
     Server.err_message := "connection refused";
     Server.err_stack := "MongoError: connection refused" |}.

(** A numeric-string parser that knows no numeric string. *)
Definition no_numeric_strings (s : string) : number := NaN.

(** A proof service that echoes its arguments. *)
Definition echo_equality (user : string) (v : number) : string + list number := inr [v].
Definition echo_range (user : string) (v lo hi : number) : string + list number :=
  inr [v; lo; hi].

Definition num (z : Z) : scalar := Num (Fin (inject_Z z)).

(** [{ statement: { type: 'range', value: 5, min: 0, max: 10 } }] *)
Definition range_from_zero : PrivacyController.request :=
  {| PrivacyController.req_body :=
       Some {[ "statement" :=
                 Object (<["type" := Str "range"]>
                         (<["value" := num 5]>
                          (<["min" := num 0]>
                           (<["max" := num 10]> ∅)))) ]};
     PrivacyController.req_user := Some AuthMiddleware.demo_user |}.

(** [{ statement: { type: 'range', value: 0, min: -5, max: 5 } }] *)
Definition range_value_zero : PrivacyController.request :=
  {| PrivacyController.req_body :=
       Some {[ "statement" :=
                 Object (<["type" := Str "range"]>
                         (<["value" := num 0]>
                          (<["min" := num (-5)]>
                           (<["max" := num 5]> ∅)))) ]};
     PrivacyController.req_user := Some AuthMiddleware.demo_user |}.

(** [{ statement: { type: 'range', value: 750, min: 700, max: 850 } }] *)
Definition range_example : PrivacyController.request :=
  {| PrivacyController.req_body :=
       Some {[ "statement" :=
                 Object (<["type" := Str "range"]>
                         (<["value" := num 750]>
                          (<["min" := num 700]>
                           (<["max" := num 850]> ∅)))) ]};
     PrivacyController.req_user := Some AuthMiddleware.demo_user |}.

(** A chain on which minting works: the receipt carries a [Transfer] event
    for token 42. *)
Definition live_chain : BlockchainService.chain :=
  {| BlockchainService.ethers_isAddress := Some (fun _ => Some true);
     BlockchainService.nftContract :=
       Some (fun to uri =>
               inr {| BlockchainService.events :=
                        Some [BlockchainService.mk_event "Transfer" (Some "42")];
                      BlockchainService.transactionHash := "0xfeedface";
                      BlockchainService.blockNumber := 7 |}) |}.

(** No ethers package and no contract. *)
Definition no_chain : BlockchainService.chain :=
  {| BlockchainService.ethers_isAddress := None; BlockchainService.nftContract := None |}.

Definition world0 : world := {| draws := 0; ticks := 0 |}.

(** Every random draw is one half; the clock starts at one million and
    advances by a millisecond at each reading. *)
Definition half (n : nat) : Q := 1 # 2.
Definition halfR (n : nat) : R := (/ 2)%R.
Definition clock0 (n : nat) : Z := 1000000 + Z.of_nat n.

(** A printer of numbers that prints integers only. *)
Definition show_number (x : number) : string :=
  match x with
  | NaN => "NaN"
  | Fin q => pretty (Qfloor q)
  end.

(** [{ type: 'creditScore', condition: 'gte', threshold: 700 }], proved for
    alice on an empty store. *)
Definition alice_statement : gmap string scalar :=
  <["type" := Str "creditScore"]>
  (<["condition" := Str "gte"]>
   (<["threshold" := num 700]> ∅)).

Definition empty_store : PrivacyService.state :=
  {| PrivacyService.mockProofs := ∅; PrivacyService.world_of := world0 |}.

Definition alice_generated : PrivacyService.generated * PrivacyService.state :=
  PrivacyService.generateZKProof half clock0 show_number "alice" alice_statement empty_store.

Definition alice_proof : PrivacyService.zkproof :=
  {| PrivacyService.id := "proof_1000000_5000";
     PrivacyService.userId := "alice";
     PrivacyService.statement := alice_statement;
     PrivacyService.proof := PrivacyService.mock_groth16;
     PrivacyService.publicSignals := ["700"; "0"; "0"];
     PrivacyService.verificationKey := PrivacyService.mock_vk;
     PrivacyService.createdAt := 1000001;
     PrivacyService.expiresAt := 2593000002 |}.

(** A price series of three points, and a portfolio of one bitcoin. *)
Definition three_prices : list RiskService.price_point :=
  [RiskService.mk_price "2025-04-01T00:00:00Z" 100;
   RiskService.mk_price "2025-04-02T00:00:00Z" 110;
   RiskService.mk_price "2025-04-03T00:00:00Z" 121].

(** A series whose two daily returns differ: ten and twenty percent. *)
Definition rising_prices : list RiskService.price_point :=
  [RiskService.mk_price "2025-04-01T00:00:00Z" 100;
   RiskService.mk_price "2025-04-02T00:00:00Z" 110;
   RiskService.mk_price "2025-04-03T00:00:00Z" 132].





(** Stand-ins for the runtime's printers and calendar. *)
Definition digits16 (r : Q) : string := "0.8".
Definition digits36 (r : Q) : string := "0.i".
Definition days_before (t k : Z) : string := pretty (t - k * 86400000)%Z.
Definition date_part (timestamp : string) : string := String.substring 0 10 timestamp.

(** A clock that stands still, and one that advances by three thousand
    million milliseconds (more than thirty days) at each reading. *)
Definition frozen_clock (n : nat) : Z := 1000000.
Definition monthly_clock (n : nat) : Z := Z.of_nat n * 3000000000.

(** [{ name: 'Alice', creditScore: 750, income: 75000 }], of which the
    credit score and the income are to be disclosed. *)
Definition alice_data : gmap string scalar :=
  <["name" := Str "Alice"]>
  (<["creditScore" := num 750]>
   (<["income" := num 75000]> ∅)).

Definition alice_fields : list string := ["creditScore"; "income"].

(** [{ address: '0xabc', score: 0 }] *)
Definition score_zero : gmap string value :=
  <["address" := Scalar (Str "0xabc")]> (<["score" := Scalar (num 0)]> ∅).

(** A portfolio of one bitcoin and two ether. *)
Definition two_tokens : list RiskService.holding :=
  [RiskService.mk_holding "btc" 1; RiskService.mk_holding "ETH" 2].

(** A network that is down, and a [parseInt] that reads the strings "5"
    and "7" only. *)
Definition offline (url : string) : option (list (Z * Q)) := None.

Definition parse_digit (s : string) : option Z :=
  if bool_decide (s = "5") then Some 5%Z
  else if bool_decide (s = "7") then Some 7%Z
  else None.


(** The first recorded account of the user user123, and options that ask
    for nothing. *)
Definition checking_account : BankingService.account :=
  BankingService.mk_account "acc_1001" "fynapse" "checking" "Primary Checking"
    (528042 # 100) "USD" "xxxx4567"
    [BankingService.mk_transaction "tx1001" "2025-05-01" "Salary Deposit" 3500 "credit";
     BankingService.mk_transaction "tx1002" "2025-05-02" "Grocery Store" (- (12530 # 100))
       "debit";
     BankingService.mk_transaction "tx1003" "2025-05-05" "Electric Bill" (- (8520 # 100))
       "debit";
     BankingService.mk_transaction "tx1004" "2025-05-10" "Restaurant" (- (6245 # 100)) "debit";
     BankingService.mk_transaction "tx1005" "2025-05-15" "Gas Station" (- 45) "debit"].

Definition all_transactions : BankingService.options :=
  {| BankingService.dateFrom := None;
     BankingService.dateTo := None;
     BankingService.type := None;
     BankingService.limit := None |}.

(** A calendar that knows no date. *)
Definition no_calendar (s : string) : option Z := None.

End Sample.

(** * Properties *)

(** ** Authentication *)

Section Authentication.

Import AuthMiddleware Server.

Lemma missing_spec (token : option string) :
  missing token = true <-> token = None \/ token = Some "".
Proof.
  destruct token as [s|]; simpl.
  - rewrite bool_decide_eq_true. split; [intros ->; by right | intros [?|[= ->]]; done].
  - split; [by left | done].
Qed.

(** C1, as stated, fails: [auth.middleware] answers a request that carries no
    [x-auth-token] header with HTTP 401 and does not call the route handler. *)
Lemma auth_middleware_rejects_missing_token :
  auth_middleware Sample.jwt_reject Sample.env_dev Sample.anonymous
  = (Reply 401 "No token, authorization denied", []).
Proof. reflexivity. Qed.

(** C1, amended: the demo bypass [auth] and the server's global bypass hand
    every request on with the demo user attached and never reject one.
    [auth.middleware] rejects a request with HTTP 401 "No token" exactly when
    the [x-auth-token] header is missing or empty; outside production it
    hands every other request on with the mock user [mock_user_id], without
    looking at the token; in production it hands the request on with the
    user of the verified token and rejects with HTTP 401 when verification
    throws. *)
Theorem auth_bypass_and_token_check :
  (forall req,
      auth req
      = (Next (set_user (Some demo_user) req),
         [Console.Log ["AUTH MIDDLEWARE: Token validation bypassed for hackathon demo"]]))
  /\ (forall logged req,
        exists logs, global_bypass logged req = (set_user (Some demo_user) req, true, logs))
  /\ (forall jwt e req,
        fst (auth_middleware jwt e req) = Reply 401 "No token, authorization denied"
        <-> headers req !! "x-auth-token" = None \/ headers req !! "x-auth-token" = Some "")
  /\ (forall jwt e req token,
        headers req !! "x-auth-token" = Some token -> token <> "" ->
        NODE_ENV e <> Some "production" ->
        fst (auth_middleware jwt e req) = Next (set_user (Some mock_user) req))
  /\ (forall jwt e req token,
        headers req !! "x-auth-token" = Some token -> token <> "" ->
        NODE_ENV e = Some "production" ->
        fst (auth_middleware jwt e req)
        = match jwt token (or_default (JWT_SECRET e) "default_secret_key") with
          | inr u => Next (set_user u req)
          | inl _ => Reply 401 "Token is not valid"
          end).
Proof.
  split; [reflexivity|].
  split; [intros logged req; eexists; reflexivity|].
  split.
  { intros jwt e req. rewrite <- missing_spec. unfold auth_middleware.
    destruct (missing (headers req !! "x-auth-token")) eqn:Hm; simpl.
    - done.
    - split; [|done]. intros H. exfalso.
      destruct (bool_decide (NODE_ENV e = Some "production")); simpl in H; [|done].
      destruct (jwt _ _); done. }
  split.
  - intros jwt e req token Htok Hne Henv. unfold auth_middleware.
    rewrite Htok. simpl. rewrite bool_decide_eq_false_2 by done.
    by rewrite bool_decide_eq_false_2.
  - intros jwt e req token Htok Hne Henv. unfold auth_middleware.
    rewrite Htok. simpl. rewrite bool_decide_eq_false_2 by done.
    rewrite bool_decide_eq_true_2 by done. simpl.
    by destruct (jwt _ _).
Qed.

End Authentication.

(** ** Error handling *)

Section ErrorHandling.

Import JS AuthMiddleware Server PrivacyController.

Variable StringToNumber : string -> number.
Variable proof : Type.
Variable generateEqualityProof : string -> number -> string + proof.
Variable generateRangeProof : string -> number -> number -> number -> string + proof.

Local Abbreviation try_ := (generateProof_try StringToNumber proof generateEqualityProof generateRangeProof).
Local Abbreviation handle := (generateProof StringToNumber proof generateEqualityProof generateRangeProof).

Lemma bad_request_status m r :
  bad_request proof m = inr r -> PrivacyController.status r = 400 /\ json r = Message m.
Proof. by intros [= <-]. Qed.

Lemma ok_status o r :
  ok proof o = inr r -> PrivacyController.status r = 200 /\ exists p, json r = Proof p.
Proof. destruct o as [msg|p]; simpl; [done|]. intros [= <-]. eauto. Qed.

(** What the [try] block answers when it does not throw: HTTP 400 with a
    message that says what is wrong with the statement, or HTTP 200 with the
    proof of the service. *)
Lemma generateProof_try_status req r :
  try_ req = inr r ->
  (PrivacyController.status r = 400
   /\ exists m, json r = Message m \/ json r = InvalidType m)
  \/ (PrivacyController.status r = 200 /\ exists p, json r = Proof p).
Proof.
  unfold generateProof_try.
  destruct (PrivacyController.req_body req) as [b|]; [|done].
  destruct (PrivacyController.req_user req) as [u|]; [|done].
  repeat match goal with
         | |- context [if ?c then _ else _] => destruct c
         end;
    intros H;
    first [ left; destruct (bad_request_status _ _ H) as [? ?]; by eauto
          | right; by eapply ok_status
          | left; inversion H; by eauto ].
Qed.

(** C2, as stated, fails: the error-handling middleware answers an error
    named [MongoError] with HTTP 200, not 500. *)
Lemma error_handler_answers_mongo_error_with_200 :
  Server.status (fst (error_handler Sample.env_dev Sample.mongo_error)) = 200.
Proof. reflexivity. Qed.

(** C2, amended: the error-handling middleware logs the stack of every error
    it is given and answers HTTP 500 with the message "Something went
    wrong!", except that an error named [MongoError] or [MongoNetworkError]
    is answered with HTTP 200.  When the handling of a generate-proof
    request throws, the controller logs the error's message and answers
    HTTP 500 with the message "Server error"; when it does not throw it
    answers HTTP 400 (a validation failure) or HTTP 200 with the proof. *)
Theorem error_paths :
  (forall e err,
      let '(res, logs) := error_handler e err in
      head logs = Some (Console.Error [err_stack err])
      /\ (if bool_decide (err_name err = "MongoError" \/ err_name err = "MongoNetworkError")
          then Server.status res = 200
          else Server.status res = 500
               /\ Server.body res !! 0%nat = Some ("message", "Something went wrong!")))
  /\ (forall req,
        match try_ req with
        | inl msg =>
            handle req
            = ({| PrivacyController.status := 500; json := ServerError "Server error" msg |},
               [Console.Error ["Error generating ZK-proof:"; msg]])
        | inr res =>
            handle req = (res, [])
            /\ ((PrivacyController.status res = 400
                 /\ exists m, json res = Message m \/ json res = InvalidType m)
                \/ (PrivacyController.status res = 200 /\ exists p, json res = Proof p))
        end).
Proof.
  split.
  - intros e err. unfold error_handler.
    destruct (decide (err_name err = "MongoError")) as [H1|H1];
      destruct (decide (err_name err = "MongoNetworkError")) as [H2|H2];
      rewrite ?(bool_decide_eq_true_2 _ H1), ?(bool_decide_eq_true_2 _ H2),
        ?(bool_decide_eq_false_2 _ H1), ?(bool_decide_eq_false_2 _ H2); simpl;
      (split; [done|]).
    all: try (rewrite bool_decide_eq_true_2 by tauto; done).
    rewrite bool_decide_eq_false_2 by tauto. done.
  - intros req. unfold generateProof.
    destruct (try_ req) as [msg|res] eqn:Htry; [done|].
    split; [done|]. by apply (generateProof_try_status req).
Qed.

(** C3 at the failing inputs: a range statement whose [min] is [0], and one
    whose [value] is [0], are answered with HTTP 400 although all three
    fields are numbers and [min < max]; neither reaches the proof service. *)
Theorem generateProof_rejects_zero :
  handle Sample.range_from_zero
  = ({| PrivacyController.status := 400;
        json := Message "Valid min and max values are required for range proof" |}, [])
  /\ handle Sample.range_value_zero
     = ({| PrivacyController.status := 400;
           json := Message "Valid numeric value is required for range proof" |}, []).
Proof. split; reflexivity. Qed.

(** The documented example [{ type: 'range', value: 750, min: 700, max: 850 }]
    is forwarded to the range-proof generator. *)
Lemma generateProof_forwards_example :
  try_ Sample.range_example
  = ok proof (generateRangeProof "demo_user_123"
                (Fin (inject_Z 750)) (Fin (inject_Z 700)) (Fin (inject_Z 850))).
Proof. reflexivity. Qed.

(** A range statement whose three fields are non-zero numbers with
    [min < max] is forwarded to the range-proof generator. *)
Lemma generateProof_forwards_nonzero_range (u : user) (fields : gmap string scalar) (v lo hi : Q) :
  fields !! "type" = Some (Str "range") ->
  fields !! "value" = Some (Num (Fin v)) ->
  fields !! "min" = Some (Num (Fin lo)) ->
  fields !! "max" = Some (Num (Fin hi)) ->
  ~ (v == 0)%Q -> ~ (lo == 0)%Q -> ~ (hi == 0)%Q -> (lo < hi)%Q ->
  try_ {| PrivacyController.req_body := Some {[ "statement" := Object fields ]};
          PrivacyController.req_user := Some u |}
  = ok proof (generateRangeProof (id u) (Fin v) (Fin lo) (Fin hi)).
Proof.
  intros Ht Hv Hlo Hhi Nv Nlo Nhi Hlt.
  assert (Hz : forall q, ~ (q == 0)%Q -> Qeq_bool q 0 = false).
  { intros q Hq. destruct (Qeq_bool q 0) eqn:E; [|done].
    by apply Qeq_bool_iff in E. }
  unfold generateProof_try. simpl. rewrite lookup_singleton_eq. simpl.
  unfold get. rewrite Ht, Hv, Hlo, Hhi. simpl.
  rewrite !Hz by done. simpl.
  destruct (Qle_bool hi lo) eqn:E; [|done].
  apply Qle_bool_iff in E. exfalso. by apply (Qlt_not_le lo hi).
Qed.

End ErrorHandling.

(** ** The in-memory proof store *)

Section ProofStore.

Import JS Runtime PrivacyService.

Variable rand : nat -> Q.
Variable clock : nat -> Z.
Variable NumberToString : number -> string.

Local Abbreviation generate := (generateZKProof rand clock NumberToString).
Local Abbreviation run_calls := (run rand clock NumberToString).
Local Abbreviation step_call := (step rand clock NumberToString).

(** [generateZKProof] stores a proof of the statement, owned by the caller,
    under the id it returns. *)
Lemma generateZKProof_stores user st s g s' :
  generate user st s = (g, s') ->
  g_success g = true
  /\ exists p,
      mockProofs s' !! g_proofId g = Some (ZKProof p)
      /\ PrivacyService.id p = g_proofId g
      /\ userId p = user
      /\ statement p = st
      /\ expiresAt p = g_expiresAt g.
Proof.
  unfold generateZKProof. intros [= <- <-]. simpl.
  split; [done|]. eexists. rewrite lookup_insert_eq. done.
Qed.

(** Verification of a stored entry that has not expired succeeds. *)
Lemma verifyZKProof_live pid e s :
  mockProofs s !! pid = Some e ->
  (clock (ticks (world_of s)) <= entry_expiresAt e)%Z ->
  let v := fst (verifyZKProof clock pid s) in
  v_success v = true /\ v_verified v = Some true
  /\ v_statement v = entry_statement e /\ v_expiresAt v = Some (entry_expiresAt e).
Proof.
  intros He Hlive. unfold verifyZKProof. rewrite He. simpl.
  destruct (Z.ltb_spec (entry_expiresAt e) (clock (ticks (world_of s)))); [lia|done].
Qed.

Lemma verifyZKProof_absent pid s :
  mockProofs s !! pid = None -> verifyZKProof clock pid s = (not_found, s).
Proof. intros H. unfold verifyZKProof. by rewrite H. Qed.

(** Verifying never changes the store. *)
Lemma verifyZKProof_store pid s :
  mockProofs (snd (verifyZKProof clock pid s)) = mockProofs s.
Proof.
  unfold verifyZKProof. destruct (mockProofs s !! pid); [|done]. simpl.
  by destruct (_ <? _)%Z.
Qed.

(** Revoking never adds an entry. *)
Lemma revokeZKProof_absent user pid pid' s :
  mockProofs s !! pid' = None ->
  mockProofs (snd (revokeZKProof user pid s)) !! pid' = None.
Proof.
  intros H. unfold revokeZKProof. destruct (mockProofs s !! pid); [|done].
  destruct (negb _); [done|]. simpl.
  destruct (decide (pid = pid')) as [->|Hne].
  - apply lookup_delete_eq.
  - by rewrite lookup_delete_ne.
Qed.

Lemma run_absent cs : forall s pid,
  forallb stores_nothing cs = true ->
  mockProofs s !! pid = None ->
  mockProofs (run_calls cs s) !! pid = None.
Proof.
  induction cs as [|c cs IH]; intros s pid Hcs Hs; [done|].
  simpl in Hcs. apply andb_true_iff in Hcs as [Hc Hcs].
  simpl. apply IH; [done|].
  destruct c; try discriminate; simpl.
  - by rewrite verifyZKProof_store.
  - by apply revokeZKProof_absent.
Qed.

(** C6: [generateZKProof] resolves with [success: true] and stores the
    fabricated proof under the [proofId] it returns; a later
    [verifyZKProof] of that id, run on that store at a time not after the
    proof's [expiresAt], resolves with [success: true], [verified: true] and
    the statement that was proved. *)
Theorem generate_then_verify user st s g s' w :
  generate user st s = (g, s') ->
  (clock (ticks w) <= g_expiresAt g)%Z ->
  g_success g = true
  /\ (exists p, mockProofs s' !! g_proofId g = Some (ZKProof p)
                /\ userId p = user /\ statement p = st)
  /\ let v := fst (verifyZKProof clock (g_proofId g)
                     {| mockProofs := mockProofs s'; world_of := w |}) in
     v_success v = true /\ v_verified v = Some true /\ v_statement v = Some st.
Proof.
  intros Hgen Hlive.
  destruct (generateZKProof_stores _ _ _ _ _ Hgen) as (Hok & p & Hp & _ & Hu & Hst & Hexp).
  split; [done|]. split; [by exists p|].
  pose proof (verifyZKProof_live (g_proofId g) (ZKProof p)
                {| mockProofs := mockProofs s'; world_of := w |} Hp) as Hv.
  simpl in Hv. rewrite Hexp, Hst in Hv. specialize (Hv Hlive). tauto.
Qed.

(** A call adds an entry under the id it stores one under, and under no
    other. *)
Lemma step_absent c s pid :
  stored_id rand clock NumberToString c s <> Some pid ->
  mockProofs s !! pid = None ->
  mockProofs (step_call c s) !! pid = None.
Proof.
  intros Hid Hs. destruct c as [u st|p|u p|u d f]; cbn [step stored_id] in *.
  - unfold generateZKProof, Date_now, Math_random in *.
    cbn [fst snd g_proofId mockProofs] in *.
    rewrite lookup_insert_ne; [done|]. intros Heq. apply Hid. by rewrite Heq.
  - by rewrite verifyZKProof_store.
  - by apply revokeZKProof_absent.
  - unfold generateSelectiveDisclosure, Date_now, Math_random in *.
    cbn [fst snd s_disclosureId mockProofs] in *.
    rewrite lookup_insert_ne; [done|]. intros Heq. apply Hid. by rewrite Heq.
Qed.

Lemma run_absent_unless_stored cs : forall s pid,
  pid ∉ stored_ids rand clock NumberToString cs s ->
  mockProofs s !! pid = None ->
  mockProofs (run_calls cs s) !! pid = None.
Proof.
  induction cs as [|c cs IH]; intros s pid Hids Hs; [done|].
  cbn [stored_ids] in Hids. rewrite elem_of_app in Hids.
  change (run_calls (c :: cs) s) with (run_calls cs (step_call c s)).
  apply IH; [tauto|]. apply step_absent; [|done].
  intros Hstored. apply Hids. left. rewrite Hstored. apply list_elem_of_here.
Qed.

(** After its owner has revoked a proof, a [generateZKProof] that reads the
    same time and draws the same number as the one that made the proof
    stores its proof under the revoked id, and verifying that id succeeds
    again. *)
Lemma revoked_id_comes_back user1 st1 user2 st2 s w w2 :
  let g1 := fst (generate user1 st1 s) in
  let revoked := revokeZKProof user1 (g_proofId g1) (snd (generate user1 st1 s)) in
  let later := {| mockProofs := mockProofs (snd revoked); world_of := w |} in
  let g2 := fst (generate user2 st2 later) in
  let s2 := snd (generate user2 st2 later) in
  clock (ticks w) = clock (ticks (world_of s)) ->
  Qfloor (rand (draws w) * 10000) = Qfloor (rand (draws (world_of s)) * 10000) ->
  (clock (ticks w2) <= g_expiresAt g2)%Z ->
  r_success (fst revoked) = true
  /\ mockProofs (snd revoked) !! g_proofId g1 = None
  /\ g_proofId g2 = g_proofId g1
  /\ v_success (fst (verifyZKProof clock (g_proofId g1)
                       {| mockProofs := mockProofs s2; world_of := w2 |})) = true.
Proof.
  intros g1 revoked later g2 s2 Htime Hdraw Hlive.
  assert (Hid : g_proofId g2 = g_proofId g1).
  { subst g1 revoked later g2 s2. unfold generateZKProof, Date_now, Math_random.
    cbn [fst snd g_proofId world_of draws ticks]. by rewrite Htime, Hdraw. }
  destruct (generate user1 st1 s) as [g s1] eqn:Hgen1. cbn [fst snd] in *.
  destruct (generateZKProof_stores _ _ _ _ _ Hgen1) as (_ & p & Hp & _ & Hu & _).
  assert (Hrevoked : revoked
                     = ({| r_success := true; r_error := None;
                           r_message := Some "Proof revoked successfully" |},
                        {| mockProofs := delete (g_proofId g1) (mockProofs s1);
                           world_of := world_of s1 |})).
  { subst revoked g1. unfold revokeZKProof. rewrite Hp. cbn [entry_userId].
    by rewrite bool_decide_eq_true_2. }
  split; [by rewrite Hrevoked|]. split; [rewrite Hrevoked; apply lookup_delete_eq|].
  split; [exact Hid|].
  destruct (generate user2 st2 later) as [g' s'] eqn:Hgen2. subst g2 s2. cbn [fst snd] in *.
  destruct (generateZKProof_stores _ _ _ _ _ Hgen2) as (_ & q & Hq & _ & _ & _ & Hexp).
  rewrite Hid in Hq.
  pose proof (verifyZKProof_live (g_proofId g1) (ZKProof q)
                {| mockProofs := mockProofs s'; world_of := w2 |} Hq) as Hv.
  cbn [world_of entry_expiresAt] in Hv. rewrite Hexp in Hv.
  by destruct (Hv Hlive) as (Hok & _).
Qed.

(** C9, amended: a revocation asked by someone other than the owner of a
    stored proof resolves with [success: false] and leaves the state as it
    was, so that verifying the proof gives what it gave before (success, if
    the proof has not expired); a revocation asked by the owner removes the
    proof, and from then on every [verifyZKProof] of that id resolves with
    [success: false] and the error "Proof not found", whatever calls are
    run in between, as long as none of them stores an entry under that id
    again. *)
Theorem revoke_owner_only user pid e s :
  mockProofs s !! pid = Some e ->
  (entry_userId e <> user ->
     revokeZKProof user pid s
     = ({| r_success := false;
           r_error := Some "Unauthorized: You do not own this proof";
           r_message := None |}, s)
     /\ verifyZKProof clock pid (snd (revokeZKProof user pid s)) = verifyZKProof clock pid s
     /\ ((clock (ticks (world_of s)) <= entry_expiresAt e)%Z ->
         v_success (fst (verifyZKProof clock pid (snd (revokeZKProof user pid s)))) = true))
  /\ (entry_userId e = user ->
      exists s',
        revokeZKProof user pid s
        = ({| r_success := true; r_error := None;
              r_message := Some "Proof revoked successfully" |}, s')
        /\ mockProofs s' = delete pid (mockProofs s)
        /\ forall cs, pid ∉ stored_ids rand clock NumberToString cs s' ->
                      fst (verifyZKProof clock pid (run_calls cs s')) = not_found).
Proof.
  intros He. split.
  - intros Hne.
    assert (Hr : revokeZKProof user pid s
                 = ({| r_success := false;
                       r_error := Some "Unauthorized: You do not own this proof";
                       r_message := None |}, s)).
    { unfold revokeZKProof. rewrite He. by rewrite bool_decide_eq_false_2. }
    rewrite Hr. simpl. split; [done|]. split; [done|].
    intros Hlive. by apply (verifyZKProof_live pid e s He Hlive).
  - intros Hown. eexists. split; [|split].
    + unfold revokeZKProof. rewrite He. rewrite bool_decide_eq_true_2 by done. reflexivity.
    + done.
    + intros cs Hcs. rewrite verifyZKProof_absent; [done|].
      apply run_absent_unless_stored; [done|]. simpl. apply lookup_delete_eq.
Qed.

End ProofStore.

(** C9, as stated, fails: ids are made of the time and a random number
    below ten thousand.  After alice has revoked her proof, bob generates
    one at the same reading of the clock and with the same draw: it is
    stored under the id of alice's proof, and verifying that id succeeds
    again. *)
Lemma revoked_id_is_stored_again :
  let generate :=
    PrivacyService.generateZKProof Sample.half Sample.frozen_clock Sample.show_number in
  let first := generate "alice" Sample.alice_statement Sample.empty_store in
  let pid := PrivacyService.g_proofId (fst first) in
  let revoked := PrivacyService.revokeZKProof "alice" pid (snd first) in
  let second :=
    generate "bob" Sample.alice_statement
      {| PrivacyService.mockProofs := PrivacyService.mockProofs (snd revoked);
         PrivacyService.world_of := {| Runtime.draws := 7; Runtime.ticks := 9 |} |} in
  PrivacyService.r_success (fst revoked) = true
  /\ PrivacyService.mockProofs (snd revoked) !! pid = None
  /\ PrivacyService.v_success
       (fst (PrivacyService.verifyZKProof Sample.frozen_clock pid
               {| PrivacyService.mockProofs := PrivacyService.mockProofs (snd second);
                  PrivacyService.world_of :=
                    {| Runtime.draws := 8; Runtime.ticks := 12 |} |})) = true.
Proof.
  intros generate first pid revoked second.
  destruct (revoked_id_comes_back Sample.half Sample.frozen_clock Sample.show_number
              "alice" Sample.alice_statement "bob" Sample.alice_statement
              Sample.empty_store {| Runtime.draws := 7; Runtime.ticks := 9 |}
              {| Runtime.draws := 8; Runtime.ticks := 12 |})
    as (Hok & Hgone & _ & Hverified); [reflexivity|reflexivity| |].
  - unfold PrivacyService.generateZKProof, Runtime.Date_now, Runtime.Math_random.
    cbn [fst snd PrivacyService.g_expiresAt PrivacyService.expiresAt
         PrivacyService.world_of Runtime.ticks].
    unfold Sample.frozen_clock. lia.
  - split; [exact Hok|]. split; [exact Hgone|exact Hverified].
Qed.

(** ** Mock banking: the transaction list *)

Section Banking.

Import JS Runtime MockBankingService.

Variable rand : nat -> Q.
Variable clock : nat -> Z.
Variable toString36 : Q -> string.
Variable isoDaysBefore : Z -> Z -> string.

Local Abbreviation transactions_of := (getAccountTransactions rand clock toString36 isoDaysBefore).
Local Abbreviation the_loop := (generate_loop rand clock toString36 isoDaysBefore).
Local Abbreviation one_transaction := (generate rand clock toString36 isoDaysBefore).

Local Arguments generate : simpl never.





End Banking.

(** ** NFT minting *)

Section Minting.

Import JS Runtime.

Local Open Scope Q_scope.

(** [Math.floor(Math.random() * k)] is one of [0, .., k - 1]. *)
Lemma floor_scaled (r : Q) (k : Z) :
  0 <= r < 1 -> (0 < k)%Z -> (0 <= Qfloor (r * inject_Z k) < k)%Z.
Proof.
  intros [H0 H1] Hk.
  assert (Hk' : 0 < inject_Z k) by (by rewrite (Zlt_Qlt 0 k) in Hk).
  split.
  - change 0%Z with (Qfloor 0). apply Qfloor_resp_le.
    apply Qmult_le_0_compat; [done|]. by apply Qlt_le_weak.
  - rewrite Zlt_Qlt. eapply Qle_lt_trans; [apply Qfloor_le|].
    pose proof (Qmult_lt_compat_r _ _ _ Hk' H1) as H.
    by rewrite Qmult_1_l in H.
Qed.

Lemma hex_digit (d : Z) : (0 <= d < 16)%Z -> BlockchainService.hex d ∈ BlockchainService.hex_alphabet.
Proof.
  intros H. replace d with (Z.of_nat (Z.to_nat d)) by lia.
  assert (Hn : (Z.to_nat d < 16)%nat) by lia.
  revert Hn. generalize (Z.to_nat d). intros n Hn.
  do 16 (destruct n as [|n]; [vm_compute; repeat constructor|]).
  lia.
Qed.

Variable rand : nat -> Q.
Variable clock : nat -> Z.
Hypothesis rand_unit : forall n, 0 <= rand n < 1.

Lemma hex_digits_spec n : forall w,
  let ds := fst (BlockchainService.hex_digits rand n w) in
  length ds = n /\ Forall (fun d => d ∈ BlockchainService.hex_alphabet) ds.
Proof.
  induction n as [|n IH]; intros w; simpl; [by split|].
  specialize (IH {| draws := S (draws w); ticks := ticks w |}).
  destruct (BlockchainService.hex_digits rand n _) as [ds w'].
  simpl in *. destruct IH as [Hlen Hall]. split; [by rewrite Hlen|].
  constructor; [|done]. apply hex_digit. by apply (floor_scaled _ 16).
Qed.

(** When no contract is initialised, or when [mint] or [tx.wait()] throws
    whatever the token URI, the [try] block throws. *)
Lemma mint_try_unavailable c addr sc ad w :
  BlockchainService.nftContract c = None
  \/ (exists contract, BlockchainService.nftContract c = Some contract
                       /\ forall uri, exists msg, contract addr uri = inl msg) ->
  exists msg logs w',
    BlockchainService.mint_try rand clock c addr sc ad w = (inl msg, logs, w').
Proof.
  unfold BlockchainService.mint_try.
  intros [->|(contract & -> & Hthrows)]; [by eauto|].
  destruct (negb _); [by eauto|].
  destruct (BlockchainService.createCreditScoreMetadata _ _ _ _ _ _) as [[[msg|uri] logs] w'];
    [by eauto|].
  destruct (Hthrows uri) as [msg ->]. by eauto.
Qed.

(** When the [try] block returns, the contract has answered with a receipt,
    and the result carries the token id of the receipt's [Transfer] event
    and the receipt's transaction hash; it is not marked simulated. *)
Lemma mint_try_real c addr sc ad w real logs w' :
  BlockchainService.mint_try rand clock c addr sc ad w = (inr real, logs, w') ->
  BlockchainService.success real = true
  /\ BlockchainService.simulated real = false
  /\ exists contract uri rc evs ev,
      BlockchainService.nftContract c = Some contract
      /\ contract addr uri = inr rc
      /\ BlockchainService.events rc = Some evs
      /\ List.find (fun e => bool_decide (BlockchainService.event_name e = "Transfer")) evs
         = Some ev
      /\ BlockchainService.args_tokenId ev = Some (BlockchainService.tokenId real)
      /\ BlockchainService.txHash real = BlockchainService.transactionHash rc.
Proof.
  unfold BlockchainService.mint_try.
  destruct (BlockchainService.nftContract c) as [contract|]; [|done].
  destruct (negb _); [done|].
  destruct (BlockchainService.createCreditScoreMetadata _ _ _ _ _ _) as [[[msg|uri] logs'] w1];
    [done|].
  destruct (contract addr uri) as [msg|rc] eqn:Hrc; [done|].
  destruct (BlockchainService.events rc) as [evs|] eqn:Hevs; [|done].
  destruct (List.find _ evs) as [ev|] eqn:Hfind; [|done].
  destruct (BlockchainService.args_tokenId ev) as [tid|] eqn:Htid; [|done].
  intros [= <- <- <-]. simpl. split; [done|]. split; [done|].
  by exists contract, uri, rc, evs, ev.
Qed.

(** When the contract answers with a receipt whose first [Transfer] event
    has a token id, the [try] block returns the token id of that event and
    the transaction hash of the receipt. *)
Lemma mint_try_live c contract addr sc data w uri logs w1 rc evs ev tid :
  BlockchainService.nftContract c = Some contract ->
  BlockchainService.isValidAddress c addr = true ->
  BlockchainService.createCreditScoreMetadata rand clock addr sc (Some data) w
  = (inr uri, logs, w1) ->
  contract addr uri = inr rc ->
  BlockchainService.events rc = Some evs ->
  List.find (fun e => bool_decide (BlockchainService.event_name e = "Transfer")) evs
  = Some ev ->
  BlockchainService.args_tokenId ev = Some tid ->
  BlockchainService.mint_try rand clock c addr sc (Some data) w
  = (inr {| BlockchainService.success := true;
            BlockchainService.simulated := false;
            BlockchainService.tokenId := tid;
            BlockchainService.tokenUri := uri;
            BlockchainService.txHash := BlockchainService.transactionHash rc;
            BlockchainService.m_blockNumber := BlockchainService.blockNumber rc;
            BlockchainService.walletAddress := addr;
            BlockchainService.creditScore := sc |}, logs, w1).
Proof.
  intros Hc Hvalid Hmeta Hrc Hevs Hfind Htid. unfold BlockchainService.mint_try.
  rewrite Hc, Hvalid. cbn [negb]. rewrite Hmeta, Hrc, Hevs, Hfind, Htid. reflexivity.
Qed.

(** C7, as stated, fails: on a chain where minting works the blockchain
    service resolves with the token id and the transaction hash of the
    receipt; nothing in the result is fabricated. *)
Lemma mint_on_live_chain_is_not_simulated :
  let m := fst (fst (BlockchainService.mintCreditScoreNFT Sample.half Sample.clock0
                       Sample.live_chain "0xabc" (Fin 700) (Some []) Sample.world0)) in
  BlockchainService.simulated m = false
  /\ BlockchainService.tokenId m = "42"
  /\ BlockchainService.txHash m = "0xfeedface".
Proof. by vm_compute. Qed.

(** C7, amended: both minting operations always resolve with
    [success: true].  The contract service always fabricates its result: the
    token id is a random integer below one million and the transaction
    hash is ["0x"] followed by digits of a random number.  The blockchain
    service fabricates its result whenever the [try] block throws, which it
    does when no contract is initialised and when minting throws: the
    result is then marked [simulated], its token id is the time and its
    transaction hash is ["0x"] followed by 64 random hex digits, and the
    error is logged.  When the [try] block returns, the result is not
    marked simulated and carries the token id of the first [Transfer] event
    of the receipt and the transaction hash of the receipt; it returns
    whenever the address is valid, the metadata are created and the
    contract answers with a receipt whose first [Transfer] event has a token
    id. *)
Theorem mint_always_succeeds :
  (forall NumberToString toString16 addr sc w,
      let m := fst (ContractService.mintCreditScoreNFT rand clock NumberToString toString16
                      addr sc w) in
      ContractService.success m = true
      /\ ContractService.tokenId m = Qfloor (rand (draws w) * 1000000)
      /\ (0 <= ContractService.tokenId m < 1000000)%Z
      /\ ContractService.txHash m
         = "0x" +:+ String.substring 2 64 (toString16 (rand (S (draws w)))))
  /\ (forall c addr sc ad w,
        let '(m, logs, _) := BlockchainService.mintCreditScoreNFT rand clock c addr sc ad w in
        BlockchainService.success m = true
        /\ match BlockchainService.mint_try rand clock c addr sc ad w with
           | (inr real, _, _) =>
               m = real
               /\ BlockchainService.simulated m = false
               /\ exists contract uri rc evs ev,
                   BlockchainService.nftContract c = Some contract
                   /\ contract addr uri = inr rc
                   /\ BlockchainService.events rc = Some evs
                   /\ List.find
                        (fun e => bool_decide (BlockchainService.event_name e = "Transfer"))
                        evs
                      = Some ev
                   /\ BlockchainService.args_tokenId ev = Some (BlockchainService.tokenId m)
                   /\ BlockchainService.txHash m = BlockchainService.transactionHash rc
           | (inl msg, _, w1) =>
               BlockchainService.simulated m = true
               /\ last logs = Some (Console.Error ["Error minting credit score NFT:"; msg])
               /\ BlockchainService.tokenId m = pretty (clock (ticks w1))
               /\ exists ds, BlockchainService.txHash m = "0x" +:+ String.concat "" ds
                             /\ length ds = 64%nat
                             /\ Forall (fun d => d ∈ BlockchainService.hex_alphabet) ds
           end)
  /\ (forall c addr sc ad w,
        BlockchainService.nftContract c = None
        \/ (exists contract, BlockchainService.nftContract c = Some contract
                             /\ forall uri, exists msg, contract addr uri = inl msg) ->
        BlockchainService.simulated
          (fst (fst (BlockchainService.mintCreditScoreNFT rand clock c addr sc ad w))) = true)
  /\ (forall c contract addr sc data w uri logs w1 rc evs ev tid,
        BlockchainService.nftContract c = Some contract ->
        BlockchainService.isValidAddress c addr = true ->
        BlockchainService.createCreditScoreMetadata rand clock addr sc (Some data) w
        = (inr uri, logs, w1) ->
        contract addr uri = inr rc ->
        BlockchainService.events rc = Some evs ->
        List.find (fun e => bool_decide (BlockchainService.event_name e = "Transfer")) evs
        = Some ev ->
        BlockchainService.args_tokenId ev = Some tid ->
        let m := fst (fst (BlockchainService.mintCreditScoreNFT rand clock c addr sc
                             (Some data) w)) in
        BlockchainService.success m = true
        /\ BlockchainService.simulated m = false
        /\ BlockchainService.tokenId m = tid
        /\ BlockchainService.txHash m = BlockchainService.transactionHash rc).
Proof.
  split; [|split; [|split]].
  - intros NumberToString toString16 addr sc w. simpl.
    split; [done|]. split; [done|]. split; [|done].
    by apply (floor_scaled _ 1000000).
  - intros c addr sc ad w. unfold BlockchainService.mintCreditScoreNFT.
    destruct (BlockchainService.mint_try rand clock c addr sc ad w)
      as [[[msg|real] logs] w1] eqn:Htry.
    + unfold BlockchainService.mint_fallback, Date_now. cbv beta iota zeta.
      pose proof (hex_digits_spec 64 {| draws := draws w1; ticks := S (S (ticks w1)) |}) as Hds.
      cbv beta iota zeta in Hds.
      destruct (BlockchainService.hex_digits rand 64 _) as [ds w2].
      cbn [fst snd BlockchainService.success BlockchainService.simulated
           BlockchainService.tokenId BlockchainService.txHash] in *.
      split; [done|]. split; [done|]. split; [by rewrite last_snoc|]. split; [done|].
      exists ds. tauto.
    + destruct (mint_try_real _ _ _ _ _ _ _ _ Htry)
        as (Hok & Hreal & contract & uri & rc & evs & ev & Hc & Hrc & Hevs & Hfind & Htid
            & Hhash).
      split; [done|]. split; [done|]. split; [done|].
      by exists contract, uri, rc, evs, ev.
  - intros c addr sc ad w Hdown.
    destruct (mint_try_unavailable c addr sc ad w Hdown) as (msg & logs & w' & Htry).
    unfold BlockchainService.mintCreditScoreNFT. rewrite Htry.
    unfold BlockchainService.mint_fallback, Date_now. cbv beta iota zeta.
    by destruct (BlockchainService.hex_digits rand 64 _).
  - intros c contract addr sc data w uri logs w1 rc evs ev tid
      Hc Hvalid Hmeta Hrc Hevs Hfind Htid m.
    subst m. unfold BlockchainService.mintCreditScoreNFT.
    rewrite (mint_try_live c contract addr sc data w uri logs w1 rc evs ev tid
               Hc Hvalid Hmeta Hrc Hevs Hfind Htid).
    done.
Qed.

End Minting.

(** ** Wallet risk analysis *)

Section WalletRisk.

Import JS Runtime Effect RiskService.

Local Open Scope R_scope.

(** [Math.round] of a number between two integers lies between them. *)
Lemma Math_round_between (x : R) (a b : Z) :
  IZR a <= x < IZR b -> (a <= Math_round x <= b)%Z.
Proof.
  intros [Ha Hb]. unfold Math_round.
  destruct (base_Int_part (x + / 2)) as [Hle Hgt].
  split.
  - assert (H : IZR (a - 1) < IZR (Int_part (x + / 2))) by (rewrite minus_IZR; lra).
    apply lt_IZR in H. lia.
  - assert (H : IZR (Int_part (x + / 2)) < IZR (b + 1)) by (rewrite plus_IZR; lra).
    apply lt_IZR in H. lia.
Qed.

(** [Math.floor(r * 3)] is an index into the three additional factors. *)
Lemma additional_factor_defined (r : R) :
  0 <= r < 1 ->
  exists f, at_index additionalFactors (Math_floor (r * INR (length additionalFactors)))
            = Some f.
Proof.
  intros [H0 H1]. unfold Math_floor. simpl INR.
  destruct (base_Int_part (r * (1 + 1 + 1))) as [Hle Hgt].
  set (i := Int_part (r * (1 + 1 + 1))) in *.
  assert (Hlo : (-1 < i)%Z) by (apply lt_IZR; lra).
  assert (Hhi : (i < 3)%Z) by (apply lt_IZR; lra).
  unfold at_index. destruct (Z.ltb_spec i 0); [lia|].
  assert (Hi : i = 0%Z \/ i = 1%Z \/ i = 2%Z) by lia.
  destruct Hi as [-> | [-> | ->] ]; simpl; eauto.
Qed.

Variable rand : nat -> R.
Variable clock : nat -> Z.
Hypothesis rand_unit : forall n, 0 <= rand n < 1.

Lemma low_risk_known : mockTransactions !! low_risk_wallet = Some low_risk_transactions.
Proof.
  unfold mockTransactions.
  rewrite lookup_insert_ne by done. rewrite lookup_insert_ne by done.
  apply lookup_insert_eq.
Qed.

Lemma medium_risk_known : mockTransactions !! medium_risk_wallet = Some medium_risk_transactions.
Proof.
  unfold mockTransactions. rewrite lookup_insert_ne by done. apply lookup_insert_eq.
Qed.

Lemma high_risk_known : mockTransactions !! high_risk_wallet = Some high_risk_transactions.
Proof. unfold mockTransactions. apply lookup_insert_eq. Qed.



(** The transactions analysed are those recorded for the address or, for
    an unknown address, those of one of the three mock wallets, which the
    first random draw picks. *)
Lemma pick_transactions_spec addr w :
  inherited addr = false ->
  exists txs w',
    pick_transactions rand addr w = (Some txs, w')
    /\ (mockTransactions !! addr = Some txs
        \/ (mockTransactions !! addr = None
            /\ txs = if Rltb (rand (draws w)) 0.3 then low_risk_transactions
                     else if Rltb (rand (draws w)) 0.7 then medium_risk_transactions
                     else high_risk_transactions)).
Proof.
  intros Hown. unfold pick_transactions.
  destruct (mockTransactions !! addr) as [txs|] eqn:Hlook.
  - exists txs, w. split; [done|by left].
  - rewrite Hown. unfold mbind, M_bind, bind, random, perform. simpl.
    destruct (Rltb (rand (draws w)) 0.3); [|destruct (Rltb (rand (draws w)) 0.7)];
      unfold defined;
      rewrite ?low_risk_known, ?medium_risk_known, ?high_risk_known;
      do 2 eexists; (split; [reflexivity|right; split; done]).
Qed.


(** The level follows from the share, and the score before rounding lies
    in the level's band. *)
Lemma level_and_score_spec share w :
  exists level score w',
    level_and_score rand share w = (Some (level, score), w')
    /\ ((50 <= share /\ level = "High" /\ 80 <= score < 100)
        \/ (20 <= share < 50 /\ level = "Medium" /\ 50 <= score < 80)
        \/ (share < 20 /\ level = "Low" /\ 20 <= score < 50)).
Proof.
  unfold level_and_score, Rleb.
  pose proof (rand_unit (draws w)) as Hr.
  destruct (Rle_dec 50 share); [|destruct (Rle_dec 20 share)];
    unfold mbind, M_bind, bind, random, perform; simpl;
    do 3 eexists; (split; [reflexivity|]).
  - left. repeat split; [done|lra..].
  - right; left. repeat split; [done|lra..].
  - right; right. repeat split; [lra|lra..].
Qed.

Lemma pad_factors_defined found w :
  exists factors w', pad_factors rand found w = (Some factors, w').
Proof.
  unfold pad_factors. destruct (length found <? 2)%nat; [|by do 2 eexists].
  unfold mbind, M_bind, bind, random, perform, defined. simpl.
  destruct (additional_factor_defined (rand (draws w)) (rand_unit _)) as [f Hf].
  simpl in Hf. rewrite Hf.
  destruct (negb _); by do 2 eexists.
Qed.



(** The analysis of an address that has recorded transactions. *)
Lemma analyzeWalletRisk_known addr txs w :
  mockTransactions !! addr = Some txs ->
  exists a w',
    analyzeWalletRisk rand clock addr w = (Some a, w')
    /\ total a = length txs
    /\ suspicious a = blacklisted txs
    /\ let share := INR (blacklisted txs) / INR (length txs) * 100 in
       (50 <= share /\ riskLevel a = "High")
       \/ (20 <= share < 50 /\ riskLevel a = "Medium")
       \/ (share < 20 /\ riskLevel a = "Low").
Proof.
  intros Hknown.
  destruct (level_and_score_spec (INR (blacklisted txs) / INR (length txs) * 100) w)
    as (level & score & w2 & Hscore & Hband).
  destruct (pad_factors_defined (found_factors txs (blacklisted txs)) w2)
    as (factors & w3 & Hpad).
  do 2 eexists. split.
  { unfold analyzeWalletRisk, mbind, M_bind, bind, pick_transactions.
    rewrite Hknown. unfold ret at 1. cbv beta iota.
    rewrite Hscore, Hpad. unfold now, perform. simpl. reflexivity. }
  simpl. split; [done|]. split; [done|]. tauto.
Qed.

(** The three mock wallets get the levels their comments announce: four of
    four, one of three and none of three transactions are blacklisted. *)
Lemma mock_wallet_levels w :
  (exists a w', analyzeWalletRisk rand clock high_risk_wallet w = (Some a, w')
                /\ suspicious a = 4%nat /\ total a = 4%nat /\ riskLevel a = "High")
  /\ (exists a w', analyzeWalletRisk rand clock medium_risk_wallet w = (Some a, w')
                   /\ suspicious a = 1%nat /\ total a = 3%nat /\ riskLevel a = "Medium")
  /\ (exists a w', analyzeWalletRisk rand clock low_risk_wallet w = (Some a, w')
                   /\ suspicious a = 0%nat /\ total a = 3%nat /\ riskLevel a = "Low").
Proof.
  split; [|split].
  - destruct (analyzeWalletRisk_known _ _ w high_risk_known) as (a & w' & Ha & Ht & Hs & Hl).
    exists a, w'. repeat split; try done.
    change (blacklisted high_risk_transactions) with 4%nat in Hl.
    simpl in Hl. destruct Hl as [[_ ?]|[[? _]|[? _]]]; [done|lra..].
  - destruct (analyzeWalletRisk_known _ _ w medium_risk_known) as (a & w' & Ha & Ht & Hs & Hl).
    exists a, w'. repeat split; try done.
    change (blacklisted medium_risk_transactions) with 1%nat in Hl.
    simpl in Hl. destruct Hl as [[? _]|[[_ ?]|[? _]]]; [lra|done|lra].
  - destruct (analyzeWalletRisk_known _ _ w low_risk_known) as (a & w' & Ha & Ht & Hs & Hl).
    exists a, w'. repeat split; try done.
    change (blacklisted low_risk_transactions) with 0%nat in Hl.
    simpl in Hl. destruct Hl as [[? _]|[[? _]|[_ ?]]]; [lra|lra|done].
Qed.

End WalletRisk.

(** ** Volatility *)

Section Volatility.

Import JS Runtime Effect RiskService.

Local Open Scope R_scope.

(** The loop over the indices computes the returns of consecutive prices. *)
Lemma returns_loop_spec (priceData : list price_point) (n : nat) : forall i returns,
  (1 <= i)%nat -> (i + n)%nat = length priceData ->
  returns_loop priceData i n returns
  = (returns ++ Statistics.daily_returns (map price (drop (i - 1) priceData)))%list.
Proof.
  induction n as [|n IH]; intros i returns Hi Hlen; simpl.
  - assert (Hd : exists prev, drop (i - 1) priceData = [prev]).
    { destruct (lookup_lt_is_Some_2 priceData (i - 1)) as [prev Hprev]; [lia|].
      exists prev. rewrite (drop_S _ _ _ Hprev), drop_ge by lia. done. }
    destruct Hd as [prev ->]. simpl. by rewrite app_nil_r.
  - destruct (lookup_lt_is_Some_2 priceData i) as [cur Hcur]; [lia|].
    destruct (lookup_lt_is_Some_2 priceData (i - 1)) as [prev Hprev]; [lia|].
    rewrite Hcur, Hprev.
    rewrite IH by lia.
    rewrite (drop_S _ _ _ Hprev).
    replace (S (i - 1)) with i by lia.
    replace (S i - 1)%nat with i by lia.
    rewrite (drop_S _ _ _ Hcur). simpl.
    by rewrite <- app_assoc.
Qed.

Lemma fold_left_sum (xs : list R) : forall a,
  fold_left (fun sum value => sum + value) xs a = a + Statistics.sum xs.
Proof.
  induction xs as [|x xs IH]; intros a; simpl; [lra|]. rewrite IH. lra.
Qed.

Lemma fold_left_squares (mean : R) (xs : list R) : forall a,
  fold_left (fun sum value => sum + Math_pow (value - mean) 2) xs a
  = a + Statistics.sum (map (fun x => (x - mean) ^ 2) xs).
Proof.
  induction xs as [|x xs IH]; intros a; simpl; [lra|].
  rewrite IH. unfold Math_pow. simpl. lra.
Qed.

(** The last five data points of a series that is not empty are not empty. *)
Lemma recent_prices_nonempty (priceData : list price_point) :
  priceData <> [] -> slice_from (-5) priceData <> [].
Proof.
  intros Hne Hnil. apply (f_equal length) in Hnil.
  unfold slice_from in Hnil. simpl in Hnil. rewrite length_drop in Hnil.
  destruct priceData; [done|]. simpl length in Hnil. lia.
Qed.

Lemma daily_returns_length (prices : list R) :
  length (Statistics.daily_returns prices) = (length prices - 1)%nat.
Proof.
  induction prices as [|p0 [|p1 rest] IH]; simpl in *; [done..|]. rewrite IH. lia.
Qed.

(** The counted loop computes the returns of the loop, and runs its body
    once for each of them. *)
Lemma returns_loop_counted_spec (priceData : list price_point) (n : nat) :
  forall i returns visits,
    (1 <= i)%nat -> (i + n)%nat = length priceData ->
    returns_loop_counted priceData i n returns visits
    = (returns_loop priceData i n returns, (visits + n)%nat).
Proof.
  induction n as [|n IH]; intros i returns visits Hi Hlen; simpl.
  - f_equal. lia.
  - destruct (lookup_lt_is_Some_2 priceData i) as [cur Hcur]; [lia|].
    destruct (lookup_lt_is_Some_2 priceData (i - 1)) as [prev Hprev]; [lia|].
    rewrite Hcur, Hprev. rewrite IH by lia. f_equal. lia.
Qed.

(** A counted [reduce] computes what the fold computes, and runs its
    callback once for each item. *)
Lemma reduce_counted_spec (callback : R -> R -> R) (array : list R) :
  forall initial visits,
    reduce_counted callback array initial visits
    = (fold_left callback array initial, (visits + length array)%nat).
Proof.
  unfold reduce_counted.
  induction array as [|x array IH]; intros initial visits; simpl.
  - f_equal. lia.
  - rewrite IH. simpl. f_equal. lia.
Qed.

Lemma returns_loop_length (priceData : list price_point) :
  (1 <= length priceData)%nat ->
  length (returns_loop priceData 1 (length priceData - 1) []) = (length priceData - 1)%nat.
Proof.
  intros Hlen. rewrite returns_loop_spec by lia. simpl drop. simpl app.
  by rewrite daily_returns_length, length_map.
Qed.

Variable clock : nat -> Z.
Variable isoDate : string -> string.

Local Abbreviation metrics_of := (calculateVolatilityMetrics clock isoDate).

(** On a series that is not empty, [calculateVolatilityMetrics] returns;
    the two volatilities are the ones the source computes from the returns. *)
Lemma calculateVolatilityMetrics_defined tokenSymbol priceData w :
  priceData <> [] ->
  exists m w',
    metrics_of tokenSymbol priceData w = (Some m, w')
    /\ (forall cur, last priceData = Some cur -> currentPrice m = price cur)
    /\ volatilityDaily m
       = (let returns := returns_loop priceData 1 (length priceData - 1) [] in
          let mean := fold_left (fun sum value => sum + value) returns 0
                      / INR (length returns) in
          sqrt (fold_left (fun sum value => sum + Math_pow (value - mean) 2) returns 0
                / INR (length returns)))
    /\ volatilityAnnualized m = volatilityDaily m * sqrt 365.
Proof.
  intros Hne.
  pose proof (recent_prices_nonempty priceData Hne) as Hrecent.
  unfold calculateVolatilityMetrics, mbind, M_bind, bind, defined, now, perform.
  destruct priceData as [|first rest] eqn:Hpd; [done|]. rewrite <- Hpd in *.
  assert (H0 : priceData !! 0%nat = Some first) by (by rewrite Hpd).
  rewrite H0.
  destruct (fold_left drawdown_step priceData (0, price first)) as [maxDrawdown peak].
  destruct (last (slice_from (-5) priceData)) as [recentLast|] eqn:Hlast;
    [|by apply last_None in Hlast].
  destruct (slice_from (-5) priceData !! 0%nat) as [recentFirst|] eqn:Hfirst;
    [|by destruct (slice_from (-5) priceData)].
  destruct (last priceData) as [current|] eqn:Hcur;
    [|apply last_None in Hcur; congruence].
  simpl. do 2 eexists. split; [reflexivity|]. simpl.
  split; [by intros cur [= <-]|]. done.
Qed.

(** C4, amended: for a price series of at least two points with non-zero
    prices, [calculateVolatilityMetrics] returns, its [volatilityDaily] is
    the population standard deviation of the daily returns
    [(p_i - p_{i-1}) / p_{i-1}], and its [volatilityAnnualized] is
    [volatilityDaily] times the square root of 365.  The two are obtained
    by three passes, not by one: the loop that collects the returns, the
    [reduce] for their mean and the [reduce] for their variance each run
    once for every return, three times the number of points less three
    in all. *)
Theorem volatility_is_population_stddev tokenSymbol priceData w :
  (2 <= length priceData)%nat ->
  Forall (fun p => price p <> 0) priceData ->
  exists m w',
    metrics_of tokenSymbol priceData w = (Some m, w')
    /\ volatilityDaily m
       = Statistics.population_stddev (Statistics.daily_returns (map price priceData))
    /\ volatilityAnnualized m = volatilityDaily m * sqrt 365
    /\ volatility_counted priceData
       = (volatilityDaily m, volatilityAnnualized m, (3 * (length priceData - 1))%nat).
Proof.
  intros Hlen _.
  assert (Hne : priceData <> []) by (intros ->; simpl in Hlen; lia).
  destruct (calculateVolatilityMetrics_defined tokenSymbol priceData w Hne)
    as (m & w' & Hm & _ & Hdaily & Hannual).
  exists m, w'. split; [done|].
  split.
  { rewrite Hdaily. cbv zeta.
    rewrite returns_loop_spec by lia. simpl drop. simpl app.
    set (returns := Statistics.daily_returns (map price priceData)).
    unfold Statistics.population_stddev, Statistics.population_variance, Statistics.mean.
    rewrite fold_left_squares, fold_left_sum. by rewrite !Rplus_0_l. }
  split; [done|].
  unfold volatility_counted.
  rewrite returns_loop_counted_spec by lia.
  rewrite reduce_counted_spec. rewrite reduce_counted_spec.
  rewrite Hannual, Hdaily. cbv zeta. f_equal.
  rewrite returns_loop_length by lia. lia.
Qed.

End Volatility.

(** C4, as stated, fails: the volatility is not computed by a single pass
    over the series.  For a series of three points, over which one pass
    runs a loop body three times at most, the code runs six: two in the
    loop for the returns, and two in each of the two [reduce] calls. *)
Lemma volatility_takes_three_passes :
  length Sample.rising_prices = 3%nat
  /\ snd (RiskService.volatility_counted Sample.rising_prices) = 6%nat
  /\ exists returns,
      RiskService.returns_loop_counted Sample.rising_prices 1 2 [] 0 = (returns, 2%nat)
      /\ (forall mean : R,
            snd (RiskService.reduce_counted (fun sum value => sum + value)%R returns 0%R 2)
            = 4%nat
            /\ snd (RiskService.reduce_counted
                      (fun sum value => sum + RiskService.Math_pow (value - mean) 2)%R
                      returns 0%R 4)
               = 6%nat).
Proof.
  split; [reflexivity|]. split.
  - unfold RiskService.volatility_counted.
    rewrite returns_loop_counted_spec by (simpl; lia).
    rewrite !reduce_counted_spec. cbn [snd].
    rewrite returns_loop_length by (simpl; lia). reflexivity.
  - eexists. split; [reflexivity|]. intros mean.
    rewrite !reduce_counted_spec. cbn [snd length app]. done.
Qed.

(** ** Value at risk *)

Section ValueAtRisk.

Import JS Runtime Effect RiskService.

Local Open Scope R_scope.

(** Every recorded price history has fourteen points. *)
Lemma history_length (symbol : string) (priceData : list price_point) :
  tokenPriceHistory !! symbol = Some priceData -> length priceData = 14%nat.
Proof.
  unfold tokenPriceHistory.
  destruct (decide (symbol = "BTC")) as [->|?];
    [rewrite lookup_insert_eq; by intros [= <-]|rewrite lookup_insert_ne by done].
  destruct (decide (symbol = "ETH")) as [->|?];
    [rewrite lookup_insert_eq; by intros [= <-]|rewrite lookup_insert_ne by done].
  destruct (decide (symbol = "ARIES")) as [->|?];
    [rewrite lookup_insert_eq; by intros [= <-]|rewrite lookup_insert_ne by done].
  by rewrite lookup_empty.
Qed.

Variable rand : nat -> R.
Variable clock : nat -> Z.
Variable isoDate : string -> string.
Variable isoDaysBefore : Z -> Z -> string.

Local Abbreviation volatility_of := (getTokenVolatility rand clock isoDate isoDaysBefore).
Local Abbreviation value_at_risk := (calculateVaR rand clock isoDate isoDaysBefore).





Hypothesis rand_unit : forall n, 0 <= rand n < 1.










End ValueAtRisk.


(** ** The proof store: listing, expiry, disclosures and colliding ids *)

Section ProofListing.

Import JS Runtime PrivacyService.

Variable rand : nat -> Q.
Variable clock : nat -> Z.
Variable NumberToString : number -> string.

Local Abbreviation generate := (generateZKProof rand clock NumberToString).
Local Abbreviation disclose_to := (generateSelectiveDisclosure rand clock).
Local Abbreviation run_calls := (run rand clock NumberToString).
Local Abbreviation step_call := (step rand clock NumberToString).

Lemma keyed_insert m k e : keyed m -> entry_id e = k -> keyed (<[k := e]> m).
Proof.
  intros Hm He k' e'. destruct (decide (k = k')) as [<-|Hne].
  - rewrite lookup_insert_eq. by intros [= <-].
  - rewrite lookup_insert_ne by done. apply Hm.
Qed.

Lemma keyed_delete m k : keyed m -> keyed (delete k m).
Proof.
  intros Hm k' e'. destruct (decide (k = k')) as [<-|Hne].
  - by rewrite lookup_delete_eq.
  - rewrite lookup_delete_ne by done. apply Hm.
Qed.

Lemma step_keyed c s : keyed (mockProofs s) -> keyed (mockProofs (step_call c s)).
Proof.
  intros Hs. destruct c as [u st|p|u p|u d f]; simpl.
  - unfold generateZKProof. simpl. by apply keyed_insert.
  - by rewrite verifyZKProof_store.
  - unfold revokeZKProof. destruct (mockProofs s !! p); [|done].
    destruct (negb _); [done|]. simpl. by apply keyed_delete.
  - unfold generateSelectiveDisclosure. simpl. by apply keyed_insert.
Qed.

Lemma run_keyed cs : forall s, keyed (mockProofs s) -> keyed (mockProofs (run_calls cs s)).
Proof.
  induction cs as [|c cs IH]; intros s Hs; [done|].
  simpl. apply IH. by apply step_keyed.
Qed.

(** What [getUserProofs] lists: the entries of the store that the user
    owns. *)
Lemma getUserProofs_spec user s item :
  item ∈ ls_proofs (fst (getUserProofs user s))
  <-> exists k e, mockProofs s !! k = Some e /\ entry_userId e = user /\ item = list_entry e.
Proof.
  unfold getUserProofs. simpl. rewrite list_elem_of_fmap. split.
  - intros (e & -> & He). apply list_elem_of_In, filter_In in He as [He Hu].
    apply bool_decide_eq_true_1 in Hu.
    apply list_elem_of_In, list_elem_of_fmap in He as ([k e'] & -> & Hk).
    apply elem_of_map_to_list in Hk. by exists k, e'.
  - intros (k & e & Hk & Hu & ->). exists e. split; [done|].
    apply list_elem_of_In, filter_In. split.
    + apply list_elem_of_In, list_elem_of_fmap. exists (k, e). split; [done|].
      by apply elem_of_map_to_list.
    + by apply bool_decide_eq_true_2.
Qed.

(** X1: whatever calls were served since the store was empty, a proof that
    a user generates is listed by [getUserProofs] for that user, with its
    statement, and under its id nothing is listed for any other user;
    listing leaves the store as it is. *)
Theorem getUserProofs_lists_own_proofs_only cs w0 user other st :
  other <> user ->
  let s := run_calls cs {| mockProofs := ∅; world_of := w0 |} in
  let g := fst (generate user st s) in
  let s' := snd (generate user st s) in
  (exists item,
     item ∈ ls_proofs (fst (getUserProofs user s'))
     /\ l_id item = g_proofId g /\ l_statement item = Some st)
  /\ (forall item,
        item ∈ ls_proofs (fst (getUserProofs other s')) -> l_id item <> g_proofId g)
  /\ ls_success (fst (getUserProofs other s')) = true
  /\ snd (getUserProofs other s') = s'.
Proof.
  intros Hother s g s'.
  destruct (generate user st s) as [g0 s0] eqn:Hgen.
  destruct (generateZKProof_stores rand clock NumberToString _ _ _ _ _ Hgen)
    as (_ & p & Hp & Hid & Hu & Hst & _).
  subst g s'. simpl.
  assert (Hkeyed : keyed (mockProofs s0)).
  { replace s0 with (step_call (Generate user st) s) by (unfold step; by rewrite Hgen).
    apply step_keyed. subst s. apply run_keyed. simpl. intros k e.
    by rewrite lookup_empty. }
  split; [|split; [|done]].
  - exists (list_entry (ZKProof p)). split.
    + apply getUserProofs_spec. by exists (g_proofId g0), (ZKProof p).
    + simpl. by rewrite Hst.
  - intros item Hin Hitem.
    apply getUserProofs_spec in Hin as (k & e & Hk & Hown & ->).
    simpl in Hitem. rewrite (Hkeyed _ _ Hk) in Hitem. subst k.
    rewrite Hp in Hk. injection Hk as <-. simpl in Hown. congruence.
Qed.

(** Verification of a stored entry that has expired fails and keeps the
    entry. *)
Lemma verifyZKProof_expired pid e s :
  mockProofs s !! pid = Some e ->
  (entry_expiresAt e < clock (ticks (world_of s)))%Z ->
  verifyZKProof clock pid s
  = ({| v_success := false; v_verified := None; v_error := Some "Proof has expired";
        v_statement := None; v_verifiedAt := None; v_expiresAt := None;
        v_expirationDate := Some (entry_expiresAt e) |},
     {| mockProofs := mockProofs s;
        world_of := {| draws := draws (world_of s); ticks := S (ticks (world_of s)) |} |}).
Proof.
  intros He Hlate. unfold verifyZKProof, Date_now. rewrite He.
  by destruct (Z.ltb_spec (entry_expiresAt e) (clock (ticks (world_of s)))); [|lia].
Qed.

(** [generateSelectiveDisclosure] stores the disclosure, owned by the
    caller, under the id it returns. *)
Lemma generateSelectiveDisclosure_stores user data fields s d s' :
  disclose_to user data fields s = (d, s') ->
  s_success d = true
  /\ exists e,
      mockProofs s' !! s_disclosureId d = Some (Disclosure e)
      /\ d_id e = s_disclosureId d
      /\ d_userId e = user
      /\ d_expiresAt e = s_expiresAt d
      /\ s_disclosedData d = disclose data fields.
Proof.
  unfold generateSelectiveDisclosure. intros [= <- <-].
  cbn [s_success s_disclosureId s_expiresAt s_disclosedData mockProofs].
  split; [done|]. eexists. rewrite lookup_insert_eq. done.
Qed.

(** X2: a proof expires thirty days after the third reading of the clock
    that its generation makes.  A [verifyZKProof] at a later time resolves
    with [success: false], the error "Proof has expired" and the expiry
    date, and leaves the proof in the store. *)
Theorem verify_after_expiry user st s w :
  let g := fst (generate user st s) in
  let s' := snd (generate user st s) in
  (g_expiresAt g < clock (ticks w))%Z ->
  g_expiresAt g = (clock (S (S (ticks (world_of s)))) + 2592000000)%Z
  /\ let r := verifyZKProof clock (g_proofId g)
                {| mockProofs := mockProofs s'; world_of := w |} in
     v_success (fst r) = false
     /\ v_verified (fst r) = None
     /\ v_error (fst r) = Some "Proof has expired"
     /\ v_expirationDate (fst r) = Some (g_expiresAt g)
     /\ mockProofs (snd r) = mockProofs s'
     /\ is_Some (mockProofs (snd r) !! g_proofId g).
Proof.
  intros g s' Hlate. subst g s'.
  destruct (generate user st s) as [g s'] eqn:Hgen. cbn [fst snd] in *.
  destruct (generateZKProof_stores rand clock NumberToString _ _ _ _ _ Hgen)
    as (_ & p & Hp & _ & _ & _ & Hexp).
  split.
  { unfold generateZKProof in Hgen. injection Hgen as <- _. reflexivity. }
  rewrite (verifyZKProof_expired (g_proofId g) (ZKProof p)); cbn [fst snd mockProofs world_of];
    [|done|by rewrite <- Hexp in Hlate].
  cbn [v_success v_verified v_error v_expirationDate entry_expiresAt].
  rewrite Hexp, Hp. by repeat split.
Qed.

(** What the loop of [generateSelectiveDisclosure] has collected after the
    fields [fields], when it started from [acc]. *)
Lemma disclose_fold (data : gmap string scalar) (fields : list string) :
  forall (acc : gmap string scalar) k v,
  fold_left
    (fun (acc : gmap string scalar) field =>
       match prop data field with
       | Undefined => acc
       | v => <[field := v]> acc
       end)
    fields acc !! k = Some v
  <-> (k ∈ fields /\ data !! k = Some v /\ v <> Undefined)
      \/ (~ (k ∈ fields /\ prop data k <> Undefined) /\ acc !! k = Some v).
Proof.
  induction fields as [|f fields IH]; intros acc k v; simpl.
  - split.
    + intros H. right. split; [|done]. intros [Hin _]. by apply elem_of_nil in Hin.
    + intros [(Hin & _)|[_ H]]; [by apply elem_of_nil in Hin|done].
  - rewrite IH. clear IH. rewrite elem_of_cons.
    assert (Hstep : forall x, prop data f = x -> x <> Undefined ->
              ((k ∈ fields /\ data !! k = Some v /\ v <> Undefined)
               \/ (~ (k ∈ fields /\ prop data k <> Undefined)
                   /\ <[f := x]> acc !! k = Some v))
              <-> (((k = f \/ k ∈ fields) /\ data !! k = Some v /\ v <> Undefined)
                   \/ (~ ((k = f \/ k ∈ fields) /\ prop data k <> Undefined)
                       /\ acc !! k = Some v))).
    { intros x Hx Hdef. destruct (decide (f = k)) as [->|Hne].
      - rewrite lookup_insert_eq. unfold prop in *.
        destruct (data !! k) as [y|] eqn:Hy; simpl in *; [|congruence]. subst y.
        split.
        + intros [(Hin & Hv & Hv')|[Hnot [= <-]]]; left; tauto.
        + intros [(Hin & [= <-] & Hv')|[Hnot _]]; [|exfalso; apply Hnot; tauto].
          destruct (decide (k ∈ fields)); [left; tauto|right; split; [tauto|done]].
      - rewrite lookup_insert_ne by done.
        split.
        + intros [(Hin & Hv & Hv')|[Hnot Hacc]]; [left; tauto|right].
          split; [|done]. intros [[->|Hin] Hp]; [done|tauto].
        + intros [([->|Hin] & Hv & Hv')|[Hnot Hacc]]; [done|left; tauto|right].
          split; [|done]. tauto. }
    destruct (prop data f) as [| |b|x|x] eqn:Hf;
      try (apply Hstep; [reflexivity|discriminate]).
    split.
    + intros [(Hin & Hv & Hv')|[Hnot Hacc]]; [left; tauto|right].
      split; [|done]. intros [[->|Hin] Hp]; [done|tauto].
    + intros [([->|Hin] & Hv & Hv')|[Hnot Hacc]].
      * exfalso. unfold prop in Hf. rewrite Hv in Hf. simpl in Hf. done.
      * left; tauto.
      * right. split; [|done]. tauto.
Qed.

(** X3: when none of the fields asked for is the name of a property which
    objects inherit from [Object.prototype], the data of a selective
    disclosure has a field (an own property) exactly when the field was
    asked for and the data gives it a value other than [undefined], and it
    then has the value the data gives it: no field that was not asked for
    is disclosed. *)
Theorem disclose_only_requested data fields k v :
  Forall (fun field => inherited field = false) fields ->
  disclose data fields !! k = Some v
  <-> k ∈ fields /\ data !! k = Some v /\ v <> Undefined.
Proof.
  intros _. unfold disclose. rewrite disclose_fold. rewrite lookup_empty. split.
  - intros [H|[_ H] ]; [done|discriminate].
  - intros H. by left.
Qed.

(** X4: a selective disclosure is kept in the store of the proofs.  Until
    it expires, [verifyZKProof] of its id resolves with [success: true] and
    [verified: true] and without a statement, [getUserProofs] lists it for
    its owner, and [revokeZKProof] by its owner removes it. *)
Theorem disclosure_is_handled_as_a_proof user data fields s w :
  let d := fst (disclose_to user data fields s) in
  let s' := snd (disclose_to user data fields s) in
  (clock (ticks w) <= s_expiresAt d)%Z ->
  s_success d = true
  /\ (let v := fst (verifyZKProof clock (s_disclosureId d)
                      {| mockProofs := mockProofs s'; world_of := w |}) in
      v_success v = true /\ v_verified v = Some true /\ v_statement v = None)
  /\ (exists item,
        item ∈ ls_proofs (fst (getUserProofs user s'))
        /\ l_id item = s_disclosureId d /\ l_statement item = None)
  /\ (let r := revokeZKProof user (s_disclosureId d) s' in
      r_success (fst r) = true /\ mockProofs (snd r) !! s_disclosureId d = None).
Proof.
  intros d s' Hlive. subst d s'.
  destruct (disclose_to user data fields s) as [d s'] eqn:Hgen. cbn [fst snd] in *.
  destruct (generateSelectiveDisclosure_stores _ _ _ _ _ _ Hgen)
    as (Hok & e & He & Hid & Hu & Hexp & _).
  split; [done|]. split; [|split].
  - pose proof (verifyZKProof_live clock (s_disclosureId d) (Disclosure e)
                  {| mockProofs := mockProofs s'; world_of := w |} He) as Hv.
    cbn [world_of entry_expiresAt entry_statement] in Hv. rewrite Hexp in Hv.
    specialize (Hv Hlive). tauto.
  - exists (list_entry (Disclosure e)). split.
    + apply getUserProofs_spec. by exists (s_disclosureId d), (Disclosure e).
    + done.
  - unfold revokeZKProof. rewrite He. cbn [entry_userId].
    rewrite bool_decide_eq_true_2 by done. cbn [negb fst snd r_success mockProofs].
    split; [done|]. apply lookup_delete_eq.
Qed.

(** X5: the id of a proof is made of the time and of a random number below
    ten thousand.  When a second [generateZKProof] reads the same time and
    draws the same number as a first one, it returns the same id and its
    proof replaces the first in the store: verification then gives the
    second statement, and the first owner, if another user, can no longer
    revoke the proof. *)
Theorem generateZKProof_same_id_replaces user1 st1 user2 st2 s w :
  let g1 := fst (generate user1 st1 s) in
  let s1 := snd (generate user1 st1 s) in
  let later := {| mockProofs := mockProofs s1; world_of := w |} in
  let g2 := fst (generate user2 st2 later) in
  let s2 := snd (generate user2 st2 later) in
  clock (ticks w) = clock (ticks (world_of s)) ->
  Qfloor (rand (draws w) * 10000) = Qfloor (rand (draws (world_of s)) * 10000) ->
  g_proofId g2 = g_proofId g1
  /\ (exists p, mockProofs s2 !! g_proofId g1 = Some (ZKProof p)
                /\ userId p = user2 /\ statement p = st2)
  /\ (user1 <> user2 ->
      fst (revokeZKProof user1 (g_proofId g1) s2)
      = {| r_success := false;
           r_error := Some "Unauthorized: You do not own this proof";
           r_message := None |}).
Proof.
  intros g1 s1 later g2 s2 Htime Hdraw.
  assert (Hid : g_proofId g2 = g_proofId g1).
  { subst g1 s1 later g2 s2. unfold generateZKProof, Date_now, Math_random.
    cbn [fst snd g_proofId world_of draws ticks]. by rewrite Htime, Hdraw. }
  destruct (generate user2 st2 later) as [g s'] eqn:Hgen. subst g2 s2. cbn [fst snd] in *.
  destruct (generateZKProof_stores rand clock NumberToString _ _ _ _ _ Hgen)
    as (_ & p & Hp & _ & Hu & Hst & _).
  rewrite Hid in Hp.
  split; [done|]. split; [by exists p|].
  intros Hne. unfold revokeZKProof. rewrite Hp. cbn [entry_userId].
  rewrite bool_decide_eq_false_2 by congruence. done.
Qed.

End ProofListing.

(** ** Drawdown, generated price histories and portfolio weights *)

Section Drawdown.

Import JS Runtime Effect RiskService.

Local Open Scope R_scope.

(** The relative drop from [c] to [x] grows with [c]. *)
Lemma relative_drop_mono (c c' x : R) :
  0 < c -> c <= c' -> 0 < x -> (c - x) / c <= (c' - x) / c'.
Proof.
  intros Hc Hcc Hx. unfold Rdiv.
  replace ((c - x) * / c) with (1 - x * / c) by (field; lra).
  replace ((c' - x) * / c') with (1 - x * / c') by (field; lra).
  assert (/ c' <= / c) by (apply Rinv_le_contravar; lra).
  assert (x * / c' <= x * / c) by (apply Rmult_le_compat_l; lra).
  lra.
Qed.

Lemma relative_drop_below_one (c x : R) : 0 < c -> 0 < x -> (c - x) / c < 1.
Proof.
  intros Hc Hx. unfold Rdiv.
  replace ((c - x) * / c) with (1 - x * / c) by (field; lra).
  assert (0 < / c) by (by apply Rinv_0_lt_compat).
  assert (0 < x * / c) by (by apply Rmult_lt_0_compat).
  lra.
Qed.

(** The loop that tracks the peak and the largest drawdown, started with
    the drawdown [md] and the peak [pk]: the peak it ends with is positive,
    and the drawdown it ends with is an upper bound of the relative drops
    from [pk] or from an earlier price to a later one, and is [md] or one of
    these drops. *)
Lemma drawdown_loop (l : list price_point) : forall md pk,
  0 < pk ->
  Forall (fun p => 0 < price p) l ->
  let md' := fst (fold_left drawdown_step l (md, pk)) in
  md <= md'
  /\ (forall j q c,
        l !! j = Some q ->
        (c = pk \/ exists i p, (i <= j)%nat /\ l !! i = Some p /\ c = price p) ->
        (c - price q) / c <= md')
  /\ (md' = md
      \/ exists j q c,
           l !! j = Some q
           /\ (c = pk \/ exists i p, (i <= j)%nat /\ l !! i = Some p /\ c = price p)
           /\ md' = (c - price q) / c).
Proof.
  induction l as [|a l IH]; intros md pk Hpk Hpos; cbv zeta.
  - simpl. split; [lra|]. split; [|by left]. intros j q c Hq. by destruct j.
  - apply Forall_cons in Hpos as [Ha Hpos].
    pose (pk1 := if Rltb pk (price a) then price a else pk).
    pose (md1 := if Rltb md ((pk1 - price a) / pk1) then (pk1 - price a) / pk1 else md).
    assert (Hstep : drawdown_step (md, pk) a = (md1, pk1)) by reflexivity.
    cbn [fold_left]. rewrite Hstep. clear Hstep.
    assert (Hpk1 : 0 < pk1 /\ pk <= pk1 /\ price a <= pk1 /\ (pk1 = pk \/ pk1 = price a)).
    { subst pk1. unfold Rltb. destruct (Rlt_dec pk (price a)); repeat split; try lra; tauto. }
    destruct Hpk1 as (Hpk1 & Hle & Hale & Hwhich).
    assert (Hmd1 : md <= md1 /\ (pk1 - price a) / pk1 <= md1
                   /\ (md1 = md \/ md1 = (pk1 - price a) / pk1)).
    { subst md1. unfold Rltb. destruct (Rlt_dec md ((pk1 - price a) / pk1));
        repeat split; try lra; tauto. }
    destruct Hmd1 as (Hmd & Hdrop & Hmdwhich).
    destruct (IH md1 pk1 Hpk1 Hpos) as (Hmono & Hupper & Hattained). clear IH.
    cbv zeta in Hmono, Hupper, Hattained.
    set (md' := fst (fold_left drawdown_step l (md1, pk1))) in *.
    split; [lra|]. split.
    + intros j q c Hq Hc.
      assert (Hcpos : 0 < c /\ c <= pk1 \/ exists j', j = S j' /\ exists i' p,
                        (i' <= j')%nat /\ l !! i' = Some p /\ c = price p).
      { destruct Hc as [->|(i & p & Hij & Hp & ->)]; [left; lra|].
        destruct i as [|i'].
        - simpl in Hp. injection Hp as <-. left. lra.
        - destruct j as [|j']; [lia|]. right. exists j'. split; [done|].
          exists i', p. simpl in Hp. split; [lia|done]. }
      destruct j as [|j'].
      * simpl in Hq. injection Hq as <-.
        destruct Hcpos as [[Hc0 Hc1]|(j' & [=] & _)].
        pose proof (relative_drop_mono c pk1 (price a) Hc0 Hc1 Ha). lra.
      * simpl in Hq.
        assert (Hqpos : 0 < price q).
        { rewrite Forall_forall in Hpos. apply Hpos.
          by apply list_elem_of_lookup_2 in Hq. }
        destruct Hcpos as [[Hc0 Hc1]|(j'' & [= <-] & i' & p & Hij & Hp & ->)].
        -- pose proof (relative_drop_mono c pk1 (price q) Hc0 Hc1 Hqpos).
           pose proof (Hupper j' q pk1 Hq (or_introl eq_refl)). lra.
        -- apply (Hupper j' q (price p) Hq). right. by exists i', p.
    + destruct Hattained as [Hsame|(j' & q & c & Hq & Hc & Hval)].
      * destruct Hmdwhich as [Hm|Hm]; [left; lra|].
        right. exists 0%nat, a, pk1. split; [done|]. split; [|lra].
        destruct Hwhich as [->| ->]; [by left|].
        right. by exists 0%nat, a.
      * right. exists (S j'), q, c. split; [done|]. split; [|done].
        destruct Hc as [->|(i' & p & Hij & Hp & ->)].
        -- destruct Hwhich as [->| ->]; [by left|].
           right. exists 0%nat, a. split; [lia|done].
        -- right. exists (S i'), p. split; [lia|done].
Qed.

Variable clock : nat -> Z.
Variable isoDate : string -> string.

Local Abbreviation metrics_of := (calculateVolatilityMetrics clock isoDate).

(** The fields of the result of [calculateVolatilityMetrics] that do not
    depend on the returns. *)
Lemma calculateVolatilityMetrics_fields tokenSymbol priceData first w :
  priceData !! 0%nat = Some first ->
  exists m,
    metrics_of tokenSymbol priceData w
    = (Some m, {| draws := draws w; ticks := S (ticks w) |})
    /\ token m = tokenSymbol
    /\ (forall cur, last priceData = Some cur -> currentPrice m = price cur)
    /\ maxDrawdown m = fst (fold_left drawdown_step priceData (0, price first))
    /\ map h_price (historicalPrices m) = map price priceData
    /\ m_analysisDate m = clock (ticks w).
Proof.
  intros H0.
  assert (Hne : priceData <> []) by (by intros ->).
  pose proof (recent_prices_nonempty priceData Hne) as Hrecent.
  unfold calculateVolatilityMetrics, mbind, M_bind, bind, defined, now, perform, Date_now.
  rewrite H0.
  destruct (fold_left drawdown_step priceData (0, price first)) as [md peak].
  destruct (last (slice_from (-5) priceData)) as [recentLast|] eqn:Hlast;
    [|by apply last_None in Hlast].
  destruct (slice_from (-5) priceData !! 0%nat) as [recentFirst|] eqn:Hfirst;
    [|by destruct (slice_from (-5) priceData)].
  destruct (last priceData) as [current|] eqn:Hcur;
    [|apply last_None in Hcur; congruence].
  cbv beta iota zeta. eexists. split; [reflexivity|].
  cbn [token currentPrice maxDrawdown historicalPrices m_analysisDate fst].
  split; [done|]. split; [by intros cur [= <-]|]. split; [done|]. split; [|done].
  rewrite map_map. done.
Qed.

(** X6: for a series of positive prices that is not empty,
    [calculateVolatilityMetrics] returns, and its [maxDrawdown] is the
    largest relative drop [(p_i - p_j) / p_i] from a price to a later one (or
    to itself): it bounds every such drop, it is one of them, and it lies
    between 0 and 1. *)
Theorem maxDrawdown_is_largest_drop tokenSymbol priceData w :
  priceData <> [] ->
  Forall (fun p => 0 < price p) priceData ->
  exists m w',
    calculateVolatilityMetrics clock isoDate tokenSymbol priceData w = (Some m, w')
    /\ (forall i j p q,
          (i <= j)%nat -> priceData !! i = Some p -> priceData !! j = Some q ->
          (price p - price q) / price p <= maxDrawdown m)
    /\ (exists i j p q,
          (i <= j)%nat /\ priceData !! i = Some p /\ priceData !! j = Some q
          /\ maxDrawdown m = (price p - price q) / price p)
    /\ 0 <= maxDrawdown m < 1.
Proof.
  intros Hne Hpos.
  destruct priceData as [|first rest] eqn:Hpd; [done|]. rewrite <- Hpd in *.
  assert (H0 : priceData !! 0%nat = Some first) by (by rewrite Hpd).
  assert (Hfirst : 0 < price first).
  { rewrite Hpd in Hpos. by apply Forall_cons in Hpos as [? _]. }
  destruct (calculateVolatilityMetrics_fields tokenSymbol priceData first w H0)
    as (m & Hm & _ & _ & Hmd & _).
  destruct (drawdown_loop priceData 0 (price first) Hfirst Hpos)
    as (Hmono & Hupper & Hattained).
  cbv zeta in Hmono, Hupper, Hattained. rewrite <- Hmd in *.
  assert (Hsome : exists i j p q,
            (i <= j)%nat /\ priceData !! i = Some p /\ priceData !! j = Some q
            /\ maxDrawdown m = (price p - price q) / price p).
  { destruct Hattained as [Hzero|(j & q & c & Hq & Hc & Hval)].
    - exists 0%nat, 0%nat, first, first. repeat split; try done.
      rewrite Hzero. unfold Rdiv. lra.
    - destruct Hc as [->|(i & p & Hij & Hp & ->)].
      + exists 0%nat, j, first, q. repeat split; try done. lia.
      + by exists i, j, p, q. }
  exists m. eexists. split; [exact Hm|]. split; [|split; [exact Hsome|]].
  - intros i j p q Hij Hp Hq. apply (Hupper j q (price p) Hq). right. by exists i, p.
  - split; [lra|].
    destruct Hsome as (i & j & p & q & _ & Hp & Hq & ->).
    rewrite Forall_forall in Hpos.
    apply relative_drop_below_one; apply Hpos;
      eapply list_elem_of_lookup_2; eassumption.
Qed.

End Drawdown.

Section GeneratedHistories.

Import JS Runtime Effect RiskService.

Local Open Scope R_scope.

Variable rand : nat -> R.
Variable clock : nat -> Z.
Variable isoDate : string -> string.
Variable isoDaysBefore : Z -> Z -> string.

Local Abbreviation volatility_of := (getTokenVolatility rand clock isoDate isoDaysBefore).
Local Abbreviation value_at_risk := (calculateVaR rand clock isoDate isoDaysBefore).

(** The last [days] points of a recorded history. *)
Lemma slice_recorded (priceData : list price_point) (days : Z) :
  length priceData = 14%nat -> (1 <= days)%Z ->
  slice_from (- days) priceData = drop (14 - Z.to_nat (Z.min days 14)) priceData.
Proof.
  intros Hlen Hdays. unfold slice_from. rewrite Hlen.
  destruct (Z.ltb_spec (- days) 0) as [_|?]; [|lia].
  f_equal. lia.
Qed.

Lemma last_drop_lt {A} (l : list A) (k : nat) :
  (k < length l)%nat -> last (drop k l) = last l.
Proof.
  intros Hk. rewrite !last_lookup, lookup_drop, length_drop. f_equal. lia.
Qed.

(** On a token with a recorded history, [getTokenVolatility] draws no random
    number and analyses the last [days] points of the history. *)
Lemma getTokenVolatility_recorded tokenSymbol days_given priceData w :
  tokenPriceHistory !! toUpperCase tokenSymbol = Some priceData ->
  (1 <= default 14%Z days_given)%Z ->
  exists m,
    volatility_of tokenSymbol days_given w
    = (Some m, {| draws := draws w; ticks := S (ticks w) |})
    /\ token m = tokenSymbol
    /\ map h_price (historicalPrices m)
       = map price (drop (14 - Z.to_nat (Z.min (default 14%Z days_given) 14)) priceData)
    /\ currentPrice m = Portfolio.recorded_price tokenSymbol.
Proof.
  intros Hhist Hdays. pose proof (history_length _ _ Hhist) as Hlen.
  unfold getTokenVolatility. cbv zeta. rewrite Hhist.
  rewrite (slice_recorded priceData _ Hlen Hdays).
  set (k := (14 - Z.to_nat (Z.min (default 14%Z days_given) 14))%nat).
  assert (Hk : (k < length priceData)%nat) by (subst k; lia).
  destruct (lookup_lt_is_Some_2 (drop k priceData) 0) as [first Hfirst];
    [rewrite length_drop; lia|].
  destruct (calculateVolatilityMetrics_fields clock isoDate tokenSymbol _ first w Hfirst)
    as (m & Hm & Htoken & Hcur & _ & Hprices & _).
  exists m. split; [exact Hm|]. split; [done|]. split; [done|].
  unfold Portfolio.recorded_price. rewrite Hhist.
  rewrite (last_drop_lt priceData k Hk) in Hcur.
  destruct (last priceData) as [cur|] eqn:Hlast.
  - by apply Hcur.
  - apply last_None in Hlast. subst priceData. simpl in Hlen. lia.
Qed.

(** X7: for a token with a recorded price history (the symbol is looked up
    in upper case) and a number of days of at least 2, [getTokenVolatility]
    returns without drawing a random number; it reports the symbol as it
    was given, the last [days] recorded prices, and never more than the
    fourteen that are recorded, and the most recent recorded price as the
    current price. *)
Theorem getTokenVolatility_recorded_token tokenSymbol days priceData w :
  tokenPriceHistory !! toUpperCase tokenSymbol = Some priceData ->
  (2 <= days)%Z ->
  exists m,
    volatility_of tokenSymbol (Some days) w
    = (Some m, {| draws := draws w; ticks := S (ticks w) |})
    /\ token m = tokenSymbol
    /\ length (historicalPrices m) = Z.to_nat (Z.min days 14)
    /\ map h_price (historicalPrices m)
       = map price (drop (14 - Z.to_nat (Z.min days 14)) priceData)
    /\ (forall cur, last priceData = Some cur -> currentPrice m = price cur).
Proof.
  intros Hhist Hdays. pose proof (history_length _ _ Hhist) as Hlen.
  destruct (getTokenVolatility_recorded tokenSymbol (Some days) priceData w Hhist)
    as (m & Hm & Htoken & Hprices & Hcur); [simpl; lia|].
  simpl in Hprices.
  exists m. split; [exact Hm|]. split; [done|]. split; [|split; [done|]].
  - apply (f_equal length) in Hprices.
    rewrite !length_map, length_drop, Hlen in Hprices. lia.
  - intros cur Hlast. rewrite Hcur. unfold Portfolio.recorded_price.
    by rewrite Hhist, Hlast.
Qed.

(** The loop that fabricates a price history draws one random number per
    point, and every price it appends lies within ten percent of the base
    price. *)
Lemma mock_loop_prices basePrice days n :
  (forall k, 0 <= rand k < 1) ->
  0 < basePrice ->
  forall i mockData w,
    Forall (fun p => 0.9 * basePrice <= price p < 1.1 * basePrice) mockData ->
    exists l,
      mock_loop rand clock isoDaysBefore basePrice days i n mockData w
      = (Some l, {| draws := (draws w + n)%nat; ticks := (ticks w + n)%nat |})
      /\ length l = (length mockData + n)%nat
      /\ Forall (fun p => 0.9 * basePrice <= price p < 1.1 * basePrice) l.
Proof.
  intros Hrand Hbase. induction n as [|n IH]; intros i mockData w Hdata.
  - exists mockData. simpl. rewrite !Nat.add_0_r. by destruct w.
  - cbn [mock_loop]. unfold mbind, M_bind, bind, now, random, perform, Date_now, Math_random.
    cbv beta iota zeta. cbn [draws ticks].
    set (point := mk_price (isoDaysBefore (clock (ticks w)) (days - i))
                    (basePrice * (1 + (rand (draws w) * 2 - 1) * 0.1))).
    destruct (IH (i + 1)%Z (mockData ++ [point])%list
                {| draws := S (draws w); ticks := S (ticks w) |})
      as (l & Hl & Hlen & Hall).
    { apply Forall_app. split; [done|]. apply Forall_singleton. subst point. simpl.
      pose proof (Hrand (draws w)). nra. }
    exists l. rewrite Hl. cbn [draws ticks].
    replace (S (draws w) + n)%nat with (draws w + S n)%nat by lia.
    replace (S (ticks w) + n)%nat with (ticks w + S n)%nat by lia.
    split; [done|]. split; [|done]. rewrite Hlen, length_app. simpl. lia.
Qed.

(** X8: for a token written in ASCII that has no recorded history, and a
    number of days from 2 to 36500, [getTokenVolatility] returns a
    fabricated history of [days] points, for which it draws [days + 1]
    random numbers.  Whatever numbers in [0, 1) are drawn, every price of
    the history and the current price lie between 8.99 and 110.01, and the
    largest drawdown is at most 0.19.  (The prices lie within ten percent
    of a base price between 10 and 100; the bounds leave room for the
    rounding of doubles.) *)
Theorem getTokenVolatility_fabricated_history tokenSymbol days w :
  (forall k, 0 <= rand k < 1) ->
  ascii_only tokenSymbol = true ->
  tokenPriceHistory !! toUpperCase tokenSymbol = None ->
  (2 <= days <= 36500)%Z ->
  exists m w',
    volatility_of tokenSymbol (Some days) w = (Some m, w')
    /\ draws w' = (draws w + 1 + Z.to_nat days)%nat
    /\ length (historicalPrices m) = Z.to_nat days
    /\ Forall (fun h => 8.99 < h_price h < 110.01) (historicalPrices m)
    /\ 8.99 < currentPrice m < 110.01
    /\ 0 <= maxDrawdown m <= 0.19.
Proof.
  intros Hrand _ Hhist [Hdays _].
  unfold getTokenVolatility. cbv zeta. rewrite Hhist.
  change (default 14%Z (Some days)) with days.
  unfold mbind, M_bind, bind, random, perform, Math_random. cbv beta iota zeta.
  set (base := 10 + rand (draws w) * 90).
  assert (Hbase : 10 <= base < 100) by (subst base; pose proof (Hrand (draws w)); lra).
  destruct (mock_loop_prices base days (Z.to_nat days) Hrand ltac:(lra) 0%Z []
              {| draws := S (draws w); ticks := ticks w |} (Forall_nil_2 _))
    as (l & Hl & Hlen & Hall).
  cbn [draws ticks length] in Hl, Hlen. rewrite Hl.
  assert (Hne : l <> []) by (intros ->; simpl in Hlen; lia).
  destruct l as [|first rest] eqn:Hdata; [done|]. rewrite <- Hdata in *.
  assert (H0 : l !! 0%nat = Some first) by (by rewrite Hdata).
  assert (Hpos : Forall (fun p => 0 < price p) l).
  { eapply Forall_impl; [exact Hall|]. simpl. intros p Hp. lra. }
  destruct (calculateVolatilityMetrics_fields clock isoDate tokenSymbol l first
              {| draws := (S (draws w) + Z.to_nat days)%nat;
                 ticks := (ticks w + Z.to_nat days)%nat |} H0)
    as (m & Hm & _ & Hcur & Hmd & Hprices & _).
  exists m. eexists. split; [exact Hm|]. cbn [draws].
  split; [lia|]. split.
  { apply (f_equal length) in Hprices. rewrite !length_map in Hprices. lia. }
  assert (Hrange : Forall (fun x => 8.99 < x < 110.01) (map price l)).
  { apply Forall_fmap. eapply Forall_impl; [exact Hall|]. simpl. intros p Hp. lra. }
  split.
  { rewrite <- Hprices in Hrange. by apply Forall_fmap in Hrange. }
  split.
  { destruct (last l) as [cur|] eqn:Hlast; [|by apply last_None in Hlast].
    rewrite (Hcur cur eq_refl).
    rewrite Forall_forall in Hall.
    assert (Hin : cur ∈ l).
    { rewrite last_lookup in Hlast. by apply list_elem_of_lookup_2 in Hlast. }
    pose proof (Hall cur Hin). simpl in *. lra. }
  destruct (drawdown_loop l 0 (price first)) as (Hmono & _ & Hattained);
    [rewrite Forall_forall in Hpos; apply Hpos; by apply list_elem_of_lookup_2 in H0|done|].
  cbv zeta in Hmono, Hattained. rewrite <- Hmd in *.
  split; [done|].
  destruct Hattained as [->|(j & q & c & Hq & Hc & ->)]; [lra|].
  rewrite Forall_forall in Hall.
  assert (Hqr : 0.9 * base <= price q < 1.1 * base).
  { apply Hall. by apply list_elem_of_lookup_2 in Hq. }
  assert (Hcr : 0.9 * base <= c < 1.1 * base).
  { destruct Hc as [->|(i & p & _ & Hp & ->)]; apply Hall;
      eapply list_elem_of_lookup_2; eassumption. }
  apply Rle_trans with ((1.1 * base - price q) / (1.1 * base)).
  - apply relative_drop_mono; lra.
  - unfold Rdiv. apply Rmult_le_reg_r with (1.1 * base); [lra|].
    rewrite Rmult_assoc, Rinv_l by lra. lra.
Qed.

(** The value that the [reduce] of [calculateVaR] adds for a holding of a
    token with a recorded history. *)
Lemma add_value_recorded total h w :
  is_Some (tokenPriceHistory !! toUpperCase (h_token h)) ->
  add_value rand total h w = (Some (total + Portfolio.recorded_value h), w).
Proof.
  intros [tokenData Hhist]. pose proof (history_length _ _ Hhist) as Hlen.
  unfold add_value, mbind, M_bind, bind, defined, Portfolio.recorded_value,
    Portfolio.recorded_price.
  rewrite Hhist. destruct (last tokenData) as [p|] eqn:Hlast; [done|].
  apply last_None in Hlast. subst. simpl in Hlen. lia.
Qed.

Lemma portfolio_value_recorded holdings : forall total w,
  Forall (fun h => is_Some (tokenPriceHistory !! toUpperCase (h_token h))) holdings ->
  foldM (add_value rand) holdings total w
  = (Some (total + Statistics.sum (map Portfolio.recorded_value holdings)), w).
Proof.
  induction holdings as [|h holdings IH]; intros total w Hall; simpl.
  - unfold ret. do 2 f_equal. lra.
  - apply Forall_cons in Hall as [Hh Hall].
    unfold bind. rewrite (add_value_recorded total h w Hh), IH by done.
    do 2 f_equal. lra.
Qed.

(** Every recorded history ends with a positive price. *)
Lemma recorded_price_positive (symbol : string) :
  is_Some (tokenPriceHistory !! toUpperCase symbol) -> 0 < Portfolio.recorded_price symbol.
Proof.
  unfold Portfolio.recorded_price, tokenPriceHistory. intros [priceData Hhist].
  rewrite Hhist. revert Hhist.
  destruct (decide ("BTC" = toUpperCase symbol)) as [<-|?];
    [rewrite lookup_insert_eq; intros [= <-]; simpl; lra|rewrite lookup_insert_ne by done].
  destruct (decide ("ETH" = toUpperCase symbol)) as [<-|?];
    [rewrite lookup_insert_eq; intros [= <-]; simpl; lra|rewrite lookup_insert_ne by done].
  destruct (decide ("ARIES" = toUpperCase symbol)) as [<-|?];
    [rewrite lookup_insert_eq; intros [= <-]; simpl; lra|rewrite lookup_insert_ne by done].
  by rewrite lookup_empty.
Qed.

Lemma recorded_values_positive holdings :
  holdings <> [] ->
  Forall (fun h => 0 < h_amount h
                   /\ is_Some (tokenPriceHistory !! toUpperCase (h_token h))) holdings ->
  0 < Statistics.sum (map Portfolio.recorded_value holdings).
Proof.
  intros Hne Hall.
  assert (Hstep : forall l,
            Forall (fun h => 0 < h_amount h
                             /\ is_Some (tokenPriceHistory !! toUpperCase (h_token h))) l ->
            0 <= Statistics.sum (map Portfolio.recorded_value l)
            /\ (l <> [] -> 0 < Statistics.sum (map Portfolio.recorded_value l))).
  { induction l as [|h l IH]; intros Hl; simpl; [split; [lra|done]|].
    apply Forall_cons in Hl as [[Ha Hh] Hl]. destruct (IH Hl) as [IH0 _].
    assert (0 < Portfolio.recorded_value h).
    { unfold Portfolio.recorded_value. apply Rmult_lt_0_compat; [done|].
      by apply recorded_price_positive. }
    split; [lra|intros _; lra]. }
  by apply Hstep.
Qed.

(** The volatilities and weights that [calculateVaR] computes for holdings
    of tokens with a recorded history, when the portfolio value is not
    zero. *)
Lemma token_volatilities_recorded portfolioValue holdings : forall w,
  portfolioValue <> 0 ->
  Forall (fun h => is_Some (tokenPriceHistory !! toUpperCase (h_token h))) holdings ->
  exists tvs w',
    token_volatilities rand clock isoDate isoDaysBefore portfolioValue holdings w
    = (Some tvs, w')
    /\ draws w' = draws w
    /\ Forall2 (fun h t => tv_token t = h_token h
                           /\ tv_weight t
                              = XFin (Portfolio.recorded_value h / portfolioValue))
               holdings tvs.
Proof.
  intros w Hpv. revert w. unfold token_volatilities.
  induction holdings as [|h holdings IH]; intros w Hall; simpl.
  - do 2 eexists. split; [reflexivity|]. split; [done|constructor].
  - apply Forall_cons in Hall as [[priceData Hh] Hall].
    unfold mbind, M_bind, bind.
    destruct (getTokenVolatility_recorded (h_token h) None priceData w Hh)
      as (m & -> & _ & _ & Hcur); [simpl; lia|].
    cbn [ret].
    destruct (IH {| draws := draws w; ticks := S (ticks w) |} Hall)
      as (tvs & w2 & Htvs & Hdraws & Hrel).
    unfold mbind, M_bind, bind in Htvs. rewrite Htvs. cbn [ret].
    do 2 eexists. split; [reflexivity|]. split; [done|]. constructor; [|done].
    cbn [tv_token tv_weight]. split; [done|]. rewrite Hcur.
    unfold xdiv_real, Req_bool. by destruct (Req_dec_T portfolioValue 0).
Qed.

(** Among holdings of distinct tokens, the entry that [find] picks for a
    holding is the holding's own. *)
Lemma find_own_volatility (weight : holding -> xnum) holdings tvs :
  NoDup (map h_token holdings) ->
  Forall2 (fun h t => tv_token t = h_token h /\ tv_weight t = weight h) holdings tvs ->
  forall h, h ∈ holdings ->
    from_option tv_weight (XFin 0)
      (List.find (fun t => bool_decide (tv_token t = h_token h)) tvs)
    = weight h.
Proof.
  intros Hnodup Hrel. induction Hrel as [|h0 t0 holdings tvs [Htok Hw] Hrel IH];
    intros h Hin; [by apply elem_of_nil in Hin|].
  simpl in Hnodup. apply NoDup_cons in Hnodup as [Hfresh Hnodup].
  simpl. rewrite Htok. apply elem_of_cons in Hin as [->|Hin].
  - by rewrite bool_decide_eq_true_2.
  - rewrite bool_decide_eq_false_2; [by apply IH|].
    intros Heq. apply Hfresh. rewrite Heq. by apply list_elem_of_fmap_2.
Qed.

(** X9: for holdings that are not empty, of distinct tokens that all have a
    recorded price history, and of amounts between a millionth and a
    million million, [calculateVaR] returns without drawing a random
    number; the portfolio value is the sum of the holdings' values at the
    most recent recorded prices and is positive, the weight reported for
    each holding is its share of that value, the shares add up to 1 within
    a millionth (which leaves room for the rounding of doubles), and the
    daily value at risk is a number that is not negative. *)
Theorem calculateVaR_weights_add_up holdings confidence_given w :
  holdings <> [] ->
  NoDup (map h_token holdings) ->
  Forall (fun h => / 1000000 <= h_amount h <= 1000000000000
                   /\ is_Some (tokenPriceHistory !! toUpperCase (h_token h))) holdings ->
  exists v w',
    value_at_risk holdings confidence_given w = (Some v, w')
    /\ draws w' = draws w
    /\ portfolioValue v = Statistics.sum (map Portfolio.recorded_value holdings)
    /\ 0 < portfolioValue v
    /\ map o_token (holdings_out v) = map h_token holdings
    /\ map o_weight (holdings_out v)
       = map (fun h => XFin (Portfolio.recorded_value h / portfolioValue v)) holdings
    /\ Rabs (Statistics.sum
               (map (fun h => Portfolio.recorded_value h / portfolioValue v) holdings) - 1)
       <= / 1000000
    /\ exists daily, amount (dailyVaR v) = XFin daily /\ 0 <= daily.
Proof.
  intros Hne Hnodup Hall.
  assert (Hknown : Forall (fun h => is_Some (tokenPriceHistory !! toUpperCase (h_token h)))
                          holdings).
  { eapply Forall_impl; [exact Hall|]. by intros h [_ ?]. }
  assert (Hpos : Forall (fun h => 0 < h_amount h
                                  /\ is_Some (tokenPriceHistory !! toUpperCase (h_token h)))
                        holdings).
  { eapply Forall_impl; [exact Hall|]. intros h [[Hlow _] Hh]. split; [|done].
    assert (0 < / 1000000) by (apply Rinv_0_lt_compat; lra). lra. }
  set (pv := Statistics.sum (map Portfolio.recorded_value holdings)).
  assert (Hpv : 0 < pv) by (by apply recorded_values_positive).
  assert (Hpvne : pv <> 0) by lra.
  destruct (token_volatilities_recorded pv holdings w Hpvne Hknown)
    as (tvs & w2 & Htvs & Hw2 & Hrel).
  assert (Hsquares : forall l total,
            0 <= total ->
            (exists x,
               fold_left
                 (fun sum t =>
                    xadd sum (xsquare (xmul (XFin (tv_volatility t)) (tv_weight t))))
                 l (XFin total) = XFin x /\ 0 <= x)
            \/ ~ Forall (fun t => exists x, tv_weight t = XFin x) l).
  { induction l as [|t l IH]; intros total Htotal; [left; by exists total|].
    destruct (tv_weight t) as [| |x] eqn:Hweight.
    - right. intros Hl. apply Forall_cons in Hl as [[x Hx] _]. congruence.
    - right. intros Hl. apply Forall_cons in Hl as [[x Hx] _]. congruence.
    - cbn [fold_left]. rewrite Hweight. cbn [xmul xsquare xadd].
      destruct (IH (total + Math_pow (tv_volatility t * x) 2)) as [Hok|Hbad].
      + unfold Math_pow. pose proof (pow2_ge_0 (tv_volatility t * x)). lra.
      + by left.
      + right. intros Hl. apply Forall_cons in Hl as [_ Hl]. by apply Hbad. }
  assert (Hfinite : Forall (fun t => exists x, tv_weight t = XFin x) tvs).
  { eapply Forall2_Forall_r; [exact Hrel|].
    apply Forall_forall. intros h _ t [_ Hw]. by eexists. }
  destruct (Hsquares tvs 0 (Rle_refl 0)) as [(x & Hx & Hx0)|Hbad]; [|by destruct Hbad].
  unfold calculateVaR, portfolio_value, mbind, M_bind, bind.
  rewrite (portfolio_value_recorded holdings 0 w Hknown), Rplus_0_l. fold pv.
  rewrite Htvs.
  unfold now, perform, Date_now. cbv beta iota zeta. cbn [ret].
  do 2 eexists. split; [reflexivity|].
  cbn [draws portfolioValue holdings_out dailyVaR amount].
  split; [done|]. split; [done|]. split; [done|].
  rewrite !map_map. cbn [o_token o_weight].
  split; [done|].
  split.
  { apply map_ext_in. intros h Hin. apply list_elem_of_In in Hin.
    by apply (find_own_volatility
                (fun h => XFin (Portfolio.recorded_value h / pv)) holdings tvs). }
  split.
  - assert (Hsum : forall l,
              Statistics.sum (map (fun h => Portfolio.recorded_value h / pv) l)
              = Statistics.sum (map Portfolio.recorded_value l) / pv).
    { induction l as [|h l IH]; simpl; [lra|]. rewrite IH. lra. }
    rewrite Hsum. fold pv. unfold Rdiv. rewrite Rinv_r by lra.
    rewrite Rminus_diag, Rabs_R0. lra.
  - unfold portfolio_volatility. rewrite Hx. unfold xsqrt, Rltb.
    destruct (Rlt_dec x 0); [lra|]. cbn [xmul].
    eexists. split; [reflexivity|].
    apply Rmult_le_pos; [apply Rmult_le_pos; [lra|apply sqrt_pos]|].
    destruct (Req_dec_T _ _); lra.
Qed.

End GeneratedHistories.

(** ** The vulnerability scan and the compliance check *)

Section ContractAnalysis.

Import JS Runtime ContractService.

Lemma append_assoc (a b c : string) : (a +:+ b) +:+ c = a +:+ (b +:+ c).
Proof.
  induction a as [|x a IH]; [done|].
  change (String x ((a +:+ b) +:+ c) = String x (a +:+ (b +:+ c))). by rewrite IH.
Qed.

Lemma prefix_append (t : string) : forall s,
  String.prefix t s = true <-> exists post, s = t +:+ post.
Proof.
  induction t as [|a t IH]; intros s.
  - split; [intros _; by exists s|]. intros _. by destruct s.
  - destruct s as [|b s]; simpl.
    + split; [done|]. intros [post H].
      change ("" = String a (t +:+ post)) in H. discriminate.
    + destruct (ascii_dec a b) as [->|Hne].
      * rewrite IH. split; intros [post H]; exists post.
        -- change (String b s = String b (t +:+ post)). by rewrite H.
        -- change (String b s = String b (t +:+ post)) in H. by injection H.
      * split; [done|]. intros [post H].
        change (String b s = String a (t +:+ post)) in H. injection H as ? _. congruence.
Qed.

Lemma includes_unfold (s t : string) :
  includes s t
  = String.prefix t s
    || match s with
       | EmptyString => false
       | String _ s' => includes s' t
       end.
Proof. by destruct s. Qed.

(** [includes] finds the occurrences of a string. *)
Lemma includes_occurs (s t : string) :
  includes s t = true <-> exists pre post, s = pre +:+ t +:+ post.
Proof.
  split.
  - induction s as [|c s IH]; rewrite includes_unfold.
    + rewrite orb_false_r. intros H. apply prefix_append in H as [post Hs].
      exists "", post. exact Hs.
    + intros H. apply orb_true_iff in H as [H|H].
      * apply prefix_append in H as [post Hs]. exists "", post. exact Hs.
      * destruct (IH H) as (pre & post & Hs). exists (String c pre), post.
        change (String c s = String c (pre +:+ t +:+ post)). by rewrite <- Hs.
  - intros (pre & post & ->). induction pre as [|c pre IH].
    + change ("" +:+ t +:+ post) with (t +:+ post). rewrite includes_unfold.
      assert (H : String.prefix t (t +:+ post) = true) by (apply prefix_append; by exists post).
      by rewrite H.
    + change (String c pre +:+ t +:+ post) with (String c (pre +:+ t +:+ post)).
      rewrite includes_unfold, IH. apply orb_true_r.
Qed.

(** What occurs in a text occurs in every text that contains it. *)
Lemma includes_extend (pre code post f : string) :
  includes code f = true -> includes (pre +:+ code +:+ post) f = true.
Proof.
  intros H. apply includes_occurs in H as (a & b & ->). apply includes_occurs.
  exists (pre +:+ a), (b +:+ post). by rewrite !append_assoc.
Qed.

Variable clock : nat -> Z.
Variable test_reentrancy : string -> bool.
Variable test_uncheckedReturn : string -> bool.

Local Abbreviation scanned := (scanContractVulnerabilities clock test_reentrancy test_uncheckedReturn).
Local Abbreviation matches := (test test_reentrancy test_uncheckedReturn).

(** X10: the overall risk of a scan is "High" exactly when the reentrancy
    pattern or the text [tx.origin] is found, "Medium" exactly when neither
    is found and one of the three patterns of medium severity is, and "Low"
    exactly when no vulnerability is listed.  A code that contains one of
    the characters [+], [-], [*] and [/] is never rated "Low". *)
Theorem scan_overall_risk address code w :
  let s := fst (scanContractVulnerabilities clock test_reentrancy test_uncheckedReturn
                  address code w) in
  (overallRisk s = "High"
   <-> test_reentrancy code = true \/ includes code "tx.origin" = true)
  /\ (overallRisk s = "Medium"
      <-> test_reentrancy code = false /\ includes code "tx.origin" = false
          /\ (matches IntegerOverflow code = true \/ test_uncheckedReturn code = true
              \/ contains_address code = true))
  /\ (overallRisk s = "Low" <-> vulnerabilities s = [])
  /\ (includes code "+" = true \/ includes code "-" = true
      \/ includes code "*" = true \/ includes code "/" = true ->
      overallRisk s <> "Low").
Proof.
  intros s. subst s. unfold scanContractVulnerabilities, Date_now, found, vulnerabilityDatabase.
  cbn [fst overallRisk vulnerabilities fold_left kv_pattern kv_severity].
  assert (Hops : includes code "+" = true \/ includes code "-" = true
                 \/ includes code "*" = true \/ includes code "/" = true ->
                 matches IntegerOverflow code = true).
  { cbn [test]. intros [-> | [-> | [-> | ->] ] ]; rewrite ?orb_true_r; done. }
  change (test_reentrancy code) with (matches Reentrancy code).
  change (test_uncheckedReturn code) with (matches UncheckedReturn code).
  change (includes code "tx.origin") with (matches TxOrigin code).
  change (contains_address code) with (matches HardcodedAddress code).
  destruct (matches Reentrancy code), (matches IntegerOverflow code),
    (matches UncheckedReturn code), (matches TxOrigin code),
    (matches HardcodedAddress code);
    cbn [app existsb vu_severity]; cbv [bool_decide decide_rel]; simpl;
    (split; [|split; [|split]]);
    [intuition congruence..|intros Hany Hlow; specialize (Hops Hany); congruence].
Qed.

Local Abbreviation checked := (checkContractCompliance clock).

(** The functions of a standard that a code does not mention. *)
Lemma missing_functions code (required : list string) :
  List.filter
    (fun f => negb (bool_decide (f ∈ List.filter (fun func => includes code func) required)))
    required
  = List.filter (fun f => negb (includes code f)) required.
Proof.
  apply filter_ext_in. intros f Hin. f_equal.
  destruct (includes code f) eqn:Hf.
  - apply bool_decide_eq_true_2, list_elem_of_In, filter_In. by split.
  - apply bool_decide_eq_false_2. intros H.
    apply list_elem_of_In, filter_In in H as [_ H]. congruence.
Qed.

Lemma filter_all {A} (f : A -> bool) (l : list A) :
  length (List.filter f l) = length l <-> Forall (fun x => f x = true) l.
Proof.
  induction l as [|x l IH]; simpl; [split; [constructor|done]|].
  pose proof (filter_length_le f l) as Hle.
  destruct (f x) eqn:Hx; simpl.
  - split.
    + intros H. constructor; [done|]. apply IH. lia.
    + intros H. apply Forall_cons in H as [_ H]. apply IH in H. lia.
  - split; [lia|]. intros H. apply Forall_cons in H as [H _]. congruence.
Qed.

Lemma filter_none {A} (f : A -> bool) (l : list A) :
  length (List.filter f l) = 0%nat <-> Forall (fun x => f x = false) l.
Proof.
  induction l as [|x l IH]; simpl; [split; [constructor|done]|].
  destruct (f x) eqn:Hx; simpl.
  - split; [done|]. intros H. apply Forall_cons in H as [H _]. congruence.
  - rewrite IH. split; [by constructor|]. intros H. by apply Forall_cons in H as [_ H].
Qed.

(** X11: the compliance check reports on the three standards ERC-20,
    ERC-721 and EIP-2612, in this order.  For each of them it reports
    [true] exactly when the code mentions every required function
    signature, and [false] exactly when it mentions none of them (and
    'Partial' otherwise); the missing functions it lists are the required
    signatures that the code does not mention, and the number in its
    details is their number. *)
Theorem checkContractCompliance_standards address code w :
  map sr_name (standards (fst (checkContractCompliance clock address code w)))
  = ["ERC-20"; "ERC-721"; "EIP-2612"]
  /\ Forall2
    (fun (entry : string * standard) r =>
       let required := std_functions (snd entry) in
       let missing := List.filter (fun f => negb (includes code f)) required in
       sr_name r = std_name (snd entry)
       /\ (sr_compliant r = Compliant <-> Forall (fun f => includes code f = true) required)
       /\ (sr_compliant r = NotCompliant
           <-> required <> [] /\ Forall (fun f => includes code f = false) required)
       /\ sr_missingFunctions r = missing
       /\ (sr_compliant r <> Compliant ->
           sr_details r
           = "Missing " +:+ pretty (length missing) +:+ " of "
             +:+ pretty (length required) +:+ " required functions"))
    complianceStandards
    (standards (fst (checkContractCompliance clock address code w))).
Proof.
  split.
  { unfold checkContractCompliance, Date_now. cbn [fst standards].
    rewrite map_map. reflexivity. }
  unfold checkContractCompliance, Date_now. cbn [fst standards].
  induction complianceStandards as [|[standardId st] rest IH]; [constructor|].
  cbn [map]. constructor; [|exact IH]. clear IH. cbn [snd]. cbv zeta.
  unfold check_standard. cbv zeta.
  cbn [sr_name sr_compliant sr_missingFunctions sr_details].
  rewrite missing_functions.
  set (required := std_functions st).
  set (implemented := List.filter (fun func => includes code func) required).
  pose proof (filter_length (fun func => includes code func) required) as Hsplit.
  cbv beta in Hsplit. fold implemented in Hsplit.
  pose proof (filter_all (fun func => includes code func) required) as Hall.
  pose proof (filter_none (fun func => includes code func) required) as Hnone.
  fold implemented in Hall, Hnone.
  split; [done|].
  destruct (Nat.eqb_spec (length implemented) (length required)) as [Heq|Hne].
  - split; [split; [intros _; by apply Hall|done]|].
    split.
    { split; [done|]. intros [Hreq Hnot]. apply Hnone in Hnot.
      destruct required; [done|]. simpl in *. lia. }
    split; [|done].
    symmetry. apply length_zero_iff_nil. lia.
  - assert (Hcount : (length required - length implemented)%nat
                     = length (List.filter (fun f => negb (includes code f)) required))
      by lia.
    rewrite Hcount.
    destruct (Nat.ltb_spec 0 (length implemented)) as [Hpos|Hzero].
    + split; [split; [done|intros H; apply Hall in H; lia]|].
      split; [|done].
      split; [done|]. intros [_ Hnot]. apply Hnone in Hnot. lia.
    + split; [split; [done|intros H; apply Hall in H; lia]|].
      split; [|done].
      split; [|done]. intros _. split.
      * intros Hreq. rewrite Hreq in Hne. simpl in Hne. lia.
      * apply Hnone. lia.
Qed.

(** Counting the standards that are met grows with the standards. *)
Lemma compliant_count_mono (l l' : list standard_result) :
  Forall2 (fun r r' => (sr_compliant r = Compliant -> sr_compliant r' = Compliant)
                       /\ (sr_compliant r = Partial -> sr_compliant r' <> NotCompliant))
          l l' ->
  (length (List.filter is_compliant l) <= length (List.filter is_compliant l'))%nat
  /\ ((0 < length (List.filter is_compliant l) + length (List.filter is_partial l))%nat ->
      (0 < length (List.filter is_compliant l') + length (List.filter is_partial l'))%nat)
  /\ length l = length l'.
Proof.
  induction 1 as [|r r' l l' [Hc Hp] _ (IH1 & IH2 & IH3)]; [done|].
  unfold is_compliant, is_partial in *. cbn [List.filter length].
  destruct (sr_compliant r) eqn:Hr, (sr_compliant r') eqn:Hr'; cbn [length];
    try (specialize (Hc eq_refl)); try (specialize (Hp eq_refl));
    try discriminate; try done; (split; [lia|split; [lia|lia]]).
Qed.

(** X12: adding text before and after a code never lowers its compliance:
    a standard that was met stays met, a standard that was met in part is
    not reported unmet, the KYC/AML entry stays 'Partial' if it was, an
    overall compliance "High" stays "High" and an overall compliance
    "Moderate" does not become "Low". *)
Theorem compliance_never_drops_when_code_is_added address code pre post w w' :
  let before := fst (checkContractCompliance clock address code w) in
  let after := fst (checkContractCompliance clock address (pre +:+ code +:+ post) w') in
  Forall2
    (fun r r' =>
       sr_name r' = sr_name r
       /\ (sr_compliant r = Compliant -> sr_compliant r' = Compliant)
       /\ (sr_compliant r = Partial -> sr_compliant r' <> NotCompliant))
    (standards before) (standards after)
  /\ Forall2
       (fun g g' => rg_compliant g = Partial -> rg_compliant g' = Partial)
       (regulations before) (regulations after)
  /\ (overallCompliance before = "High" -> overallCompliance after = "High")
  /\ (overallCompliance before = "Moderate" -> overallCompliance after <> "Low").
Proof.
  intros before after. subst before after.
  unfold checkContractCompliance, Date_now.
  cbn [fst standards regulations overallCompliance].
  set (code' := pre +:+ code +:+ post).
  assert (Hgrow : forall f, includes code f = true -> includes code' f = true)
    by (intros f; apply includes_extend).
  assert (Hstd : forall st,
            let r := check_standard code st in
            let r' := check_standard code' st in
            sr_name r' = sr_name r
            /\ (sr_compliant r = Compliant -> sr_compliant r' = Compliant)
            /\ (sr_compliant r = Partial -> sr_compliant r' <> NotCompliant)).
  { intros st. cbv zeta. unfold check_standard. cbv zeta. cbn [sr_name sr_compliant].
    set (required := std_functions st).
    assert (Hle : (length (List.filter (fun func => includes code func) required)
                   <= length (List.filter (fun func => includes code' func) required))%nat).
    { induction required as [|f required IH]; simpl; [done|].
      destruct (includes code f) eqn:Hf.
      - rewrite (Hgrow f Hf). simpl. lia.
      - destruct (includes code' f); simpl; lia. }
    pose proof (filter_length_le (fun func => includes code' func) required) as Hmax.
    split; [done|].
    destruct (Nat.eqb_spec (length (List.filter (fun func => includes code func) required))
                (length required)) as [Heq|Hne].
    - split; [|done]. intros _.
      destruct (Nat.eqb_spec (length (List.filter (fun func => includes code' func) required))
                  (length required)); [done|lia].
    - destruct (Nat.ltb_spec 0 (length (List.filter (fun func => includes code func) required)));
        [|done].
      split; [done|]. intros _.
      destruct (Nat.eqb_spec (length (List.filter (fun func => includes code' func) required))
                  (length required)); [done|].
      destruct (Nat.ltb_spec 0 (length (List.filter (fun func => includes code' func) required)));
        [done|lia]. }
  assert (Hall : Forall2
            (fun r r' =>
               sr_name r' = sr_name r
               /\ (sr_compliant r = Compliant -> sr_compliant r' = Compliant)
               /\ (sr_compliant r = Partial -> sr_compliant r' <> NotCompliant))
            (map (fun '(standardId, st) => check_standard code st) complianceStandards)
            (map (fun '(standardId, st) => check_standard code' st) complianceStandards)).
  { induction complianceStandards as [|[standardId st] rest IH]; [constructor|].
    cbn [map]. constructor; [apply Hstd|exact IH]. }
  split; [exact Hall|]. split.
  { constructor; [|constructor]. cbn [rg_compliant].
    destruct (includes code "blacklist") eqn:Hblack.
    - by rewrite (Hgrow _ Hblack).
    - destruct (includes code "blocklist") eqn:Hblock; [|done].
      intros _. rewrite (Hgrow _ Hblock). by destruct (includes code' "blacklist"). }
  destruct (compliant_count_mono _ _
              (Forall2_impl _ _ _ _ Hall (fun r r' H => proj2 H)))
    as (Hcount & Hsome & Hlen).
  unfold overall. cbv zeta. rewrite <- Hlen.
  set (n := length (map (fun '(standardId, st) => check_standard code st) complianceStandards)) in *.
  set (c := length (List.filter is_compliant
                      (map (fun '(standardId, st) => check_standard code st)
                           complianceStandards))) in *.
  set (p := length (List.filter is_partial
                      (map (fun '(standardId, st) => check_standard code st)
                           complianceStandards))) in *.
  set (c' := length (List.filter is_compliant
                       (map (fun '(standardId, st) => check_standard code' st)
                            complianceStandards))) in *.
  set (p' := length (List.filter is_partial
                       (map (fun '(standardId, st) => check_standard code' st)
                            complianceStandards))) in *.
  destruct (Nat.leb_spec n (2 * c)), (Nat.leb_spec n (2 * c')); try lia;
    destruct (Nat.ltb_spec 0 c), (Nat.ltb_spec 0 p), (Nat.ltb_spec 0 c'), (Nat.ltb_spec 0 p');
    cbn [orb]; split; intros ?; try done; try discriminate; lia.
Qed.

End ContractAnalysis.

(** ** The risk factors of a wallet and the handlers in front of the services *)

Section WalletFactors.

Import JS Runtime Effect RiskService.

Local Open Scope R_scope.

(** The factors read off the transactions: their names, in order, are
    among three, and the first is there exactly when a blacklisted contract
    was touched. *)
Lemma found_factors_spec txs n :
  let names := map factor (found_factors txs n) in
  sublist names ["Blacklisted Contracts"; "Large Transactions"; "Multiple Approvals"]
  /\ ("Blacklisted Contracts" ∈ names <-> (0 < n)%nat)
  /\ (forall f, f ∈ found_factors txs n -> factor f = "Blacklisted Contracts" ->
        description f = "Interacted with " +:+ pretty n +:+ " known high-risk contracts").
Proof.
  unfold found_factors. cbv zeta.
  destruct (Nat.ltb_spec 0 n) as [Hn|Hn];
    destruct (existsb _ txs);
    destruct (2 <? length _)%nat;
    cbn [app map factor]; (split; [|split]);
    try (intros f Hf Hname;
         repeat (apply elem_of_cons in Hf as [->|Hf]; [try done; try discriminate Hname|]);
         by apply elem_of_nil in Hf).
  all: try (split; [intros _; lia|intros _; apply elem_of_cons; by left]).
  all: try (split; [intros Hin|lia];
            repeat (apply elem_of_cons in Hin as [Hin|Hin]; [discriminate Hin|]);
            by apply elem_of_nil in Hin).
  all: repeat first [apply sublist_nil | apply sublist_skip | apply sublist_cons].
Qed.

Variable rand : nat -> R.
Variable clock : nat -> Z.
Hypothesis rand_unit : forall n, 0 <= rand n < 1.

(** Padding leaves two or more factors alone and adds one of the three
    additional factors to fewer. *)
Lemma pad_factors_spec found w :
  sublist (map factor found)
    ["Blacklisted Contracts"; "Large Transactions"; "Multiple Approvals"] ->
  exists factors w',
    pad_factors rand found w = (Some factors, w')
    /\ (((2 <= length found)%nat /\ factors = found)
        \/ ((length found < 2)%nat
            /\ exists extra, extra ∈ additionalFactors /\ factors = (found ++ [extra])%list)).
Proof.
  intros Hnames. unfold pad_factors.
  destruct (Nat.ltb_spec (length found) 2) as [Hfew|Hmany];
    [|do 2 eexists; split; [reflexivity|by left]].
  unfold mbind, M_bind, bind, random, perform, defined, Math_random. cbv beta iota zeta.
  destruct (additional_factor_defined (rand (draws w)) (rand_unit _)) as [extra Hextra].
  rewrite Hextra.
  assert (Hin : extra ∈ additionalFactors).
  { unfold at_index in Hextra. destruct (_ <? 0)%Z; [done|].
    by apply list_elem_of_lookup_2 in Hextra. }
  assert (Hfresh : existsb (fun f => bool_decide (factor f = factor extra)) found = false).
  { apply not_true_is_false. intros Hex. apply existsb_exists in Hex as (f & Hf & Heq).
    apply bool_decide_eq_true_1 in Heq.
    assert (Hname : factor f ∈ map factor found).
    { apply list_elem_of_fmap_2. by apply list_elem_of_In. }
    apply (fun H => elem_of_sublist _ _ _ H Hnames) in Hname. rewrite Heq in Hname.
    unfold additionalFactors in Hin.
    repeat (apply elem_of_cons in Hin as [->|Hin];
            [simpl in Hname;
             repeat (apply elem_of_cons in Hname as [Hname|Hname]; [discriminate Hname|]);
             by apply elem_of_nil in Hname|]).
    by apply elem_of_nil in Hin. }
  rewrite Hfresh. cbn [negb].
  do 2 eexists. split; [reflexivity|]. right. split; [done|]. by exists extra.
Qed.

(** What [analyzeWalletRisk] returns, for every address that is not a name
    which objects inherit. *)
Lemma analyzeWalletRisk_returns addr w :
  inherited addr = false ->
  exists a w' txs,
    analyzeWalletRisk rand clock addr w = (Some a, w')
    /\ address a = addr
    /\ suspicious a = blacklisted txs
    /\ (20 <= riskScore a <= 100)%Z
    /\ (riskLevel a <> "Low" -> (0 < blacklisted txs)%nat)
    /\ (((2 <= length (found_factors txs (blacklisted txs)))%nat
         /\ riskFactors a = found_factors txs (blacklisted txs))
        \/ ((length (found_factors txs (blacklisted txs)) < 2)%nat
            /\ exists extra,
                 extra ∈ additionalFactors
                 /\ riskFactors a = (found_factors txs (blacklisted txs) ++ [extra])%list)).
Proof.
  intros Hown.
  destruct (pick_transactions_spec rand addr w Hown) as (txs & w1 & Hpick & _).
  destruct (level_and_score_spec rand rand_unit
              (INR (blacklisted txs) / INR (length txs) * 100) w1)
    as (level & score & w2 & Hscore & Hband).
  destruct (found_factors_spec txs (blacklisted txs)) as (Hnames & _).
  destruct (pad_factors_spec (found_factors txs (blacklisted txs)) w2 Hnames)
    as (factors & w3 & Hpad & Hfactors).
  eexists _, _, txs. split.
  { unfold analyzeWalletRisk, mbind, M_bind, bind.
    rewrite Hpick, Hscore, Hpad. unfold now, perform. simpl. reflexivity. }
  cbn [address suspicious riskScore riskLevel riskFactors].
  split; [done|]. split; [done|].
  assert (Hround : forall a b : Z, IZR a <= score < IZR b -> (a <= Math_round score <= b)%Z)
    by (intros; by apply Math_round_between).
  split; [|split; [|exact Hfactors]].
  - destruct Hband as [(_ & _ & Hb)|[(_ & _ & Hb)|(_ & _ & Hb)]].
    + pose proof (Hround 80%Z 100%Z Hb). lia.
    + pose proof (Hround 50%Z 80%Z Hb). lia.
    + pose proof (Hround 20%Z 50%Z Hb). lia.
  - intros Hlevel.
    assert (Hshare : 20 <= INR (blacklisted txs) / INR (length txs) * 100).
    { destruct Hband as [(Hs & _ & _)|[(Hs & _ & _)|(_ & -> & _)]]; [lra|lra|done]. }
    destruct (blacklisted txs) as [|n]; [|lia].
    simpl in Hshare. unfold Rdiv in Hshare. rewrite !Rmult_0_l in Hshare. lra.
Qed.

(** X13: for an address that is not the name of a property which objects
    inherit, and whatever the random draws (each in [0, 1)),
    [analyzeWalletRisk] returns an analysis with one, two or three risk
    factors of distinct names.  The factor "Blacklisted Contracts" is among
    them exactly when the analysis counts a suspicious transaction, its
    description states that count, and it is there whenever the risk level
    is not "Low". *)
Theorem analyzeWalletRisk_risk_factors addr w :
  inherited addr = false ->
  exists a w',
    analyzeWalletRisk rand clock addr w = (Some a, w')
    /\ (1 <= length (riskFactors a) <= 3)%nat
    /\ NoDup (map factor (riskFactors a))
    /\ ("Blacklisted Contracts" ∈ map factor (riskFactors a) <-> (0 < suspicious a)%nat)
    /\ (forall f, f ∈ riskFactors a -> factor f = "Blacklisted Contracts" ->
          description f
          = "Interacted with " +:+ pretty (suspicious a) +:+ " known high-risk contracts")
    /\ (riskLevel a <> "Low" -> "Blacklisted Contracts" ∈ map factor (riskFactors a)).
Proof.
  intros Hown.
  destruct (analyzeWalletRisk_returns addr w Hown)
    as (a & w' & txs & Ha & _ & Hsusp & _ & Hlevel & Hfactors).
  exists a, w'. split; [exact Ha|]. rewrite Hsusp.
  destruct (found_factors_spec txs (blacklisted txs)) as (Hnames & Hblack & Hdescr).
  cbv zeta in Hnames, Hblack.
  set (found := found_factors txs (blacklisted txs)) in *.
  assert (Hlen : (length found <= 3)%nat).
  { apply sublist_length in Hnames. rewrite length_map in Hnames. simpl in Hnames. lia. }
  assert (Hdistinct : NoDup (map factor found)).
  { eapply sublist_NoDup; [|exact Hnames].
    repeat (apply NoDup_cons; split;
            [intros Hin;
             repeat (apply elem_of_cons in Hin as [Hin|Hin]; [discriminate Hin|]);
             by apply elem_of_nil in Hin|]).
    apply NoDup_nil_2. }
  destruct Hfactors as [[Hmany ->]|(Hfew & extra & Hextra & ->)].
  - split; [lia|]. split; [done|]. split; [done|]. split; [done|].
    intros Hl. apply Hblack. by apply Hlevel.
  - assert (Hother : factor extra ∉ ["Blacklisted Contracts"; "Large Transactions";
                                      "Multiple Approvals"]).
    { unfold additionalFactors in Hextra. intros Hin.
      repeat (apply elem_of_cons in Hextra as [->|Hextra];
              [simpl in Hin;
               repeat (apply elem_of_cons in Hin as [Hin|Hin]; [discriminate Hin|]);
               by apply elem_of_nil in Hin|]).
      by apply elem_of_nil in Hextra. }
    rewrite length_app, map_app. simpl length. simpl map.
    split; [lia|]. split; [|split; [|split]].
    + apply NoDup_app. split; [done|]. split; [|apply NoDup_singleton].
      intros name Hname Hsame. apply list_elem_of_singleton in Hsame. subst name.
      apply Hother. by apply (elem_of_sublist _ _ _ Hname Hnames).
    + rewrite elem_of_app, <- Hblack. split; [|by left].
      intros [Hin|Hin]; [done|]. apply list_elem_of_singleton in Hin.
      exfalso. apply Hother. rewrite <- Hin. apply elem_of_cons. by left.
    + intros f Hf Hname. apply elem_of_app in Hf as [Hf|Hf]; [by apply Hdescr|].
      apply list_elem_of_singleton in Hf. subst f.
      exfalso. apply Hother. rewrite Hname. apply elem_of_cons. by left.
    + intros Hl. apply elem_of_app. left. apply Hblack. by apply Hlevel.
Qed.

(** An address that the handler lets through is not a name which objects
    inherit. *)
Lemma regex_not_inherited address :
  RiskController.addressRegex_test address = true -> inherited address = false.
Proof.
  intros Htest. destruct (inherited address) eqn:Hin; [|done].
  apply bool_decide_eq_true in Hin. unfold Object_prototype in Hin.
  repeat (apply elem_of_cons in Hin as [->|Hin]; [by vm_compute in Htest|]).
  by apply elem_of_nil in Hin.
Qed.

(** X14: the wallet handler answers with status 400 unless the address is
    ["0x"] followed by forty hex digits; for such an address, and whatever
    the random draws (each in [0, 1)), it answers with the analysis of that
    address, whose risk score lies between 20 and 100.  It never answers
    with status 500. *)
Theorem wallet_handler_replies address w :
  let reply := fst (fst (RiskController.analyzeWalletRisk rand clock address w)) in
  (RiskController.addressRegex_test address = false ->
   exists message, reply = RiskController.BadRequest message)
  /\ (RiskController.addressRegex_test address = true ->
      exists a, reply = RiskController.Ok a
                /\ RiskService.address a = address
                /\ (20 <= riskScore a <= 100)%Z)
  /\ reply <> RiskController.ServerError.
Proof.
  intros reply. subst reply. unfold RiskController.analyzeWalletRisk.
  destruct (bool_decide_reflect (address = "")) as [->|Hne].
  - cbn [fst]. split; [by eexists|]. split; [|done].
    intros Hok. discriminate Hok.
  - destruct (RiskController.addressRegex_test address) eqn:Htest; cbn [negb].
    + destruct (analyzeWalletRisk_returns address w (regex_not_inherited address Htest))
        as (a & w' & txs & Ha & Haddr & _ & Hscore & _).
      rewrite Ha. cbn [fst].
      split; [done|]. split; [|done]. intros _. by exists a.
    + cbn [fst]. split; [by eexists|]. split; [done|done].
Qed.

End WalletFactors.

Section MintHandler.

Import JS ContractController.

Local Open Scope Q_scope.

Variable StringToNumber : string -> number.
Variable NumberToString : number -> string.

(** X15: for a request whose address is truthy and whose score is a
    number, the mint handler of the contract controller hands the request
    to the service exactly when the score is greater than 0 and at most
    1000.  Every other score, the score 0 among them, is answered with
    status 400 and the message "Valid credit score (0-1000) is required". *)
Theorem mint_handler_score_range (b : gmap string value) address q :
  b !! "address" = Some address ->
  truthy address = true ->
  b !! "score" = Some (Scalar (Num (Fin q))) ->
  (0 < q /\ q <= 1000 ->
   mintCreditScoreNFT StringToNumber NumberToString (Some b)
   = (Minted address (Scalar (Num (Fin q))), []))
  /\ (~ (0 < q /\ q <= 1000) ->
      mintCreditScoreNFT StringToNumber NumberToString (Some b)
      = (BadRequest "Valid credit score (0-1000) is required", []))
  /\ (q == 0 ->
      mintCreditScoreNFT StringToNumber NumberToString (Some b)
      = (BadRequest "Valid credit score (0-1000) is required", [])).
Proof.
  intros Haddr Htruthy Hscore. unfold mintCreditScoreNFT.
  rewrite Haddr, Hscore.
  change (default (Scalar Undefined) (Some address)) with address.
  change (default (Scalar Undefined) (Some (Scalar (Num (Fin q)))))
    with (Scalar (Num (Fin q))).
  rewrite Htruthy. cbn [negb].
  unfold lt_literal, gt_literal. cbn [truthy truthy_scalar ToNumberOf ToNumber].
  assert (Hchoice :
            (0 < q /\ q <= 1000
             /\ negb (negb (Qeq_bool q 0)) || negb (Qle_bool 0 q) || negb (Qle_bool q 1000)
                = false)
            \/ (~ (0 < q /\ q <= 1000)
                /\ negb (negb (Qeq_bool q 0)) || negb (Qle_bool 0 q) || negb (Qle_bool q 1000)
                   = true)).
  { destruct (Qeq_bool q 0) eqn:Hzero; cbn [negb orb].
    - right. apply Qeq_bool_iff in Hzero. split; [|done].
      intros [Hpos _]. rewrite Hzero in Hpos. by apply Qlt_irrefl in Hpos.
    - apply Qeq_bool_neq in Hzero.
      destruct (Qle_bool 0 q) eqn:Hlow; cbn [negb orb].
      + apply Qle_bool_iff in Hlow.
        assert (Hpos : 0 < q).
        { apply Qle_lteq in Hlow as [Hlt|Heq]; [done|]. exfalso. apply Hzero. by symmetry. }
        destruct (Qle_bool q 1000) eqn:Hhigh; cbn [negb].
        * left. apply Qle_bool_iff in Hhigh. done.
        * right. split; [|done]. intros [_ Hle]. apply Qle_bool_iff in Hle. congruence.
      + right. split; [|done]. intros [Hpos _].
        apply Qlt_le_weak, Qle_bool_iff in Hpos. congruence. }
  destruct Hchoice as [(Hpos & Hle & ->)|(Hnot & ->)].
  - split; [done|]. split; [by intros H; destruct H|].
    intros Hzero. rewrite Hzero in Hpos. by apply Qlt_irrefl in Hpos.
  - split; [by intros H|]. split; done.
Qed.

End MintHandler.

(** ** CoinGecko ids, simulated price histories and the mint endpoint *)

Section Coingecko.

Import JS Runtime BlockchainService.

Lemma upper_upper (c : ascii) : RiskService.upper (RiskService.upper c) = RiskService.upper c.
Proof. destruct c as [[] [] [] [] [] [] [] []]; reflexivity. Qed.

Lemma lower_upper (c : ascii) : lower (RiskService.upper c) = lower c.
Proof. destruct c as [[] [] [] [] [] [] [] []]; reflexivity. Qed.

Lemma upper_lower (c : ascii) : RiskService.upper (lower c) = RiskService.upper c.
Proof. destruct c as [[] [] [] [] [] [] [] []]; reflexivity. Qed.

Lemma toUpperCase_idempotent (s : string) :
  RiskService.toUpperCase (RiskService.toUpperCase s) = RiskService.toUpperCase s.
Proof. induction s as [|c s IH]; simpl; [done|]. by rewrite upper_upper, IH. Qed.

Lemma toLowerCase_toUpperCase (s : string) :
  toLowerCase (RiskService.toUpperCase s) = toLowerCase s.
Proof. induction s as [|c s IH]; simpl; [done|]. by rewrite lower_upper, IH. Qed.

Lemma toUpperCase_toLowerCase (s : string) :
  RiskService.toUpperCase (toLowerCase s) = RiskService.toUpperCase s.
Proof. induction s as [|c s IH]; simpl; [done|]. by rewrite upper_lower, IH. Qed.

Lemma toLowerCase_idempotent (s : string) : toLowerCase (toLowerCase s) = toLowerCase s.
Proof.
  induction s as [|c s IH]; simpl; [done|]. rewrite IH. f_equal.
  destruct c as [[] [] [] [] [] [] [] []]; reflexivity.
Qed.

(** No id of the symbol map is empty. *)
Lemma symbolMap_ids (k id : string) : symbolMap !! k = Some id -> id <> "".
Proof.
  unfold symbolMap.
  repeat match goal with
         | |- <[?key := _]> _ !! k = Some id -> _ =>
             destruct (decide (key = k)) as [<-|?];
             [rewrite lookup_insert_eq; by intros [= <-]|rewrite lookup_insert_ne by done]
         end.
  by rewrite lookup_empty.
Qed.

(** X16: for a symbol written in ASCII, [getCoingeckoId] does not depend on
    the case of the letters: the symbol in upper case and the symbol in
    lower case get the id of the symbol itself.  A symbol of the map gets
    the id that the map gives for it in upper case, any other symbol gets
    itself in lower case. *)
Theorem getCoingeckoId_ignores_case (symbol : string) :
  JS.ascii_only symbol = true ->
  getCoingeckoId (RiskService.toUpperCase symbol) = getCoingeckoId symbol
  /\ getCoingeckoId (toLowerCase symbol) = getCoingeckoId symbol
  /\ (forall id, symbolMap !! RiskService.toUpperCase symbol = Some id ->
        getCoingeckoId symbol = id)
  /\ (symbolMap !! RiskService.toUpperCase symbol = None ->
      getCoingeckoId symbol = toLowerCase symbol).
Proof.
  intros _. unfold getCoingeckoId.
  rewrite toUpperCase_idempotent, toLowerCase_toUpperCase, toUpperCase_toLowerCase,
    toLowerCase_idempotent.
  split; [done|]. split; [done|]. split.
  - intros id Hid. rewrite Hid. rewrite bool_decide_eq_false_2; [done|].
    by apply (symbolMap_ids _ _ Hid).
  - by intros ->.
Qed.

End Coingecko.

Section SimulatedHistory.

Import JS Runtime BlockchainService.

Local Open Scope Q_scope.

Variable rand : nat -> Q.
Variable clock : nat -> Z.
Variable COINGECKO_API_KEY : option string.
Variable axios_get_prices : string -> option (list (Z * Q)).
Variable parseInt : string -> option Z.
Hypothesis rand_unit : forall n, 0 <= rand n < 1.

(** As long as the timestamps are valid, the loop of the [catch] block
    appends one point per iteration, a day after the one before, at a price
    within three percent of the one before. *)
Lemma simulate_prices_spec (startTime : Z) (n : nat) : forall i basePrice prices w,
  0 < basePrice ->
  (forall k, (k < n)%nat ->
     valid_time (startTime + (i + Z.of_nat k) * 86400000) = true) ->
  exists new,
    simulate_prices rand startTime i n basePrice prices w
    = (Some (prices ++ new)%list, {| draws := (draws w + n)%nat; ticks := ticks w |})
    /\ length new = n
    /\ (forall k e, new !! k = Some e ->
          pe_timestamp e = (startTime + (i + Z.of_nat k) * 86400000)%Z)
    /\ Series.steps_within basePrice (map pe_price new)
    /\ Forall (fun e => 0 < pe_price e) new.
Proof.
  induction n as [|n IH]; intros i basePrice prices w Hbase Hvalid.
  - exists []. simpl. rewrite app_nil_r, Nat.add_0_r. by destruct w.
  - cbn [simulate_prices]. unfold Math_random. cbv beta iota zeta.
    pose proof (rand_unit (draws w)) as Hr.
    set (next := basePrice * (1 + (rand (draws w) * (6 # 100) - (3 # 100)))).
    assert (Hnext : (969 # 1000) * basePrice <= next /\ next <= (1031 # 1000) * basePrice)
      by (subst next; split; Lqa.nra).
    assert (Hpos : 0 < next) by Lqa.lra.
    set (e := {| pe_timestamp := (startTime + i * (24 * 60 * 60 * 1000))%Z;
                 pe_price := next |}).
    assert (Hnow : valid_time (startTime + i * (24 * 60 * 60 * 1000)) = true).
    { specialize (Hvalid 0%nat ltac:(lia)).
      replace (startTime + i * (24 * 60 * 60 * 1000))%Z
        with (startTime + (i + Z.of_nat 0) * 86400000)%Z by lia.
      exact Hvalid. }
    rewrite Hnow.
    destruct (IH (i + 1)%Z next (prices ++ [e])%list
                {| draws := S (draws w); ticks := ticks w |} Hpos)
      as (new & Hrun & Hlen & Htime & Hsteps & Hall).
    { intros k Hk. specialize (Hvalid (S k) ltac:(lia)).
      replace (startTime + (i + 1 + Z.of_nat k) * 86400000)%Z
        with (startTime + (i + Z.of_nat (S k)) * 86400000)%Z by lia.
      exact Hvalid. }
    exists (e :: new). rewrite Hrun. cbn [draws ticks].
    split; [|split; [|split; [|split]]].
    + rewrite <- app_assoc. replace (S (draws w) + n)%nat with (draws w + S n)%nat by lia.
      done.
    + simpl. by rewrite Hlen.
    + intros [|k] e' He'.
      * injection He' as <-. subst e. cbn [pe_timestamp]. lia.
      * rewrite (Htime k e' He'). lia.
    + cbn [map Series.steps_within]. subst e. cbn [pe_price]. tauto.
    + by constructor.
Qed.

(** X17: when the request for the prices fails, [getHistoricalPriceData]
    falls back on a simulated history.  If [days] is not a number the
    history is empty.  If it is a number of at most 10000 and the time that
    many days before the call is one that [Date] can print, the function
    resolves with a history marked [simulated] for the symbol (written in
    ASCII) in upper case: it has [days + 1] points (none when that is
    negative), one per day, the last of them at the time of the call; each
    price is positive and within 3.1 percent of the price before it, the
    first one of the base price 65000 for the symbol "BTC" and 3500 for
    every other symbol.  If the time [days] days before the call is not one
    that [Date] can print, the function throws instead. *)
Theorem getHistoricalPriceData_simulated symbol days_given w :
  axios_get_prices (market_chart_url COINGECKO_API_KEY symbol (default "30" days_given))
  = None ->
  JS.ascii_only symbol = true ->
  valid_time (clock (ticks w)) = true ->
  let result := fst (fst (getHistoricalPriceData rand clock COINGECKO_API_KEY axios_get_prices
                            parseInt symbol days_given w)) in
  let now := clock (ticks w) in
  (parseInt (default "30" days_given) = None ->
   exists h, result = Some h /\ hs_simulated h = true /\ hs_prices h = [])
  /\ (forall n, parseInt (default "30" days_given) = Some n ->
        (n <= 10000)%Z ->
        valid_time (now - n * 86400000) = true ->
        exists h,
          result = Some h
          /\ hs_simulated h = true
          /\ hs_symbol h = RiskService.toUpperCase symbol
          /\ length (hs_prices h) = Z.to_nat (n + 1)
          /\ (forall k e, hs_prices h !! k = Some e ->
                pe_timestamp e = (now - (n - Z.of_nat k) * 86400000)%Z)
          /\ Series.steps_within (if bool_decide (symbol = "BTC") then 65000 else 3500)
               (map pe_price (hs_prices h))
          /\ Forall (fun e => 0 < pe_price e) (hs_prices h))
  /\ (forall n, parseInt (default "30" days_given) = Some n ->
        (0 <= n)%Z ->
        valid_time (now - n * 86400000) = false ->
        result = None).
Proof.
  intros Hfail _ Hnow result now. subst result now.
  unfold getHistoricalPriceData. cbv zeta.
  rewrite Hfail. unfold Date_now. cbv beta iota zeta.
  set (base := if bool_decide (symbol = "BTC") then 65000 else 3500).
  assert (Hbase : 0 < base) by (subst base; by destruct (bool_decide _)).
  split; [|split].
  - intros ->. cbn [fst]. eexists. split; [reflexivity|]. done.
  - intros n -> _ Hstart.
    destruct (simulate_prices_spec (clock (ticks w) - n * 24 * 60 * 60 * 1000)
                (Z.to_nat (n + 1)) 0 base []
                {| draws := draws w; ticks := S (ticks w) |} Hbase)
      as (new & Hrun & Hlen & Htime & Hsteps & Hall).
    { intros k Hk. unfold valid_time in *.
      apply andb_true_iff in Hnow as [Hn1 Hn2]. apply andb_true_iff in Hstart as [Hs1 Hs2].
      apply andb_true_iff. split.
      - apply Z.leb_le in Hs1. apply Z.leb_le. lia.
      - apply Z.leb_le in Hn2. apply Z.leb_le. lia. }
    rewrite Hrun. cbn [fst hs_simulated hs_symbol hs_prices app].
    eexists. split; [reflexivity|]. cbn [hs_simulated hs_symbol hs_prices].
    split; [done|]. split; [done|]. split; [done|]. split; [|done].
    intros k e He. rewrite (Htime k e He). lia.
  - intros n -> Hn Hstart.
    replace (Z.to_nat (n + 1)) with (S (Z.to_nat n)) by lia.
    cbn [simulate_prices]. unfold Math_random. cbv beta iota zeta.
    replace (clock (ticks w) - n * 24 * 60 * 60 * 1000 + 0 * (24 * 60 * 60 * 1000))%Z
      with (clock (ticks w) - n * 86400000)%Z by lia.
    by rewrite Hstart.
Qed.

End SimulatedHistory.

Section MintEndpoint.

Import JS Runtime BlockchainController.

Variable rand : nat -> Q.
Variable clock : nat -> Z.

(** Whatever the chain does, the blockchain service resolves a mint with
    [success: true] for the wallet and the score it was given. *)
Lemma mint_result_fields c addr sc ad w :
  let m := fst (fst (BlockchainService.mintCreditScoreNFT rand clock c addr sc ad w)) in
  BlockchainService.success m = true
  /\ BlockchainService.walletAddress m = addr
  /\ BlockchainService.creditScore m = sc.
Proof.
  cbv zeta. unfold BlockchainService.mintCreditScoreNFT.
  destruct (BlockchainService.mint_try rand clock c addr sc ad w) as [[[msg|m] logs] w1] eqn:Htry.
  - unfold BlockchainService.mint_fallback, Date_now. cbv beta iota zeta.
    destruct (BlockchainService.hex_digits rand 64 _) as [ds w2]. by cbn.
  - cbn [fst]. revert Htry. unfold BlockchainService.mint_try.
    destruct (BlockchainService.nftContract c) as [contract|]; [|done].
    destruct (negb _); [done|].
    destruct (BlockchainService.createCreditScoreMetadata _ _ _ _ _ _)
      as [[[msg|uri] logs'] w2]; [done|].
    destruct (contract addr uri) as [msg|rc]; [done|].
    destruct (BlockchainService.events rc) as [evs|]; [|done].
    destruct (List.find _ evs) as [ev|]; [|done].
    destruct (BlockchainService.args_tokenId ev) as [tid|]; [|done].
    by intros [= <- _ _].
Qed.

(** X18: the mint handler of the blockchain controller, on a request that
    has a body and a user, answers with status 400 exactly when the wallet
    address is missing or empty, the credit score is missing, NaN or 0, or
    the address validation of the chain rejects the address; in every
    other case it answers with the service's result, which has
    [success: true] and carries the wallet address and the score of the
    request.  It never answers with status 500. *)
Theorem mint_endpoint_replies c b u w :
  let reply :=
    fst (fst (mintCreditScoreNFT rand clock c
                {| req_body := Some b; req_user := Some u |} w)) in
  let rejected :=
    AuthMiddleware.missing (b_walletAddress b)
    || invalid_score (b_creditScore b)
    || negb (BlockchainService.isValidAddress c (default "" (b_walletAddress b))) in
  (rejected = true -> exists message, reply = BadRequest message)
  /\ (rejected = false ->
      exists m, reply = Ok m
                /\ BlockchainService.success m = true
                /\ b_walletAddress b = Some (BlockchainService.walletAddress m)
                /\ b_creditScore b = Some (BlockchainService.creditScore m))
  /\ (forall error, reply <> ServerError error).
Proof.
  cbv zeta. unfold mintCreditScoreNFT. cbn [req_body req_user].
  destruct (AuthMiddleware.missing (b_walletAddress b)) eqn:Hwallet; cbn [orb fst].
  { split; [by eexists|]. by split. }
  destruct (invalid_score (b_creditScore b)) eqn:Hscore; cbn [orb fst].
  { split; [by eexists|]. by split. }
  destruct (negb (BlockchainService.isValidAddress c _)) eqn:Hvalid; cbn [fst].
  { split; [by eexists|]. by split. }
  pose proof (mint_result_fields c (default "" (b_walletAddress b))
                (default NaN (b_creditScore b)) (Some (default [] (b_additionalData b))) w)
    as (Hok & Haddr & Hsc).
  destruct (BlockchainService.mintCreditScoreNFT _ _ _ _ _ _ _) as [[m logs] w1].
  cbn [fst] in *. split; [done|]. split; [|done]. intros _.
  exists m. split; [done|]. split; [done|]. rewrite Haddr, Hsc.
  destruct (b_walletAddress b); [|done]. destruct (b_creditScore b); done.
Qed.

End MintEndpoint.

(** ** Mock banking: accounts, the transactions endpoint and the spending analysis *)

Section BankAccounts.

Import JS Runtime MockBankingService.

Local Open Scope Q_scope.

Variable rand : nat -> Q.
Variable clock : nat -> Z.
Variable toString36 : Q -> string.
Variable isoDaysBefore : Z -> Z -> string.
Hypothesis rand_unit : forall n, 0 <= rand n < 1.

(** The number at the end of an account number has four digits. *)
Lemma account_number_range (r : Q) :
  0 <= r < 1 -> (1000 <= Qfloor (1000 + r * 9000) <= 9999)%Z.
Proof.
  intros [H0 H1]. split.
  - assert (H : (Qfloor 1000 <= Qfloor (1000 + r * 9000))%Z)
      by (apply Qfloor_resp_le; Lqa.lra).
    exact H.
  - assert (H : (Qfloor (1000 + r * 9000) < 10000)%Z); [|lia].
    rewrite Zlt_Qlt. eapply Qle_lt_trans; [apply Qfloor_le|].
    change (inject_Z 10000) with 10000. Lqa.lra.
Qed.

Lemma balance_range (min max r : Q) :
  min < max -> 0 <= r < 1 -> min <= r * (max - min) + min < max.
Proof. intros Hlt [H0 H1]. split; Lqa.nra. Qed.

(** X19: [getBankAccounts] resolves with the customer id of the user and
    three accounts: a checking account, a savings account and a credit
    card.  Whatever numbers in [0, 1) are drawn, each account number is
    ["XXXX-XXXX-"] followed by a number of four digits, and each balance is
    the print with two decimals of a number in the range of its account:
    from 1500 to 8000, from 5000 to 25000 and from 100 to 3000.  Twelve
    random numbers are drawn and the clock is read three times. *)
Theorem getBankAccounts_accounts userId w :
  let r := getBankAccounts rand clock toString36 userId w in
  customerId (fst r) = "mock-customer-" +:+ userId
  /\ map acc_name (accounts_of (fst r)) = ["Primary Checking"; "Savings Account"; "Credit Card"]
  /\ Forall (fun a => exists n : Z,
                        accountNumber a = "XXXX-XXXX-" +:+ pretty n /\ (1000 <= n <= 9999)%Z)
            (accounts_of (fst r))
  /\ Forall2 (fun a (range : Q * Q) =>
                exists x, balance a = toFixed2 x /\ fst range <= x < snd range)
             (accounts_of (fst r)) [(1500, 8000); (5000, 25000); (100, 3000)]
  /\ snd r = {| draws := (draws w + 12)%nat; ticks := (ticks w + 3)%nat |}.
Proof.
  cbv zeta.
  unfold getBankAccounts, account_id, generateAccountNumber, generateBalance,
    Math_random, Date_now.
  cbv beta iota zeta. cbn [fst snd customerId accounts_of draws ticks map acc_name].
  split; [done|]. split; [done|]. split; [|split].
  - repeat constructor; cbn [accountNumber]; eexists; (split; [reflexivity|]);
      apply account_number_range, rand_unit.
  - repeat constructor; cbn [balance fst snd]; eexists; (split; [reflexivity|]);
      (apply balance_range; [reflexivity|apply rand_unit]).
  - f_equal; lia.
Qed.

Local Arguments generate : simpl never.


End BankAccounts.

Section TransactionsEndpoint.

Import JS Runtime BankingController.

Variable rand : nat -> Q.
Variable clock : nat -> Z.
Variable toString36 : Q -> string.
Variable isoDaysBefore : Z -> Z -> string.
Variable parseInt : string -> option Z.

Local Abbreviation handler :=
  (BankingController.getAccountTransactions rand clock toString36 isoDaysBefore parseInt).


End TransactionsEndpoint.

(** ** Mock banking: the spending analysis *)

Section SpendingAnalysis.

Import JS Runtime MockBankingService.

Local Open Scope Q_scope.

Lemma sumQ_from (l : list Q) : forall a, fold_left Qplus l a == a + sumQ l.
Proof.
  unfold sumQ. induction l as [|x l IH]; intros a; simpl; [ring|].
  rewrite (IH (a + x)), (IH (0 + x)). ring.
Qed.

Lemma sumQ_cons (x : Q) (l : list Q) : sumQ (x :: l) == x + sumQ l.
Proof. unfold sumQ at 1. simpl. rewrite sumQ_from. ring. Qed.

(** Rounding a number that is a whole number plus a half, downwards. *)
Lemma Qfloor_half (n : Z) : Qfloor (inject_Z n + (1 # 2)) = n.
Proof.
  pose proof (Qfloor_le (inject_Z n + (1 # 2))) as Hle.
  pose proof (Qlt_floor (inject_Z n + (1 # 2))) as Hlt.
  set (f := Qfloor _) in *.
  assert (H1 : (f < n + 1)%Z).
  { rewrite Zlt_Qlt, inject_Z_plus. change (inject_Z 1) with 1. Lqa.lra. }
  assert (H2 : (n < f + 1)%Z).
  { rewrite Zlt_Qlt. rewrite inject_Z_plus in *. change (inject_Z 1) with 1 in *. Lqa.lra. }
  lia.
Qed.

Lemma fixed2_nonneg (x : Q) : 0 <= x -> fixed2 x = inject_Z (cents x) / 100 /\ (0 <= cents x)%Z.
Proof.
  intros Hx. unfold fixed2. rewrite (proj2 (Qle_bool_iff 0 x) Hx). split; [done|].
  unfold cents.
  assert (H : (Qfloor 0 <= Qfloor (x * 100 + (1 # 2)))%Z)
    by (apply Qfloor_resp_le; Lqa.lra).
  exact H.
Qed.

Lemma fixed2_positive (x : Q) : 1 <= x -> 0 < fixed2 x.
Proof.
  intros Hx. destruct (fixed2_nonneg x) as [-> _]; [Lqa.lra|].
  assert (H : (Qfloor 100 <= cents x)%Z).
  { unfold cents. apply Qfloor_resp_le. Lqa.lra. }
  change (Qfloor 100) with 100%Z in H. rewrite Zle_Qle in H.
  change (inject_Z 100) with 100 in H.
  apply Qlt_shift_div_l; Lqa.lra.
Qed.

(** A sum of amounts of whole cents is an amount of whole cents. *)
Lemma sum_of_cents (raw : list Q) :
  Forall (fun x => 0 <= x) raw ->
  exists c : Z, (0 <= c)%Z /\ sumQ (map fixed2 raw) == inject_Z c / 100.
Proof.
  induction 1 as [|x raw Hx _ (c & Hc & IH)].
  - exists 0%Z. split; [done|]. reflexivity.
  - destruct (fixed2_nonneg x Hx) as [Hfixed Hcents].
    exists (cents x + c)%Z. split; [lia|].
    cbn [map]. rewrite sumQ_cons, IH, Hfixed, inject_Z_plus. field.
Qed.

(** Printing an amount of whole cents with two decimals loses nothing. *)
Lemma fixed2_of_cents (total : Q) (c : Z) :
  (0 <= c)%Z -> total == inject_Z c / 100 -> fixed2 total == total.
Proof.
  intros Hc Htotal.
  assert (H0 : 0 <= total).
  { rewrite Htotal. rewrite Zle_Qle in Hc. change (inject_Z 0) with 0 in Hc.
    apply Qle_shift_div_l; Lqa.lra. }
  destruct (fixed2_nonneg total H0) as [-> _].
  unfold cents.
  assert (Hfloor : Qfloor (total * 100 + (1 # 2)) = c).
  { rewrite <- (Qfloor_half c). apply Qfloor_comp. rewrite Htotal. field. }
  rewrite Hfloor. by rewrite Htotal.
Qed.

(** Printing with one decimal moves a number by a twentieth at most. *)
Lemma fixed1_near (y : Q) : 0 <= y -> y - (1 # 20) <= fixed1 y <= y + (1 # 20).
Proof.
  intros Hy. unfold fixed1. rewrite (proj2 (Qle_bool_iff 0 y) Hy). unfold tenths.
  pose proof (Qfloor_le (y * 10 + (1 # 2))) as Hle.
  pose proof (Qlt_floor (y * 10 + (1 # 2))) as Hlt.
  rewrite inject_Z_plus in Hlt. change (inject_Z 1) with 1 in Hlt.
  set (t := inject_Z (Qfloor _)) in *.
  split.
  - apply Qle_shift_div_l; Lqa.lra.
  - apply Qle_shift_div_r; Lqa.lra.
Qed.

Lemma share_nonneg (a total : Q) : 0 <= a -> 0 < total -> 0 <= a / total * 100.
Proof.
  intros Ha Htotal.
  assert (H : 0 <= a / total) by (apply Qle_shift_div_l; Lqa.lra).
  Lqa.lra.
Qed.

(** The printed shares of a list of amounts, against the shares. *)
Lemma shares_near (total : Q) (l : list Q) :
  0 < total -> Forall (fun a => 0 <= a) l ->
  let printed := sumQ (map (fun a => fixed1 (a / total * 100)) l) in
  let exact := sumQ l / total * 100 in
  exact - inject_Z (Z.of_nat (length l)) * (1 # 20) <= printed
  /\ printed <= exact + inject_Z (Z.of_nat (length l)) * (1 # 20).
Proof.
  intros Htotal. cbv zeta. induction 1 as [|a l Ha _ [IH1 IH2]].
  - change (sumQ []) with 0. cbn [map length]. change (sumQ []) with 0.
    change (inject_Z (Z.of_nat 0)) with 0.
    assert (H : 0 / total * 100 == 0) by (field; Lqa.lra).
    rewrite H. Lqa.lra.
  - cbn [map length]. rewrite !sumQ_cons.
    destruct (fixed1_near _ (share_nonneg a total Ha Htotal)) as [H1 H2].
    rewrite Nat2Z.inj_succ, <- Z.add_1_r, inject_Z_plus. change (inject_Z 1) with 1.
    assert (Hsplit : (a + sumQ l) / total * 100 == a / total * 100 + sumQ l / total * 100)
      by (field; Lqa.lra).
    rewrite Hsplit. Lqa.lra.
Qed.

Variable rand : nat -> Q.
Hypothesis rand_unit : forall n, 0 <= rand n < 1.

Lemma amount_range (factor offset r : Q) :
  0 <= factor -> 0 <= r < 1 -> offset <= r * factor + offset <= offset + factor.
Proof. intros Hf [H0 H1]. split; Lqa.nra. Qed.

(** X21: the spending analysis of the mock service draws eight amounts, one
    for each category, each between the offset of its category and the
    offset plus the factor, and prints them with two decimals.  The total
    that it prints is exactly the sum of the amounts as printed: nothing is
    lost by rounding the total.  Each percentage is a number within a
    millionth of the share of the printed amount in that total, printed
    with one decimal; as numbers the printed percentages add up to 100
    within 0.4. *)
Theorem analyzeSpending_totals userId w :
  let r := fst (analyzeSpending rand userId w) in
  exists raw shares : list Q,
    let total := sumQ (map fixed2 raw) in
    Forall2 (fun x (c : string * Q * Q) => snd c <= x <= snd c + snd (fst c))
            raw spending_categories
    /\ map sp_name (spend_categories r) = map (fun c => fst (fst c)) spending_categories
    /\ map sp_amount (spend_categories r) = map toFixed2 raw
    /\ Forall2 (fun p x => Qabs (p - fixed2 x / total * 100) <= 1 # 1000000) shares raw
    /\ map sp_percentage (spend_categories r) = map toFixed1 shares
    /\ totalSpending r = toFixed2 total
    /\ fixed2 total == total
    /\ Qabs (sumQ (map fixed1 shares) - 100) <= 4 # 10.
Proof.
  cbv zeta.
  set (raw := fst (draw_amounts rand
                     (map (fun c => (snd (fst c), snd c)) spending_categories) w)).
  exists raw, (map (fun x => fixed2 x / sumQ (map fixed2 raw) * 100) raw).
  rewrite !map_map.
  assert (Hrange : Forall2 (fun x (c : string * Q * Q) => snd c <= x <= snd c + snd (fst c))
                     raw spending_categories).
  { subst raw. unfold spending_categories. cbn [map draw_amounts fst snd].
    unfold Math_random. cbv beta iota zeta. cbn [fst snd draws ticks].
    repeat constructor; cbn [fst snd]; (apply amount_range; [done|apply rand_unit]). }
  assert (Hlen : length raw = 8%nat) by (by rewrite (Forall2_length _ _ _ Hrange)).
  assert (Hone : Forall (fun x => 1 <= x) raw).
  { clear Hlen. revert Hrange. generalize raw. unfold spending_categories.
    intros l Hl. repeat (inversion Hl as [|x c l0 l1 [Hlo _] Hrest]; subst l; clear Hl);
      repeat match goal with H : Forall2 _ _ _ |- _ => inversion H; subst; clear H end.
    repeat constructor; cbn [snd fst] in *; Lqa.lra. }
  split; [exact Hrange|].
  assert (Hnonneg : Forall (fun x => 0 <= x) raw).
  { eapply Forall_impl; [exact Hone|]. intros x Hx. cbv beta in *. Lqa.lra. }
  destruct (sum_of_cents raw Hnonneg) as (c & Hc & Hsum).
  assert (Hpos : 0 < sumQ (map fixed2 raw)).
  { destruct raw as [|x raw']; [done|]. cbn [map]. rewrite sumQ_cons.
    apply Forall_cons in Hone as [Hx Hone']. apply Forall_cons in Hnonneg as [_ Hnonneg'].
    destruct (sum_of_cents raw' Hnonneg') as (c' & Hc' & Hsum').
    pose proof (fixed2_positive x Hx) as Hfx.
    rewrite Hsum'. rewrite Zle_Qle in Hc'. change (inject_Z 0) with 0 in Hc'.
    assert (H : 0 <= inject_Z c' / 100) by (apply Qle_shift_div_l; Lqa.lra).
    Lqa.lra. }
  assert (Hcats :
    spend_categories (fst (analyzeSpending rand userId w))
    = zip_with (fun name x =>
                  {| sp_name := name; sp_amount := toFixed2 x;
                     sp_percentage := toFixed1 (fixed2 x / sumQ (map fixed2 raw) * 100) |})
               (map (fun c => fst (fst c)) spending_categories) raw
    /\ totalSpending (fst (analyzeSpending rand userId w)) = toFixed2 (sumQ (map fixed2 raw))).
  { unfold analyzeSpending. subst raw.
    destruct (draw_amounts rand (map _ spending_categories) w) as [raw w1].
    cbv zeta. destruct (draw_amounts rand _ w1) as [monthly w2]. done. }
  destruct Hcats as [Hcats Htotal]. rewrite Hcats, Htotal.
  assert (Hnames : length (map (fun c : string * Q * Q => fst (fst c)) spending_categories)
                   = length raw) by (by rewrite Hlen).
  revert Hnames. generalize (map (fun c : string * Q * Q => fst (fst c)) spending_categories).
  intros names Hnames.
  split.
  { clear -Hnames. generalize (sumQ (map fixed2 raw)). intros total. revert names Hnames.
    induction raw as [|x raw IH]; intros [|name names] Hnames; try done.
    cbn [zip_with map sp_name]. f_equal. apply IH. by injection Hnames. }
  split.
  { clear -Hnames. generalize (sumQ (map fixed2 raw)). intros total. revert names Hnames.
    induction raw as [|x raw IH]; intros [|name names] Hnames; try done.
    cbn [zip_with map sp_amount]. f_equal. apply IH. by injection Hnames. }
  split.
  { apply Forall2_fmap_l, Forall_Forall2_diag, Forall_forall. intros x _.
    apply Qabs_Qle_condition. split; Lqa.lra. }
  split.
  { clear -Hnames. generalize (sumQ (map fixed2 raw)). intros total. revert names Hnames.
    induction raw as [|x raw IH]; intros [|name names] Hnames; try done.
    cbn [zip_with map sp_percentage]. f_equal. apply IH. by injection Hnames. }
  split; [reflexivity|].
  split; [exact (fixed2_of_cents _ c Hc Hsum)|].
  assert (Hfixed : Forall (fun a => 0 <= a) (map fixed2 raw)).
  { apply Forall_fmap. eapply Forall_impl; [exact Hone|].
    intros x Hx. cbv beta in *. apply Qlt_le_weak, fixed2_positive, Hx. }
  destruct (shares_near (sumQ (map fixed2 raw)) (map fixed2 raw) Hpos Hfixed) as [H1 H2].
  rewrite map_map in H1, H2. rewrite length_map, Hlen in H1, H2.
  change (inject_Z (Z.of_nat 8)) with 8 in H1, H2.
  assert (Hall : sumQ (map fixed2 raw) / sumQ (map fixed2 raw) * 100 == 100)
    by (field; Lqa.lra).
  rewrite Hall in H1, H2.
  apply Qabs_Qle_condition. split; Lqa.lra.
Qed.

End SpendingAnalysis.

(** ** Recorded bank accounts: transactions, categories and spending patterns *)

Section Categories.

Import BlockchainService ContractService BankingService.

Lemma toLowerCase_append (s t : string) :
  toLowerCase (s +:+ t) = toLowerCase s +:+ toLowerCase t.
Proof.
  induction s as [|c s IH]; [done|].
  change (String c s +:+ t) with (String c (s +:+ t)). cbn [toLowerCase].
  rewrite IH. reflexivity.
Qed.

(** X22: the category of a description does not depend on the case of its
    ASCII letters, it is one of the eleven categories, and a description
    that has the word salary or the word deposit in it, in whatever case,
    is income whatever else it has. *)
Theorem categorizeTransaction_keywords (description pre word post : string) :
  categorizeTransaction (RiskService.toUpperCase description)
  = categorizeTransaction description
  /\ categorizeTransaction description
     ∈ ["income"; "groceries"; "dining"; "transportation"; "utilities"; "transfer";
        "interest"; "payment"; "shopping"; "subscription"; "other"]
  /\ (toLowerCase word = "salary" \/ toLowerCase word = "deposit" ->
      categorizeTransaction (pre +:+ word +:+ post) = "income").
Proof.
  split; [|split].
  - unfold categorizeTransaction. by rewrite toLowerCase_toUpperCase.
  - unfold categorizeTransaction. cbv zeta.
    repeat match goal with
           | |- context [if ?b then _ else _] => destruct b
           end;
      repeat first [apply list_elem_of_here | apply list_elem_of_further].
  - intros Hword. unfold categorizeTransaction. cbv zeta. rewrite !toLowerCase_append.
    assert (Hhas : includes (toLowerCase pre +:+ toLowerCase word +:+ toLowerCase post)
                     (toLowerCase word) = true).
    { apply includes_occurs. by do 2 eexists. }
    destruct Hword as [Hw|Hw]; rewrite Hw in Hhas; rewrite Hw, Hhas.
    + reflexivity.
    + by rewrite orb_true_r.
Qed.

End Categories.

Section RecordedTransactions.

Import JS BankingService.

Local Open Scope Q_scope.

Variable parseDate : string -> option Z.

Lemma user_accounts (userId : string) :
  default [] (mockBankAccounts !! userId)
  = if decide (userId = "user123") then user123_accounts
    else if decide (userId = "user456") then user456_accounts
    else [].
Proof.
  unfold mockBankAccounts.
  destruct (decide (userId = "user123")) as [->|?];
    [by rewrite lookup_insert_eq|rewrite lookup_insert_ne by done].
  destruct (decide (userId = "user456")) as [->|?];
    [by rewrite lookup_insert_eq|rewrite lookup_insert_ne by done].
  by rewrite lookup_empty.
Qed.

Lemma filter_sublist {A} (f : A -> bool) (l : list A) : sublist (List.filter f l) l.
Proof.
  induction l as [|x l IH]; simpl; [constructor|].
  destruct (f x); by constructor.
Qed.

(** A filter that is applied only when its option is given. *)
Lemma optional_filter {A B} (o : option B) (f : B -> A -> bool) (l : list A) :
  let r := match o with
           | Some x => List.filter (f x) l
           | None => l
           end in
  sublist r l
  /\ (forall a, a ∈ r <-> a ∈ l /\ forall x, o = Some x -> f x a = true).
Proof.
  destruct o as [x|]; cbv zeta.
  - split; [apply filter_sublist|]. intros a.
    rewrite !list_elem_of_In, filter_In. split.
    + intros [Hin Hf]. split; [done|]. by intros ? [= <-].
    + intros [Hin Hf]. split; [done|]. by apply Hf.
  - split; [done|]. intros a. split; [|by intros []]. by intros Hin.
Qed.

(** The names that objects inherit are not those of the users. *)
Lemma lookup_accounts_spec (userId : string) :
  if inherited userId
  then mockBankAccounts !! userId = None
       /\ lookup_accounts userId
          = (if bool_decide (userId = "__proto__") then PrototypeObject
             else InheritedFunction (function_length userId))
  else lookup_accounts userId = AccountArray (default [] (mockBankAccounts !! userId)).
Proof.
  unfold lookup_accounts.
  destruct (inherited userId) eqn:Hinh.
  - assert (Hnone : mockBankAccounts !! userId = None).
    { unfold mockBankAccounts.
      rewrite !lookup_insert_ne by (intros <-; discriminate Hinh). apply lookup_empty. }
    by rewrite Hnone.
  - by destruct (mockBankAccounts !! userId).
Qed.

(** What [fetch_from] finds is one of the accounts and a selection of its
    transactions. *)
Lemma fetch_selects (userAccounts : list account) accountId opts :
  match fetch_from parseDate userAccounts accountId opts with
  | NotFound error =>
      error = "Account not found"
      /\ forall acc, acc ∈ userAccounts -> acc_id acc <> accountId
  | Found a p txs =>
      a = accountId
      /\ exists acc sel,
           acc ∈ userAccounts
           /\ acc_id acc = accountId
           /\ p = provider acc
           /\ txs = map list_transaction sel
           /\ sublist sel (transactions acc)
  | NeverFetched => False
  end.
Proof.
  unfold fetch_from. cbv zeta.
  destruct (List.find _ _) as [acc|] eqn:Hfind.
  - apply find_some in Hfind as [Hin Hid]. apply bool_decide_eq_true in Hid.
    apply list_elem_of_In in Hin.
    split; [done|]. do 2 eexists.
    split; [exact Hin|]. split; [exact Hid|]. split; [reflexivity|]. split; [reflexivity|].
    etrans; [|apply (optional_filter (given (dateFrom opts))
                       (fun from tx => date_ge parseDate (tx_date tx) from))].
    etrans; [|apply (optional_filter (given (dateTo opts))
                       (fun to tx => date_ge parseDate to (tx_date tx)))].
    etrans; [|apply (optional_filter (given (type opts))
                       (fun t tx => bool_decide (tx_type tx = t)))].
    destruct (positive_limit (limit opts)); [apply sublist_take|done].
  - split; [done|]. intros acc Hacc Hid.
    apply list_elem_of_In in Hacc.
    pose proof (find_none _ _ Hfind acc Hacc) as Hno. cbv beta in Hno.
    by apply bool_decide_eq_false in Hno.
Qed.

(** X23: for a [userId] that is the name of a property which objects
    inherit from [Object.prototype], the callback of
    [fetchAccountTransactions] throws and the promise is never settled.
    For every other [userId], the function answers that the account is not
    found exactly when the user has no recorded account of the id.
    Otherwise it answers with the id, the provider of the account and a
    selection of the account's transactions in their order: each selected
    transaction is on or after [dateFrom], on or before [dateTo] and of the
    type asked for, for those of the three that are given; with a limit
    greater than 0 at most the limit, rounded down, are selected; and
    without such a limit every transaction of the account that passes the
    filters is. *)
Theorem fetchAccountTransactions_filters userId accountId opts :
  match fetchAccountTransactions parseDate userId accountId opts with
  | NeverFetched => inherited userId = true
  | NotFound error =>
      inherited userId = false
      /\ error = "Account not found"
      /\ forall acc, acc ∈ default [] (mockBankAccounts !! userId) -> acc_id acc <> accountId
  | Found a p txs =>
      inherited userId = false
      /\ a = accountId
      /\ exists acc sel,
           acc ∈ default [] (mockBankAccounts !! userId)
           /\ acc_id acc = accountId
           /\ p = provider acc
           /\ txs = map list_transaction sel
           /\ sublist sel (transactions acc)
           /\ Forall (fun tx =>
                        (forall from, given (dateFrom opts) = Some from ->
                                      date_ge parseDate (tx_date tx) from = true)
                        /\ (forall to, given (dateTo opts) = Some to ->
                                       date_ge parseDate to (tx_date tx) = true)
                        /\ (forall t, given (type opts) = Some t -> tx_type tx = t))
                     sel
           /\ (forall q, positive_limit (limit opts) = Some q ->
                         (length sel <= Z.to_nat (Qfloor q))%nat)
           /\ (positive_limit (limit opts) = None ->
               forall tx, tx ∈ transactions acc ->
                 (forall from, given (dateFrom opts) = Some from ->
                               date_ge parseDate (tx_date tx) from = true) ->
                 (forall to, given (dateTo opts) = Some to ->
                             date_ge parseDate to (tx_date tx) = true) ->
                 (forall t, given (type opts) = Some t -> tx_type tx = t) ->
                 tx ∈ sel)
  end.
Proof.
  unfold fetchAccountTransactions.
  pose proof (lookup_accounts_spec userId) as Hlookup.
  destruct (inherited userId) eqn:Hinh.
  { destruct Hlookup as [_ ->]. by destruct (bool_decide _). }
  rewrite Hlookup. set (userAccounts := default [] (mockBankAccounts !! userId)).
  unfold fetch_from. cbv zeta.
  destruct (List.find _ _) as [acc|] eqn:Hfind.
  - apply find_some in Hfind as [Hin Hid]. apply bool_decide_eq_true in Hid.
    apply list_elem_of_In in Hin.
    pose proof (optional_filter (given (dateFrom opts))
                  (fun from tx => date_ge parseDate (tx_date tx) from)
                  (transactions acc)) as H1.
    cbv zeta in H1.
    match type of H1 with sublist ?r _ /\ _ => set (t1 := r) in * end.
    destruct H1 as [Hs1 H1].
    pose proof (optional_filter (given (dateTo opts))
                  (fun to tx => date_ge parseDate to (tx_date tx)) t1) as H2.
    cbv zeta in H2.
    match type of H2 with sublist ?r _ /\ _ => set (t2 := r) in * end.
    destruct H2 as [Hs2 H2].
    pose proof (optional_filter (given (type opts))
                  (fun t tx => bool_decide (tx_type tx = t)) t2) as H3.
    cbv zeta in H3.
    match type of H3 with sublist ?r _ /\ _ => set (t3 := r) in * end.
    destruct H3 as [Hs3 H3].
    match goal with |- context [map list_transaction ?r] => set (t4 := r) end.
    assert (Hs4 : sublist t4 t3).
    { subst t4. destruct (positive_limit (limit opts)); [apply sublist_take|done]. }
    split; [done|]. split; [done|]. exists acc, t4.
    split; [done|]. split; [done|]. split; [done|]. split; [done|].
    split; [by repeat (etrans; [eassumption|])|].
    split; [|split].
    + apply Forall_forall. intros tx Htx.
      apply (elem_of_sublist _ _ _ Htx) in Hs4 as Htx3.
      apply H3 in Htx3 as [Htx2 Htype]. apply H2 in Htx2 as [Htx1 Hto].
      apply H1 in Htx1 as [_ Hfrom].
      split; [done|]. split; [done|].
      intros t Ht. exact (proj1 (bool_decide_eq_true _) (Htype t Ht)).
    + intros q Hq. subst t4. rewrite Hq. rewrite length_take. lia.
    + intros Hnone tx Htx Hfrom Hto Htype. subst t4. rewrite Hnone.
      apply H3. split; [|intros t Ht; exact (proj2 (bool_decide_eq_true _) (Htype t Ht))].
      apply H2. split; [|done]. apply H1. done.
  - split; [done|]. split; [done|]. intros acc Hacc Hid.
    apply list_elem_of_In in Hacc.
    pose proof (find_none _ _ Hfind acc Hacc) as Hno. cbv beta in Hno.
    by apply bool_decide_eq_false in Hno.
Qed.

End RecordedTransactions.

(** ** Recorded bank accounts: ownership and spending patterns *)

Section RecordedAccounts.

Import JS BankingService.

Local Open Scope Q_scope.

Variable parseDate : string -> option Z.

(** The ids of the recorded accounts are all different. *)
Lemma recorded_ids_differ (u u' : string) (a a' : account) :
  a ∈ default [] (mockBankAccounts !! u) ->
  a' ∈ default [] (mockBankAccounts !! u') ->
  acc_id a = acc_id a' -> u = u' /\ a = a'.
Proof.
  rewrite !user_accounts. unfold user123_accounts, user456_accounts.
  destruct (decide (u = "user123")) as [->|?];
    [|destruct (decide (u = "user456")) as [->|?]];
    (destruct (decide (u' = "user123")) as [->|?];
     [|destruct (decide (u' = "user456")) as [->|?]]);
    intros Ha Ha';
    repeat match goal with
           | H : _ ∈ [] |- _ => by apply elem_of_nil in H
           | H : _ ∈ _ :: _ |- _ => apply elem_of_cons in H as [->|H]
           end;
    cbn [acc_id]; intros Hid; first [done | discriminate Hid].
Qed.

(** X24: the recorded accounts are per user.  For an account of one user
    and whatever the options, [fetchAccountTransactions] never answers
    another user with the account: it answers that the account is not
    found, except for a user id that is the name of a property which
    objects inherit from [Object.prototype], for which the promise is never
    settled.  It answers the owner with the id and the provider of the
    account. *)
Theorem accounts_are_per_user (owner other : string) (acc : account) opts :
  acc ∈ default [] (mockBankAccounts !! owner) ->
  other <> owner ->
  fetchAccountTransactions parseDate other (acc_id acc) opts
  = (if inherited other then NeverFetched else NotFound "Account not found")
  /\ exists txs,
       fetchAccountTransactions parseDate owner (acc_id acc) opts
       = Found (acc_id acc) (provider acc) txs.
Proof.
  intros Hacc Hother.
  assert (Howner : inherited owner = false).
  { pose proof (lookup_accounts_spec owner) as H.
    destruct (inherited owner); [|done].
    destruct H as [H _]. rewrite H in Hacc. by apply elem_of_nil in Hacc. }
  unfold fetchAccountTransactions. split.
  - pose proof (lookup_accounts_spec other) as Hlookup.
    destruct (inherited other).
    { destruct Hlookup as [_ ->]. by destruct (bool_decide _). }
    rewrite Hlookup.
    pose proof (fetch_selects parseDate (default [] (mockBankAccounts !! other))
                  (acc_id acc) opts) as H.
    destruct (fetch_from parseDate _ (acc_id acc) opts) as [e|a p txs|]; [| |done].
    + destruct H as [-> _]. done.
    + destruct H as (_ & acc' & sel & Hacc' & Hid & _).
      destruct (recorded_ids_differ other owner acc' acc Hacc' Hacc Hid) as [? _]. done.
  - pose proof (lookup_accounts_spec owner) as Hlookup. rewrite Howner in Hlookup.
    rewrite Hlookup.
    pose proof (fetch_selects parseDate (default [] (mockBankAccounts !! owner))
                  (acc_id acc) opts) as H.
    destruct (fetch_from parseDate _ (acc_id acc) opts) as [e|a p txs|]; [| |done].
    + destruct H as [_ H]. by destruct (H acc Hacc).
    + destruct H as (-> & acc' & sel & Hacc' & Hid & -> & _ & _).
      destruct (recorded_ids_differ owner owner acc' acc Hacc' Hacc Hid) as [_ ->].
      by exists txs.
Qed.

(** No recorded transaction has the amount zero. *)
Lemma recorded_amounts (u : string) (acc : account) (t : transaction) :
  acc ∈ default [] (mockBankAccounts !! u) -> t ∈ transactions acc ->
  ~ tx_amount t == 0.
Proof.
  assert (Hall : forallb (fun acc => forallb (fun t => negb (Qeq_bool (tx_amount t) 0))
                                             (transactions acc))
                         (user123_accounts ++ user456_accounts) = true)
    by (vm_compute; reflexivity).
  rewrite forallb_forall in Hall.
  intros Hacc Ht.
  assert (Hin : In acc (user123_accounts ++ user456_accounts)).
  { apply in_or_app. rewrite user_accounts in Hacc. rewrite <- !list_elem_of_In.
    destruct (decide (u = "user123")); [by left|].
    destruct (decide (u = "user456")); [by right|].
    by apply elem_of_nil in Hacc. }
  specialize (Hall acc Hin). rewrite forallb_forall in Hall.
  apply list_elem_of_In in Ht. specialize (Hall t Ht).
  apply negb_true_iff in Hall. by apply Qeq_bool_neq.
Qed.

(** For a user id that objects do not inherit, the loop collects recorded
    transactions from every account. *)
Lemma collect_recorded userId opts (accs : list account) :
  inherited userId = false ->
  exists allTransactions,
    collect parseDate userId opts accs = Some allTransactions
    /\ Forall (fun tx => ~ l_amount tx == 0) allTransactions.
Proof.
  intros Hinh. unfold collect.
  assert (Hgen : forall acc0 : list listed,
             Forall (fun tx => ~ l_amount tx == 0) acc0 ->
             exists allTransactions,
               fold_left
                 (fun collected account =>
                    match collected with
                    | Some allTransactions =>
                        match fetchAccountTransactions parseDate userId (acc_id account) opts
                        with
                        | Found _ _ transactions =>
                            Some (allTransactions ++ transactions)%list
                        | NotFound _ => Some allTransactions
                        | NeverFetched => None
                        end
                    | None => None
                    end)
                 accs (Some acc0) = Some allTransactions
               /\ Forall (fun tx => ~ l_amount tx == 0) allTransactions).
  { induction accs as [|account accs IH]; intros acc0 Hacc0; [by exists acc0|].
    cbn [fold_left]. unfold fetchAccountTransactions at 2.
    pose proof (lookup_accounts_spec userId) as Hlookup. rewrite Hinh in Hlookup.
    rewrite Hlookup.
    pose proof (fetch_selects parseDate (default [] (mockBankAccounts !! userId))
                  (acc_id account) opts) as H.
    destruct (fetch_from parseDate _ (acc_id account) opts) as [e|a p txs|];
      [by apply IH| |done].
    apply IH.
    destruct H as (_ & acc' & sel & Hacc' & _ & _ & -> & Hsub).
    apply Forall_app. split; [done|].
    apply Forall_fmap, Forall_forall. intros t Ht. cbn [compose list_transaction l_amount].
    apply (recorded_amounts userId acc' t Hacc').
    exact (elem_of_sublist _ _ _ Ht Hsub). }
  apply Hgen. constructor.
Qed.

Lemma expenses_cons (x : Q) (l : list Q) : sumQ (x :: l) == x + sumQ l.
Proof. exact (sumQ_cons x l). Qed.

Lemma expenses_perm (l l' : list Q) : l ≡ₚ l' -> sumQ l == sumQ l'.
Proof.
  induction 1 as [|x l l' _ IH|x y l|l l' l'' _ IH1 _ IH2].
  - reflexivity.
  - by rewrite !expenses_cons, IH.
  - rewrite !expenses_cons. ring.
  - by rewrite IH1.
Qed.

Lemma expenses_positive (l : list Q) :
  Forall (fun a => 0 < a) l -> l <> [] -> 0 < sumQ l.
Proof.
  induction 1 as [|a l Ha Hl IH]; [done|]. intros _. rewrite expenses_cons.
  destruct l as [|b l].
  - change (sumQ []) with 0. Lqa.lra.
  - assert (H : 0 < sumQ (b :: l)) by (by apply IH). Lqa.lra.
Qed.

(** *** The amounts by category *)

Lemma add_expense_keys category amount entries (k : string) :
  k ∈ map fst (add_expense category amount entries) ->
  k = category \/ k ∈ map fst entries.
Proof.
  induction entries as [|[c a] entries IH]; cbn [add_expense map fst].
  - intros H. apply list_elem_of_singleton in H. by left.
  - destruct (bool_decide (c = category)); cbn [map fst]; [by right|].
    intros H. apply elem_of_cons in H as [->|H].
    + right. apply list_elem_of_here.
    + destruct (IH H) as [->|Hin]; [by left|]. right. by apply list_elem_of_further.
Qed.

Lemma add_expense_NoDup category amount entries :
  NoDup (map fst entries) -> NoDup (map fst (add_expense category amount entries)).
Proof.
  induction entries as [|[c a] entries IH]; cbn [add_expense map fst].
  - intros _. apply NoDup_singleton.
  - intros Hnd. apply NoDup_cons in Hnd as [Hc Hnd].
    destruct (bool_decide (c = category)) eqn:Hdec; cbn [map fst].
    + by apply NoDup_cons.
    + apply bool_decide_eq_false in Hdec. apply NoDup_cons. split; [|by apply IH].
      intros Hin. by destruct (add_expense_keys _ _ _ _ Hin).
Qed.

Lemma add_expense_sum category amount entries :
  sumQ (map snd (add_expense category amount entries)) == sumQ (map snd entries) + amount.
Proof.
  induction entries as [|[c a] entries IH]; cbn [add_expense map snd].
  - rewrite expenses_cons. ring.
  - destruct (bool_decide (c = category)); cbn [map snd];
      rewrite !expenses_cons; [ring|]. rewrite IH. ring.
Qed.

Lemma add_expense_positive category amount entries :
  0 < amount ->
  Forall (fun e : string * Q => 0 < snd e) entries ->
  Forall (fun e : string * Q => 0 < snd e) (add_expense category amount entries).
Proof.
  intros Hamount. induction 1 as [|[c a] entries Ha Hrest IH]; cbn [add_expense].
  - repeat constructor. cbn [snd]. Lqa.lra.
  - cbn [snd] in Ha. destruct (bool_decide (c = category)).
    + constructor; [cbn [snd]; Lqa.lra|done].
    + by constructor.
Qed.

Lemma expenses_by_category (debits : list listed) : forall entries,
  Forall (fun tx => ~ l_amount tx == 0) debits ->
  NoDup (map fst entries) ->
  Forall (fun e : string * Q => 0 < snd e) entries ->
  let result :=
    fold_left
      (fun entries tx =>
         add_expense (categorizeTransaction (l_description tx)) (Qabs (l_amount tx)) entries)
      debits entries in
  NoDup (map fst result)
  /\ Forall (fun e : string * Q => 0 < snd e) result
  /\ sumQ (map snd result)
     == sumQ (map snd entries) + sumQ (map (fun tx => Qabs (l_amount tx)) debits).
Proof.
  induction debits as [|tx debits IH]; intros entries Hnz Hnd Hpos; cbv zeta.
  - cbn [fold_left map]. split; [done|]. split; [done|].
    change (sumQ []) with 0. ring.
  - apply Forall_cons in Hnz as [Htx Hnz]. cbn [fold_left map].
    assert (Habs : 0 < Qabs (l_amount tx)).
    { apply Qabs_case; intros H.
      - apply Qle_lteq in H as [H|H]; [done|]. exfalso. apply Htx. by symmetry.
      - apply Qle_lteq in H as [H|H]; [Lqa.lra|]. exfalso. by apply Htx. }
    destruct (IH (add_expense (categorizeTransaction (l_description tx))
                              (Qabs (l_amount tx)) entries) Hnz)
      as (H1 & H2 & H3).
    + by apply add_expense_NoDup.
    + by apply add_expense_positive.
    + split; [done|]. split; [done|].
      rewrite H3, add_expense_sum, expenses_cons. ring.
Qed.

(** *** The order of the categories *)

Lemma insert_by_amount_perm x l : insert_by_amount x l ≡ₚ x :: l.
Proof.
  induction l as [|y l IH]; cbn [insert_by_amount]; [done|].
  destruct (Qle_bool (ce_amount y) (ce_amount x)); [done|].
  rewrite IH. apply Permutation_swap.
Qed.

Lemma sort_by_amount_perm l : sort_by_amount l ≡ₚ l.
Proof.
  induction l as [|x l IH]; [done|].
  change (sort_by_amount (x :: l)) with (insert_by_amount x (sort_by_amount l)).
  by rewrite insert_by_amount_perm, IH.
Qed.

Lemma insert_by_amount_sorted x l :
  StronglySorted (fun a b => ce_amount b <= ce_amount a) l ->
  StronglySorted (fun a b => ce_amount b <= ce_amount a) (insert_by_amount x l).
Proof.
  induction 1 as [|y l Hl IH Hy]; cbn [insert_by_amount].
  - repeat constructor.
  - destruct (Qle_bool (ce_amount y) (ce_amount x)) eqn:Hle.
    + apply Qle_bool_iff in Hle. constructor; [by constructor|].
      constructor; [done|]. eapply Forall_impl; [exact Hy|].
      intros z Hz. cbv beta in *. Lqa.lra.
    + assert (Hlt : ce_amount x < ce_amount y).
      { apply Qnot_le_lt. intros H. apply Qle_bool_iff in H. congruence. }
      constructor; [done|].
      rewrite (insert_by_amount_perm x l). constructor; [Lqa.lra|done].
Qed.

Lemma sort_by_amount_sorted l :
  StronglySorted (fun a b => ce_amount b <= ce_amount a) (sort_by_amount l).
Proof.
  induction l as [|x l IH]; [constructor|].
  change (sort_by_amount (x :: l)) with (insert_by_amount x (sort_by_amount l)).
  by apply insert_by_amount_sorted.
Qed.

Lemma shares_sum (total : Q) (l : list Q) :
  sumQ (map (fun a => a / total * 100) l) == sumQ l / total * 100.
Proof.
  induction l as [|a l IH]; cbn [map].
  - change (sumQ []) with 0. unfold Qdiv. ring.
  - rewrite !expenses_cons, IH. unfold Qdiv. ring.
Qed.

(** X25: [analyzeSpendingPatterns] answers that there are no accounts for a
    user without recorded accounts, unless the user id is the name of a
    property which objects inherit from [Object.prototype]: of these,
    [toString], [valueOf] and [toLocaleString] get the same answer, and for
    the others the promise is never settled.  For the users with recorded
    accounts and all options, the categorised expenses have one entry for
    each category, each with an amount above zero, in descending order of
    the amounts; the amounts add up to the expenses of the summary and,
    when there is at least one entry, the percentages add up to 100, both
    within a millionth. *)
Theorem analyzeSpendingPatterns_categories userId opts :
  match analyzeSpendingPatterns parseDate userId opts with
  | NoAccounts error =>
      error = "No accounts found for this user"
      /\ mockBankAccounts !! userId = None
      /\ (inherited userId = true ->
          userId ∈ ["toString"; "valueOf"; "toLocaleString"])
  | NeverAnalysed =>
      inherited userId = true
      /\ userId ∉ ["toString"; "valueOf"; "toLocaleString"]
  | Analysed r =>
      is_Some (mockBankAccounts !! userId)
      /\ NoDup (map ce_category (categorizedExpenses r))
      /\ StronglySorted (fun a b => ce_amount b <= ce_amount a) (categorizedExpenses r)
      /\ Forall (fun c => 0 < ce_amount c) (categorizedExpenses r)
      /\ Qabs (sumQ (map ce_amount (categorizedExpenses r)) - expenses (pt_summary r))
         <= 1 # 1000000
      /\ (categorizedExpenses r <> [] ->
          Qabs (sumQ (map ce_percentage (categorizedExpenses r)) - 100) <= 1 # 1000000)
  end.
Proof.
  unfold analyzeSpendingPatterns.
  pose proof (lookup_accounts_spec userId) as Hlookup.
  destruct (inherited userId) eqn:Hinh.
  { destruct Hlookup as [Hnone ->].
    destruct (bool_decide (userId = "__proto__")) eqn:Hproto.
    - apply bool_decide_eq_true in Hproto as ->. split; [done|].
      intros Hin. repeat (apply elem_of_cons in Hin as [Hin|Hin]; [discriminate|]).
      by apply elem_of_nil in Hin.
    - unfold function_length.
      destruct (bool_decide (userId ∈ ["toString"; "valueOf"; "toLocaleString"])) eqn:Hzero.
      + apply bool_decide_eq_true in Hzero. done.
      + apply bool_decide_eq_false in Hzero.
        by destruct (bool_decide (userId ∈ ["__defineGetter__"; "__defineSetter__"])). }
  rewrite Hlookup.
  destruct (length (default [] (mockBankAccounts !! userId)) =? 0)%nat eqn:Hlen.
  - split; [done|]. split; [|done]. apply Nat.eqb_eq in Hlen. revert Hlen.
    unfold mockBankAccounts.
    destruct (decide (userId = "user123")) as [->|?];
      [by rewrite lookup_insert_eq|rewrite lookup_insert_ne by done].
    destruct (decide (userId = "user456")) as [->|?];
      [by rewrite lookup_insert_eq|rewrite lookup_insert_ne by done].
    by rewrite lookup_empty.
  - set (accs := default [] (mockBankAccounts !! userId)) in *.
    destruct (collect_recorded userId opts accs Hinh) as (allTransactions & -> & Hall).
    unfold analyse. cbv zeta. cbn [categorizedExpenses pt_summary expenses].
    set (debits := List.filter is_debit allTransactions).
    assert (Hdebits : Forall (fun tx => ~ l_amount tx == 0) debits).
    { apply Forall_forall. intros tx Htx. subst debits.
      apply list_elem_of_In, filter_In in Htx as [Htx _]. apply list_elem_of_In in Htx.
      rewrite Forall_forall in Hall. by apply Hall. }
    destruct (expenses_by_category debits [] Hdebits (NoDup_nil_2) (Forall_nil_2 _))
      as (Hnd & Hpos & Hsum).
    set (entries := fold_left _ debits []) in *.
    set (total := sumQ (map (fun tx => Qabs (l_amount tx)) debits)) in *.
    set (unsorted := map _ entries).
    assert (Hcat : map ce_category unsorted = map fst entries).
    { subst unsorted. rewrite map_map. apply map_ext. by intros []. }
    assert (Hamt : map ce_amount unsorted = map snd entries).
    { subst unsorted. rewrite map_map. apply map_ext. by intros []. }
    assert (Hpct : map ce_percentage unsorted = map (fun a => a / total * 100) (map snd entries)).
    { subst unsorted. rewrite !map_map. apply map_ext. by intros []. }
    pose proof (sort_by_amount_perm unsorted) as Hperm.
    change (sumQ (map snd [])) with 0 in Hsum.
    split.
    { subst accs. destruct (mockBankAccounts !! userId); [by eexists|done]. }
    split.
    { rewrite Hperm, Hcat. exact Hnd. }
    split; [apply sort_by_amount_sorted|].
    split.
    { rewrite Hperm. apply Forall_forall. intros c Hc.
      assert (Hin : ce_amount c ∈ map snd entries).
      { rewrite <- Hamt. apply list_elem_of_fmap. by exists c. }
      apply list_elem_of_fmap in Hin as (e & -> & He).
      rewrite Forall_forall in Hpos. by apply Hpos. }
    split.
    { rewrite (expenses_perm _ (map ce_amount unsorted)) by (by rewrite Hperm).
      rewrite Hamt, Hsum. apply Qabs_Qle_condition. split; Lqa.lra. }
    intros Hne.
    rewrite (expenses_perm _ (map ce_percentage unsorted)) by (by rewrite Hperm).
    rewrite Hpct, shares_sum, Hsum.
    assert (Htotal : 0 < total).
    { assert (Hentries : entries <> []).
      { intros Hnil. apply Hne. apply Permutation_nil_r. rewrite Hperm.
        subst unsorted. by rewrite Hnil. }
      assert (H : 0 < sumQ (map snd entries)).
      { apply expenses_positive; [by apply Forall_fmap|]. by destruct entries. }
      rewrite Hsum in H. Lqa.lra. }
    assert (Hall100 : (0 + total) / total * 100 == 100) by (field; Lqa.lra).
    rewrite Hall100. apply Qabs_Qle_condition. split; Lqa.lra.
Qed.

End RecordedAccounts.

(** ** The model at work *)

Section Examples.

Import JS Runtime.

(** [toFixed(2)] rounds to the nearest hundredth. *)
Example toFixed2_samples :
  map MockBankingService.toFixed2 [7 # 3; 5; 1005 # 1000; 123456 # 100; - (1 # 1000)]%Q
  = ["2.33"; "5.00"; "1.01"; "1234.56"; "-0.00"].
Proof. reflexivity. Qed.

(** With every random draw one half the loop body produces a debit of
    105 at Target. *)
Example first_transaction :
  MockBankingService.transactions
    (fst (MockBankingService.getAccountTransactions Sample.half Sample.clock0
            Sample.digits36 Sample.days_before "alice" "acc-1"
            {| MockBankingService.limit := Some (Fin 1);
               MockBankingService.dateFrom := None;
               MockBankingService.dateTo := None;
               MockBankingService.type := Some "credit" |}
            Sample.world0))
  = [ {| MockBankingService.id := "tx-i";
         MockBankingService.accountId := "acc-1";
         MockBankingService.tx_amount := MockBankingService.AmountNumber (- (10500 # 100));
         MockBankingService.date := "1000000";
         MockBankingService.description := Some "Target";
         MockBankingService.category := Some "Entertainment";
         MockBankingService.status := "posted";
         MockBankingService.tx_type := "debit" |} ].
Proof. reflexivity. Qed.

(** Alice's proof: its id is made of the time and of a random number below
    ten thousand, and it expires thirty days after it was made. *)
Example alice_generated_sample :
  fst Sample.alice_generated
  = {| PrivacyService.g_success := true;
       PrivacyService.g_proofId := "proof_1000000_5000";
       PrivacyService.g_type := Str "creditScore";
       PrivacyService.g_condition := Str "gte";
       PrivacyService.g_threshold := Sample.num 700;
       PrivacyService.g_createdAt := 1000001;
       PrivacyService.g_expiresAt := 1000002 + 2592000000;
       PrivacyService.g_shareableLink := "https://aries.finance/verify/proof_1000000_5000" |}.
Proof. reflexivity. Qed.

(** Without a contract the blockchain service answers with the simulated
    result and logs the error. *)
Example mint_without_contract :
  fst (BlockchainService.mintCreditScoreNFT Sample.half Sample.clock0
         Sample.no_chain "0xabc" (Fin 700) (Some []) Sample.world0)
  = ({| BlockchainService.success := true;
        BlockchainService.simulated := true;
        BlockchainService.tokenId := "1000000";
        BlockchainService.tokenUri := "ipfs://QmSimulated1000001";
        BlockchainService.txHash :=
          "0x8888888888888888888888888888888888888888888888888888888888888888";
        BlockchainService.m_blockNumber := 12345678;
        BlockchainService.walletAddress := "0xabc";
        BlockchainService.creditScore := Fin 700 |},
      [Console.Error ["Error minting credit score NFT:"; "NFT contract not initialized"]]).
Proof. by vm_compute. Qed.

(** The contract service rates a score of 700 as good. *)
Example mint_in_contract_service :
  let m := fst (ContractService.mintCreditScoreNFT Sample.half Sample.clock0
                  Sample.show_number Sample.digits16 "0xabc" (Fin 700) Sample.world0) in
  ContractService.success m = true
  /\ ContractService.tokenId m = 500000%Z
  /\ ContractService.txHash m = "0x8"
  /\ ContractService.meta_name m = "Credit Score NFT #500000"
  /\ ContractService.attr_Rating (ContractService.meta_attributes m) = "Good".
Proof. by vm_compute. Qed.

End Examples.

(** ** The properties at concrete inputs *)

Section Witnesses.

Import JS Runtime.

Lemma half_unit : forall n, (0 <= Sample.half n < 1)%Q.
Proof. intros n. unfold Sample.half. split; [apply Qle_bool_iff|apply Qlt_alt]; reflexivity. Defined.

Lemma halfR_unit : forall n, (0 <= Sample.halfR n < 1)%R.
Proof. intros n. unfold Sample.halfR. lra. Defined.

(** C4 on a series of three prices with returns of ten and twenty percent:
    the daily volatility is five percent, and six loop bodies are run. *)
Lemma volatility_is_population_stddev_witness :
  (2 <= length Sample.rising_prices)%nat
  /\ Forall (fun p => RiskService.price p <> 0%R) Sample.rising_prices
  /\ exists m w',
      RiskService.calculateVolatilityMetrics Sample.clock0 Sample.date_part
        "DEMO" Sample.rising_prices Sample.world0 = (Some m, w')
      /\ RiskService.volatilityDaily m = (5 / 100)%R
      /\ RiskService.volatilityAnnualized m = (5 / 100 * sqrt 365)%R
      /\ snd (RiskService.volatility_counted Sample.rising_prices) = 6%nat.
Proof.
  assert (Hlen : (2 <= length Sample.rising_prices)%nat) by (simpl; lia).
  assert (Hprices : Forall (fun p => RiskService.price p <> 0%R) Sample.rising_prices)
    by (repeat constructor; simpl; lra).
  split; [exact Hlen|]. split; [exact Hprices|].
  destruct (volatility_is_population_stddev Sample.clock0 Sample.date_part
              "DEMO" Sample.rising_prices Sample.world0 Hlen Hprices)
    as (m & w' & Hm & Hstd & Hannual & Hcount).
  assert (Hfive : RiskService.volatilityDaily m = (5 / 100)%R).
  { rewrite Hstd. unfold Statistics.population_stddev.
    replace (Statistics.population_variance _) with ((5 / 100) * (5 / 100))%R.
    - apply sqrt_square. lra.
    - unfold Statistics.population_variance, Statistics.mean. simpl. field. }
  exists m, w'. split; [exact Hm|]. split; [exact Hfive|].
  split; [by rewrite Hannual, Hfive|]. by rewrite Hcount.
Defined.


(** C6 for alice's proof, verified five thousand clock readings later. *)
Lemma generate_then_verify_witness :
  let g := fst Sample.alice_generated in
  let later := {| draws := 1; ticks := 5000 |} in
  (Sample.clock0 (ticks later) <= PrivacyService.g_expiresAt g)%Z
  /\ PrivacyService.v_verified
       (fst (PrivacyService.verifyZKProof Sample.clock0 (PrivacyService.g_proofId g)
               {| PrivacyService.mockProofs := PrivacyService.mockProofs (snd Sample.alice_generated);
                  PrivacyService.world_of := later |}))
     = Some true.
Proof.
  assert (Hlive : (Sample.clock0 5000 <= PrivacyService.g_expiresAt (fst Sample.alice_generated))%Z)
    by (vm_compute; discriminate).
  split; [exact Hlive|].
  destruct (generate_then_verify Sample.half Sample.clock0 Sample.show_number
              "alice" Sample.alice_statement Sample.empty_store
              (fst Sample.alice_generated) (snd Sample.alice_generated)
              {| draws := 1; ticks := 5000 |})
    as (_ & _ & _ & Hverified & _).
  - unfold Sample.alice_generated. by destruct (PrivacyService.generateZKProof _ _ _ _ _ _).
  - exact Hlive.
  - exact Hverified.
Defined.

(** C7 with every random draw one half: without a chain the result is
    simulated, and on a chain that answers with a receipt it carries the
    token id and the transaction hash of the receipt. *)
Lemma mint_always_succeeds_witness :
  (forall n, (0 <= Sample.half n < 1)%Q)
  /\ BlockchainService.simulated
       (fst (fst (BlockchainService.mintCreditScoreNFT Sample.half Sample.clock0
                    Sample.no_chain "0xabc" (Fin 700) (Some []) Sample.world0))) = true
  /\ (let m := fst (fst (BlockchainService.mintCreditScoreNFT Sample.half Sample.clock0
                           Sample.live_chain "0xabc" (Fin 700) (Some []) Sample.world0)) in
      BlockchainService.simulated m = false
      /\ BlockchainService.tokenId m = "42"
      /\ BlockchainService.txHash m = "0xfeedface").
Proof.
  split; [exact half_unit|].
  destruct (mint_always_succeeds Sample.half Sample.clock0 half_unit)
    as (_ & _ & Hdown & Hlive).
  split; [apply Hdown; by left|].
  destruct (Hlive Sample.live_chain
              (fun to uri =>
                 inr {| BlockchainService.events :=
                          Some [BlockchainService.mk_event "Transfer" (Some "42")];
                        BlockchainService.transactionHash := "0xfeedface";
                        BlockchainService.blockNumber := 7 |})
              "0xabc" (Fin 700) [] Sample.world0
              "ipfs://QmHash1000001500"
              [] {| draws := 1; ticks := 2 |}
              {| BlockchainService.events :=
                   Some [BlockchainService.mk_event "Transfer" (Some "42")];
                 BlockchainService.transactionHash := "0xfeedface";
                 BlockchainService.blockNumber := 7 |}
              [BlockchainService.mk_event "Transfer" (Some "42")]
              (BlockchainService.mk_event "Transfer" (Some "42")) "42"
              eq_refl eq_refl eq_refl eq_refl eq_refl eq_refl eq_refl)
    as (_ & Hreal & Htoken & Hhash).
  split; [exact Hreal|]. split; [exact Htoken|exact Hhash].
Defined.


(** C9 for alice's proof: bob cannot revoke it, alice can, and it stays
    unknown when bob then generates a proof of his own at a later time. *)
Lemma revoke_owner_only_witness :
  PrivacyService.mockProofs (snd Sample.alice_generated) !! "proof_1000000_5000"
  = Some (PrivacyService.ZKProof Sample.alice_proof)
  /\ snd (PrivacyService.revokeZKProof "bob" "proof_1000000_5000" (snd Sample.alice_generated))
     = snd Sample.alice_generated
  /\ exists s',
      snd (PrivacyService.revokeZKProof "alice" "proof_1000000_5000" (snd Sample.alice_generated))
      = s'
      /\ fst (PrivacyService.verifyZKProof Sample.clock0 "proof_1000000_5000"
                (PrivacyService.run Sample.half Sample.clock0 Sample.show_number
                   [PrivacyService.Generate "bob" Sample.alice_statement] s'))
         = PrivacyService.not_found.
Proof.
  assert (Hstored : PrivacyService.mockProofs (snd Sample.alice_generated) !! "proof_1000000_5000"
                    = Some (PrivacyService.ZKProof Sample.alice_proof))
    by (by vm_compute).
  split; [exact Hstored|].
  split.
  - destruct (revoke_owner_only Sample.half Sample.clock0 Sample.show_number
                "bob" _ _ _ Hstored) as [Hother _].
    destruct Hother as [-> _]; [discriminate|done].
  - destruct (revoke_owner_only Sample.half Sample.clock0 Sample.show_number
                "alice" _ _ _ Hstored) as [_ Howner].
    destruct Howner as (s' & Hrev & _ & Hgone); [done|].
    exists s'. split; [by rewrite Hrev|]. apply Hgone.
    assert (Hs' : s' = snd (PrivacyService.revokeZKProof "alice" "proof_1000000_5000"
                              (snd Sample.alice_generated))) by (by rewrite Hrev).
    rewrite Hs'. cbn [PrivacyService.stored_ids PrivacyService.stored_id option_list app].
    apply not_elem_of_cons. split; [|apply not_elem_of_nil].
    intros Hsame. vm_compute in Hsame. discriminate Hsame.
Defined.


End Witnesses.

(** ** Further properties at concrete inputs *)

Section MoreWitnesses.

Import JS Runtime.

(** X1 for alice's proof and the user bob. *)
Lemma getUserProofs_lists_own_proofs_only_witness :
  "bob" <> "alice"
  /\ (exists item,
        item ∈ PrivacyService.ls_proofs
                 (fst (PrivacyService.getUserProofs "alice" (snd Sample.alice_generated)))
        /\ PrivacyService.l_statement item = Some Sample.alice_statement)
  /\ PrivacyService.ls_success
       (fst (PrivacyService.getUserProofs "bob" (snd Sample.alice_generated))) = true.
Proof.
  split; [done|].
  destruct (getUserProofs_lists_own_proofs_only Sample.half Sample.clock0 Sample.show_number
              [] Sample.world0 "alice" "bob" Sample.alice_statement)
    as ((item & Hin & _ & Hst) & _ & Hok & _); [done|].
  split; [by exists item|exact Hok].
Defined.

(** X2 for alice's proof, on a clock that advances by more than thirty days
    at each reading. *)
Lemma verify_after_expiry_witness :
  let generated :=
    PrivacyService.generateZKProof Sample.half Sample.monthly_clock Sample.show_number
      "alice" Sample.alice_statement Sample.empty_store in
  let later := {| draws := 1; ticks := 3 |} in
  (PrivacyService.g_expiresAt (fst generated) < Sample.monthly_clock (ticks later))%Z
  /\ PrivacyService.v_error
       (fst (PrivacyService.verifyZKProof Sample.monthly_clock
               (PrivacyService.g_proofId (fst generated))
               {| PrivacyService.mockProofs := PrivacyService.mockProofs (snd generated);
                  PrivacyService.world_of := later |}))
     = Some "Proof has expired".
Proof.
  intros generated later.
  assert (Hlate : (PrivacyService.g_expiresAt (fst generated)
                   < Sample.monthly_clock (ticks later))%Z) by (by vm_compute).
  split; [exact Hlate|].
  destruct (verify_after_expiry Sample.half Sample.monthly_clock Sample.show_number
              "alice" Sample.alice_statement Sample.empty_store later Hlate)
    as (_ & _ & _ & Herror & _).
  exact Herror.
Defined.

(** X4 for a disclosure of alice's credit score and income. *)
Lemma disclosure_is_handled_as_a_proof_witness :
  let disclosed :=
    PrivacyService.generateSelectiveDisclosure Sample.half Sample.clock0
      "alice" Sample.alice_data Sample.alice_fields Sample.empty_store in
  let later := {| draws := 1; ticks := 5000 |} in
  (Sample.clock0 (ticks later) <= PrivacyService.s_expiresAt (fst disclosed))%Z
  /\ PrivacyService.v_verified
       (fst (PrivacyService.verifyZKProof Sample.clock0
               (PrivacyService.s_disclosureId (fst disclosed))
               {| PrivacyService.mockProofs := PrivacyService.mockProofs (snd disclosed);
                  PrivacyService.world_of := later |}))
     = Some true.
Proof.
  intros disclosed later.
  assert (Hlive : (Sample.clock0 (ticks later)
                   <= PrivacyService.s_expiresAt (fst disclosed))%Z)
    by (vm_compute; discriminate).
  split; [exact Hlive|].
  destruct (disclosure_is_handled_as_a_proof Sample.half Sample.clock0
              "alice" Sample.alice_data Sample.alice_fields Sample.empty_store later Hlive)
    as (_ & (_ & Hverified & _) & _).
  exact Hverified.
Defined.

(** X5 for alice and bob on a clock that stands still. *)
Lemma generateZKProof_same_id_replaces_witness :
  let first :=
    PrivacyService.generateZKProof Sample.half Sample.frozen_clock Sample.show_number
      "alice" Sample.alice_statement Sample.empty_store in
  let later :=
    {| PrivacyService.mockProofs := PrivacyService.mockProofs (snd first);
       PrivacyService.world_of := {| draws := 7; ticks := 9 |} |} in
  let second :=
    PrivacyService.generateZKProof Sample.half Sample.frozen_clock Sample.show_number
      "bob" ∅ later in
  "alice" <> "bob"
  /\ PrivacyService.g_proofId (fst second) = PrivacyService.g_proofId (fst first)
  /\ PrivacyService.r_success
       (fst (PrivacyService.revokeZKProof "alice" (PrivacyService.g_proofId (fst first))
               (snd second))) = false.
Proof.
  intros first later second.
  destruct (generateZKProof_same_id_replaces Sample.half Sample.frozen_clock
              Sample.show_number "alice" Sample.alice_statement "bob" ∅
              Sample.empty_store {| draws := 7; ticks := 9 |})
    as (Hid & _ & Hrevoke); [reflexivity..|].
  split; [done|]. split; [exact Hid|].
  subst first later second. rewrite Hrevoke; done.
Defined.

(** X6 on a series of three prices. *)
Lemma maxDrawdown_is_largest_drop_witness :
  Sample.three_prices <> []
  /\ exists m w',
      RiskService.calculateVolatilityMetrics Sample.clock0 Sample.date_part
        "DEMO" Sample.three_prices Sample.world0 = (Some m, w')
      /\ (0 <= RiskService.maxDrawdown m < 1)%R.
Proof.
  split; [discriminate|].
  destruct (maxDrawdown_is_largest_drop Sample.clock0 Sample.date_part
              "DEMO" Sample.three_prices Sample.world0)
    as (m & w' & Hm & _ & _ & Hrange).
  - discriminate.
  - repeat constructor; simpl; lra.
  - exists m, w'. split; [exact Hm|exact Hrange].
Defined.

(** X7 for thirty days of bitcoin prices. *)
Lemma getTokenVolatility_recorded_token_witness :
  RiskService.tokenPriceHistory !! RiskService.toUpperCase "btc"
  = Some RiskService.btc_prices
  /\ exists m w',
      RiskService.getTokenVolatility Sample.halfR Sample.clock0 Sample.date_part
        Sample.days_before "btc" (Some 30%Z) Sample.world0 = (Some m, w')
      /\ length (RiskService.historicalPrices m) = 14%nat.
Proof.
  assert (Hbtc : RiskService.tokenPriceHistory !! RiskService.toUpperCase "btc"
                 = Some RiskService.btc_prices) by apply lookup_insert_eq.
  split; [exact Hbtc|].
  destruct (getTokenVolatility_recorded_token Sample.halfR Sample.clock0 Sample.date_part
              Sample.days_before "btc" 30 RiskService.btc_prices Sample.world0 Hbtc)
    as (m & Hm & _ & Hlen & _); [lia|].
  exists m. eexists. split; [exact Hm|exact Hlen].
Defined.

(** X8 for five days of a token that has no recorded history. *)
Lemma getTokenVolatility_fabricated_history_witness :
  (forall n, (0 <= Sample.halfR n < 1)%R)
  /\ JS.ascii_only "doge" = true
  /\ RiskService.tokenPriceHistory !! RiskService.toUpperCase "doge" = None
  /\ (2 <= 5 <= 36500)%Z
  /\ exists m w',
      RiskService.getTokenVolatility Sample.halfR Sample.clock0 Sample.date_part
        Sample.days_before "doge" (Some 5%Z) Sample.world0 = (Some m, w')
      /\ (RiskService.maxDrawdown m <= 0.19)%R.
Proof.
  assert (Hdoge : RiskService.tokenPriceHistory !! RiskService.toUpperCase "doge" = None).
  { unfold RiskService.tokenPriceHistory.
    rewrite !lookup_insert_ne by discriminate. apply lookup_empty. }
  split; [exact halfR_unit|]. split; [reflexivity|]. split; [exact Hdoge|].
  split; [lia|].
  destruct (getTokenVolatility_fabricated_history Sample.halfR Sample.clock0 Sample.date_part
              Sample.days_before "doge" 5 Sample.world0 halfR_unit eq_refl Hdoge)
    as (m & w' & Hm & _ & _ & _ & _ & _ & Hmd); [lia|].
  exists m, w'. split; [exact Hm|exact Hmd].
Defined.

(** X9 for a portfolio of one bitcoin and two ether. *)
Lemma calculateVaR_weights_add_up_witness :
  Sample.two_tokens <> []
  /\ NoDup (map RiskService.h_token Sample.two_tokens)
  /\ exists v w',
      RiskService.calculateVaR Sample.halfR Sample.clock0 Sample.date_part Sample.days_before
        Sample.two_tokens None Sample.world0 = (Some v, w')
      /\ map RiskService.o_weight (RiskService.holdings_out v)
         = map (fun h => RiskService.XFin
                           (Portfolio.recorded_value h / RiskService.portfolioValue v)%R)
               Sample.two_tokens
      /\ (Rabs (Statistics.sum
                  (map (fun h => Portfolio.recorded_value h / RiskService.portfolioValue v)
                       Sample.two_tokens) - 1) <= / 1000000)%R.
Proof.
  assert (Hdistinct : NoDup (map RiskService.h_token Sample.two_tokens)).
  { apply NoDup_cons. split; [|apply NoDup_singleton].
    intros Hin. apply list_elem_of_singleton in Hin. discriminate. }
  split; [discriminate|]. split; [exact Hdistinct|].
  destruct (calculateVaR_weights_add_up Sample.halfR Sample.clock0 Sample.date_part
              Sample.days_before Sample.two_tokens None Sample.world0)
    as (v & w' & Hv & _ & _ & _ & _ & Hweights & Hsum & _).
  - discriminate.
  - exact Hdistinct.
  - repeat constructor; simpl; try lra.
    + eexists. apply lookup_insert_eq.
    + eexists. unfold RiskService.tokenPriceHistory.
      rewrite lookup_insert_ne by discriminate. apply lookup_insert_eq.
  - exists v, w'. split; [exact Hv|]. split; [exact Hweights|exact Hsum].
Defined.

(** X13 for an address without recorded transactions. *)
Lemma analyzeWalletRisk_risk_factors_witness :
  (forall n, (0 <= Sample.halfR n < 1)%R)
  /\ inherited "0xabc" = false
  /\ exists a w',
      RiskService.analyzeWalletRisk Sample.halfR Sample.clock0 "0xabc" Sample.world0
      = (Some a, w')
      /\ (1 <= length (RiskService.riskFactors a) <= 3)%nat.
Proof.
  split; [exact halfR_unit|]. split; [reflexivity|].
  destruct (analyzeWalletRisk_risk_factors Sample.halfR Sample.clock0 halfR_unit
              "0xabc" Sample.world0 eq_refl)
    as (a & w' & Ha & Hlen & _).
  exists a, w'. split; [exact Ha|exact Hlen].
Defined.

(** X14 for an address that is too short. *)
Lemma wallet_handler_replies_witness :
  (forall n, (0 <= Sample.halfR n < 1)%R)
  /\ RiskController.addressRegex_test "0xabc" = false
  /\ exists message,
      fst (fst (RiskController.analyzeWalletRisk Sample.halfR Sample.clock0 "0xabc"
                  Sample.world0))
      = RiskController.BadRequest message.
Proof.
  split; [exact halfR_unit|]. split; [reflexivity|].
  destruct (wallet_handler_replies Sample.halfR Sample.clock0 halfR_unit "0xabc" Sample.world0)
    as (Hbad & _).
  apply Hbad. reflexivity.
Defined.

(** X15 for the score 0. *)
Lemma mint_handler_score_range_witness :
  Sample.score_zero !! "address" = Some (Scalar (Str "0xabc"))
  /\ truthy (Scalar (Str "0xabc")) = true
  /\ Sample.score_zero !! "score" = Some (Scalar (Sample.num 0))
  /\ ContractController.mintCreditScoreNFT Sample.no_numeric_strings Sample.show_number
       (Some Sample.score_zero)
     = (ContractController.BadRequest "Valid credit score (0-1000) is required", []).
Proof.
  assert (Haddr : Sample.score_zero !! "address" = Some (Scalar (Str "0xabc")))
    by apply lookup_insert_eq.
  assert (Hscore : Sample.score_zero !! "score" = Some (Scalar (Sample.num 0))).
  { unfold Sample.score_zero. rewrite lookup_insert_ne by discriminate.
    apply lookup_insert_eq. }
  split; [exact Haddr|]. split; [reflexivity|]. split; [exact Hscore|].
  destruct (mint_handler_score_range Sample.no_numeric_strings Sample.show_number
              Sample.score_zero (Scalar (Str "0xabc")) (inject_Z 0) Haddr eq_refl Hscore)
    as (_ & _ & Hzero).
  apply Hzero. reflexivity.
Defined.

(** X17 for seven days of ether prices while the network is down. *)
Lemma getHistoricalPriceData_simulated_witness :
  (forall n, (0 <= Sample.half n < 1)%Q)
  /\ Sample.offline (BlockchainService.market_chart_url None "eth" "7") = None
  /\ JS.ascii_only "eth" = true
  /\ BlockchainService.valid_time (Sample.clock0 0) = true
  /\ BlockchainService.valid_time (Sample.clock0 0 - 7 * 86400000) = true
  /\ exists h,
      fst (fst (BlockchainService.getHistoricalPriceData Sample.half Sample.clock0
                  None Sample.offline Sample.parse_digit "eth" (Some "7")
                  Sample.world0)) = Some h
      /\ BlockchainService.hs_simulated h = true
      /\ length (BlockchainService.hs_prices h) = 8%nat.
Proof.
  split; [exact half_unit|]. split; [reflexivity|]. split; [reflexivity|].
  split; [reflexivity|]. split; [reflexivity|].
  destruct (getHistoricalPriceData_simulated Sample.half Sample.clock0 None Sample.offline
              Sample.parse_digit half_unit "eth" (Some "7") Sample.world0
              eq_refl eq_refl eq_refl)
    as (_ & Hdays & _).
  destruct (Hdays 7%Z eq_refl ltac:(lia) eq_refl) as (h & Hh & Hsim & _ & Hlen & _).
  exists h. split; [exact Hh|]. split; [exact Hsim|exact Hlen].
Defined.

(** X3 for a disclosure of the credit score out of alice's data. *)
Lemma disclose_only_requested_witness :
  Forall (fun field => JS.inherited field = false) ["creditScore"]
  /\ (PrivacyService.disclose Sample.alice_data ["creditScore"] !! "income" = None).
Proof.
  assert (Hfields : Forall (fun field => JS.inherited field = false) ["creditScore"])
    by (constructor; [reflexivity|constructor]).
  split; [exact Hfields|].
  destruct (PrivacyService.disclose Sample.alice_data ["creditScore"] !! "income")
    as [v|] eqn:Hv; [|reflexivity].
  apply (disclose_only_requested Sample.alice_data ["creditScore"] "income" v Hfields) in Hv.
  destruct Hv as [Hin _].
  apply elem_of_cons in Hin as [Hin|Hin]; [discriminate|]. by apply elem_of_nil in Hin.
Defined.

(** X16 for the symbol of ether in mixed case. *)
Lemma getCoingeckoId_ignores_case_witness :
  JS.ascii_only "Eth" = true
  /\ BlockchainService.getCoingeckoId "Eth" = "ethereum".
Proof.
  split; [reflexivity|].
  destruct (getCoingeckoId_ignores_case "Eth" eq_refl) as (_ & _ & Hid & _).
  apply Hid. reflexivity.
Defined.

(** X19 for the demo user. *)
Lemma getBankAccounts_accounts_witness :
  (forall n, (0 <= Sample.half n < 1)%Q)
  /\ length (MockBankingService.accounts_of
               (fst (MockBankingService.getBankAccounts Sample.half Sample.clock0
                       Sample.digits36 "demo-user-id" Sample.world0))) = 3%nat.
Proof.
  split; [exact half_unit|].
  destruct (getBankAccounts_accounts Sample.half Sample.clock0 Sample.digits36 half_unit
              "demo-user-id" Sample.world0)
    as (_ & Hnames & _).
  apply (f_equal (@length string)) in Hnames. rewrite length_map in Hnames. exact Hnames.
Defined.


(** X21 for draws of one half. *)
Lemma analyzeSpending_totals_witness :
  (forall n, (0 <= Sample.half n < 1)%Q)
  /\ exists raw : list Q,
      MockBankingService.totalSpending
        (fst (MockBankingService.analyzeSpending Sample.half "demo-user-id" Sample.world0))
      = MockBankingService.toFixed2 (MockBankingService.sumQ (map MockBankingService.fixed2 raw))
      /\ (MockBankingService.fixed2 (MockBankingService.sumQ (map MockBankingService.fixed2 raw))
          == MockBankingService.sumQ (map MockBankingService.fixed2 raw))%Q.
Proof.
  split; [exact half_unit|].
  destruct (analyzeSpending_totals Sample.half half_unit "demo-user-id" Sample.world0)
    as (raw & shares & _ & _ & _ & _ & _ & Htotal & Hexact & _).
  exists raw. split; [exact Htotal|exact Hexact].
Defined.

(** X22 for the description of a refund. *)
Lemma categorizeTransaction_keywords_witness :
  (BlockchainService.toLowerCase "DEPOSIT" = "salary"
   \/ BlockchainService.toLowerCase "DEPOSIT" = "deposit")
  /\ BankingService.categorizeTransaction ("Grocery store " +:+ "DEPOSIT" +:+ " refund")
     = "income".
Proof.
  assert (Hword : BlockchainService.toLowerCase "DEPOSIT" = "salary"
                  \/ BlockchainService.toLowerCase "DEPOSIT" = "deposit")
    by (right; reflexivity).
  split; [exact Hword|].
  destruct (categorizeTransaction_keywords "" "Grocery store " "DEPOSIT" " refund")
    as (_ & _ & Hincome).
  exact (Hincome Hword).
Defined.

(** X24 for the checking account of the user user123 and the user user456. *)
Lemma accounts_are_per_user_witness :
  Sample.checking_account ∈ default [] (BankingService.mockBankAccounts !! "user123")
  /\ "user456" <> "user123"
  /\ BankingService.fetchAccountTransactions Sample.no_calendar "user456" "acc_1001"
       Sample.all_transactions
     = BankingService.NotFound "Account not found".
Proof.
  assert (Hacc : Sample.checking_account
                 ∈ default [] (BankingService.mockBankAccounts !! "user123")).
  { unfold BankingService.mockBankAccounts. rewrite lookup_insert_eq.
    apply list_elem_of_here. }
  split; [exact Hacc|]. split; [discriminate|].
  destruct (accounts_are_per_user Sample.no_calendar "user123" "user456"
              Sample.checking_account Sample.all_transactions Hacc)
    as (Hother & _); [discriminate|].
  exact Hother.
Defined.

End MoreWitnesses.
